(** * Multi-backend PDF text extraction: model of [src/pdf_parser.py]

    The development embeds [PDFParser.extract_text] and the helpers it
    calls: backend selection, metadata and page extraction, the quality
    heuristics and the low-quality fallback.

    Conventions of the embedding.
    - A Python [str] is a list of Unicode code points ([list N]); [len]
      is [length].
    - Python floats are read as exact rationals ([Q]).  Every comparison
      in the source is between a quotient of two integer counts and a small
      literal, or between two scores.
    - [self] is the record [Parser]; only its [backend] attribute is ever
      assigned after construction.  Logger calls are collected in a trace.
    - The three PDF libraries are outside the repository.  What a library
      reports for the file is a [DocView]; any of its calls may raise.
    - Elapsed wall-clock time ([extraction_time]) is not represented.
    - [pathlib] answers [suffix] without raising; [exists()] and [stat()]
      may raise.
    - [ExtractionResult.text] is the field [result_text]; [PageData.text]
      keeps its name. *)

From Stdlib Require Import List Sorted ZArith QArith Qminmax Bool String Ascii.
From Stdlib Require Import Lia Lqa.
Import ListNotations.
Local Open Scope Z_scope.

(* ================================================================== *)
(** ** Text *)

Module Text.

Definition str := list N.

(** Code points of an ASCII literal, for readable examples. *)
Fixpoint of_string (s : string) : str :=
  match s with
  | EmptyString => []
  | String c s' => N_of_ascii c :: of_string s'
  end.

Definition NL : N := 10%N.
Definition SP : N := 32%N.

(** [str.isspace] for one code point: the set used by [split()] and
    [strip()] without arguments. *)
Definition isspace (c : N) : bool :=
  ((9 <=? c) && (c <=? 13) || (28 <=? c) && (c <=? 32)
   || (c =? 133) || (c =? 160) || (c =? 5760)
   || (8192 <=? c) && (c <=? 8202)
   || (c =? 8232) || (c =? 8233) || (c =? 8239) || (c =? 8287)
   || (c =? 12288))%N.

(** [s.split()]: maximal runs of non-whitespace, in order.  [cur] holds
    the run being read, reversed. *)
Fixpoint split_from (cur : str) (s : str) : list str :=
  match s with
  | [] => match cur with [] => [] | _ => [rev cur] end
  | c :: s' =>
      if isspace c
      then match cur with
           | [] => split_from [] s'
           | _ => rev cur :: split_from [] s'
           end
      else split_from (c :: cur) s'
  end.

Definition split (s : str) : list str := split_from [] s.

(** [s.split(sep)] for a one-character separator: every separator cuts,
    empty pieces are kept. *)
Fixpoint split_on_from (sep : N) (cur : str) (s : str) : list str :=
  match s with
  | [] => [rev cur]
  | c :: s' =>
      if (c =? sep)%N then rev cur :: split_on_from sep [] s'
      else split_on_from sep (c :: cur) s'
  end.

Definition split_on (sep : N) (s : str) : list str := split_on_from sep [] s.

Fixpoint lstrip (s : str) : str :=
  match s with
  | [] => []
  | c :: s' => if isspace c then lstrip s' else s
  end.

(** [s.strip()] *)
Definition strip (s : str) : str := rev (lstrip (rev (lstrip s))).

(** Truth value of a string: non-empty. *)
Definition truthy (s : str) : bool :=
  match s with [] => false | _ => true end.

(** [s.count(c)] for a single character. *)
Definition count (c : N) (s : str) : Z :=
  Z.of_nat (List.length (filter (fun x => (x =? c)%N) s)).

Fixpoint starts_with (p s : str) : bool :=
  match p, s with
  | [], _ => true
  | _ :: _, [] => false
  | a :: p', b :: s' => (a =? b)%N && starts_with p' s'
  end.

(** [sub in s] *)
Fixpoint contains (sub s : str) : bool :=
  starts_with sub s ||
  match s with
  | [] => false
  | _ :: s' => contains sub s'
  end.

(** [sep.join(parts)] *)
Fixpoint join (sep : str) (parts : list str) : str :=
  match parts with
  | [] => []
  | [p] => p
  | p :: rest => p ++ sep ++ join sep rest
  end.

Definition len (s : str) : Z := Z.of_nat (List.length s).

End Text.

Import Text.

(* ================================================================== *)
(** ** Data model (lines 43-100) *)

Inductive ExtractionMode := FAST | NORMAL | HIGH_QUALITY | LAYOUT_AWARE.

Inductive ChunkStrategy := PAGE | PARAGRAPH | SECTION | FIXED_SIZE | SMART.

Record PDFMetadata := mkPDFMetadata {
  title : option string;
  author : option string;
  subject : option string;
  keywords : option string;
  creator : option string;
  producer : option string;
  creation_date : option string;
  modification_date : option string;
  page_count : Z;
  file_size : Z;
  is_encrypted : bool;
  is_linearized : bool;
  pdf_version : option string
}.

(** [PDFMetadata()] *)
Definition default_metadata : PDFMetadata :=
  mkPDFMetadata None None None None None None None None 0 0 false false None.

Record PageData := mkPageData {
  page_number : Z;
  text : str;
  word_count : Z;
  char_count : Z;
  has_images : bool;
  has_tables : bool;
  extraction_quality : Q
}.

(** [page_data.extraction_quality = q] *)
Definition set_extraction_quality (q : Q) (p : PageData) : PageData :=
  mkPageData (page_number p) (text p) (word_count p) (char_count p)
             (has_images p) (has_tables p) q.

Record ExtractionResult := mkExtractionResult {
  success : bool;
  result_text : str;
  pages : list PageData;
  metadata : PDFMetadata;
  backend_used : string;
  quality_score : Q;
  error_message : option string
}.

(** Python exceptions, each with the text [str(e)] gives. *)
Inductive exn :=
| ImportError (msg : string)
| ValueError (msg : string)
| OSError (msg : string)
| AttributeError (msg : string)
| TypeError (msg : string)
| RecursionError (msg : string)
| BackendError (msg : string).

Definition exn_str (e : exn) : string :=
  match e with
  | ImportError m | ValueError m | OSError m | AttributeError m
  | TypeError m | RecursionError m | BackendError m => m
  end.

Inductive Outcome (A : Type) :=
| Return (a : A)
| Raise (e : exn).

Arguments Return {A} a.
Arguments Raise {A} e.

(* ================================================================== *)
(** ** Quality heuristics (lines 381-446) *)

Local Open Scope Q_scope.

(** [x < y] on scores, as a boolean. *)
Definition Qltb (x y : Q) : bool := negb (Qle_bool y x).

(** The literal tested at line 415, as the source file holds it: the
    three code points U+00EF U+00BF U+00BD. *)
Definition artifact : str := [239%N; 191%N; 189%N].

Definition double_space : str := [SP; SP].

(** [_detect_tables_in_text] *)
Definition _detect_tables_in_text (t : str) : bool :=
  if negb (truthy t) then false
  else
    let lines := split_on NL t in
    let aligned_lines :=
      List.length
        (filter (fun line =>
                   (3 <=? List.length (split line))%nat
                   && contains double_space line) lines) in
    (3 <=? aligned_lines)%nat.

(** [_assess_page_quality] *)
Definition _assess_page_quality (page_data : PageData) : Q :=
  if (char_count page_data =? 0)%Z then 0
  else
    let quality_score := 1 in
    let quality_score :=
      if (char_count page_data <? 50)%Z
      then quality_score * 0.5 else quality_score in
    let quality_score :=
      if (0 <? word_count page_data)%Z then
        let char_per_word :=
          inject_Z (char_count page_data) / inject_Z (word_count page_data) in
        if Qltb 15 char_per_word
        then quality_score * 0.7 else quality_score
      else quality_score in
    let quality_score :=
      if contains artifact (text page_data)
         || Qltb 0.1 (inject_Z (count NL (text page_data))
                      / inject_Z (Z.max 1 (char_count page_data)))
      then quality_score * 0.8 else quality_score in
    Qmin 1 quality_score.

(** [sum(page.extraction_quality for page in pages_data)] *)
Definition sum_quality (pages_data : list PageData) : Q :=
  fold_left (fun acc p => acc + extraction_quality p) pages_data 0.

(** [_assess_extraction_quality] *)
Definition _assess_extraction_quality
    (pages_data : list PageData) (full_text : str) : Q :=
  match pages_data with
  | [] => 0
  | _ =>
    let avg_page_quality :=
      sum_quality pages_data / inject_Z (Z.of_nat (List.length pages_data)) in
    let total_chars := len full_text in
    let total_words := Z.of_nat (List.length (split full_text)) in
    if (total_chars =? 0)%Z then 0
    else
      let quality_score := avg_page_quality in
      let quality_score :=
        if (0 <? total_words)%Z then
          let avg_word_length := inject_Z total_chars / inject_Z total_words in
          if Qle_bool 2 avg_word_length && Qle_bool avg_word_length 12
          then quality_score * 1.1
          else quality_score * 0.9
        else quality_score in
      Qmin 1 quality_score
  end.

(** The text of a successful result (line 215): the pages whose text is
    not blank, separated by one empty line. *)
Definition full_text_of (pages_data : list PageData) : str :=
  join [NL; NL]
       (map text (filter (fun page => truthy (strip (text page))) pages_data)).

Local Close Scope Q_scope.

(* ================================================================== *)
(** ** Backends, the file and what the libraries report *)

Inductive Backend := pymupdf | pdfplumber | pypdf2.

Definition backend_name (b : Backend) : string :=
  match b with
  | pymupdf => "pymupdf"
  | pdfplumber => "pdfplumber"
  | pypdf2 => "pypdf2"
  end.

Definition backend_eqb (a b : Backend) : bool :=
  match a, b with
  | pymupdf, pymupdf | pdfplumber, pdfplumber | pypdf2, pypdf2 => true
  | _, _ => false
  end.

(** One page as a library hands it out.  [pv_raises]: loading the page
    or reading its content raises.  [pv_text = None]: the text call
    returns [None]. *)
Record PageView := mkPageView {
  pv_raises : option exn;
  pv_text : option str;
  pv_images : nat;
  pv_tables : nat
}.

Definition InfoDict := string -> option string.

(** One library's view of the document.  [dv_open_raises]: opening the
    file raises.  [dv_info]: the document's metadata attribute, which can
    raise, be [None], or be a dictionary. *)
Record DocView := mkDocView {
  dv_open_raises : option exn;
  dv_info : Outcome (option InfoDict);
  dv_encrypted : bool;
  dv_is_pdf : bool;
  dv_pages : list PageView
}.

(** What [pathlib] reports for [file_path]. *)
Record PathView := mkPathView {
  path_text : string;
  path_name : string;
  suffix : string;
  path_exists : Outcome bool;
  st_size : Outcome Z
}.

(** The module globals set by the guarded imports (lines 20-40), the file
    and the libraries' views of it. *)
Record Env := mkEnv {
  _has_pymupdf : bool;
  _has_pdfplumber : bool;
  _has_pypdf2 : bool;
  file_path : PathView;
  view : Backend -> DocView
}.

(** [str.lower] on ASCII letters. *)
Definition lower_ascii (c : ascii) : ascii :=
  let n := nat_of_ascii c in
  if ((65 <=? n) && (n <=? 90))%nat then ascii_of_nat (n + 32) else c.

Fixpoint lower (s : string) : string :=
  match s with
  | EmptyString => EmptyString
  | String c s' => String (lower_ascii c) (lower s')
  end.

(* ================================================================== *)
(** ** The parser object and its effects *)

Record Parser := mkParser {
  extraction_mode : ExtractionMode;
  chunk_strategy : ChunkStrategy;
  max_chunk_size : Z;
  min_chunk_size : Z;
  quality_threshold : Q;
  preferred_backend : string;
  backend : Backend
}.

(** [self.backend = b] *)
Definition with_backend (b : Backend) (self : Parser) : Parser :=
  mkParser (extraction_mode self) (chunk_strategy self) (max_chunk_size self)
           (min_chunk_size self) (quality_threshold self)
           (preferred_backend self) b.

(** The logger calls on the extraction path. *)
Inductive LogEvent :=
| Info_initialized (b : Backend)                    (* line 137 *)
| Warn_backend_unavailable (requested : string)     (* line 150 *)
| Warn_metadata (e : exn)                           (* line 300 *)
| Error_page_content (e : exn)                      (* line 377 *)
| Info_low_quality (q : Q)                          (* line 234 *)
| Info_trying_fallback (b : Backend)                (* line 473 *)
| Info_fallback_improved (q : Q)                    (* line 237 *)
| Info_extracted (n_pages : nat)                    (* line 240 *)
| Error_extracting (e : exn).                       (* line 244 *)

(** A method call started on [self]: the object afterwards, what was
    logged, and the value returned or the exception raised. *)
Record Run (A : Type) := mkRun {
  final : Parser;
  trace : list LogEvent;
  outcome : Outcome A
}.

Arguments mkRun {A} final trace outcome.
Arguments final {A} r.
Arguments trace {A} r.
Arguments outcome {A} r.

Definition M (A : Type) : Type := Parser -> Run A.

Definition ret {A} (a : A) : M A := fun self => mkRun self [] (Return a).

Definition raise {A} (e : exn) : M A := fun self => mkRun self [] (Raise e).

Definition bind {A B} (m : M A) (f : A -> M B) : M B := fun self =>
  let r := m self in
  match outcome r with
  | Return a =>
      let r' := f a (final r) in
      mkRun (final r') (trace r ++ trace r') (outcome r')
  | Raise e => mkRun (final r) (trace r) (Raise e)
  end.

Declare Scope py_scope.
Delimit Scope py_scope with py.
Notation "x <- m ;; k" := (bind m (fun x => k))
  (at level 100, m at next level, right associativity) : py_scope.
Notation "m ;; k" := (bind m (fun _ => k))
  (at level 100, right associativity) : py_scope.
Local Open Scope py_scope.

(** [try: m  except Exception as e: h e] *)
Definition try_except {A} (m : M A) (h : exn -> M A) : M A := fun self =>
  let r := m self in
  match outcome r with
  | Return _ => r
  | Raise e =>
      let r' := h e (final r) in
      mkRun (final r') (trace r ++ trace r') (outcome r')
  end.

(** [try: m  finally: fin] *)
Definition try_finally {A} (m : M A) (fin : M unit) : M A := fun self =>
  let r := m self in
  let r' := fin (final r) in
  mkRun (final r') (trace r ++ trace r')
        (match outcome r' with
         | Raise e => Raise e
         | Return _ => outcome r
         end).

Definition get_backend : M Backend := fun self => mkRun self [] (Return (backend self)).

Definition set_backend (b : Backend) : M unit := fun self =>
  mkRun (with_backend b self) [] (Return tt).

Definition get_quality_threshold : M Q := fun self =>
  mkRun self [] (Return (quality_threshold self)).

Definition log (ev : LogEvent) : M unit := fun self => mkRun self [ev] (Return tt).

Definition lift {A} (o : Outcome A) : M A := fun self => mkRun self [] o.

(* ================================================================== *)
(** ** Construction and backend selection (lines 115-160, 494-502) *)

Local Open Scope string_scope.

(** The keys [__init__] reads from the configuration dictionary; [None]
    for an absent key. *)
Record Config := mkConfig {
  cfg_extraction_mode : option string;
  cfg_chunk_strategy : option string;
  cfg_max_chunk_size : option Z;
  cfg_min_chunk_size : option Z;
  cfg_quality_threshold : option Q;
  cfg_backend : option string
}.

(** [dict.get(key, default)] *)
Definition get_or {A} (o : option A) (default : A) : A :=
  match o with Some a => a | None => default end.

(** [ExtractionMode(value)] *)
Definition parse_extraction_mode (s : string) : Outcome ExtractionMode :=
  if String.eqb s "fast" then Return FAST
  else if String.eqb s "normal" then Return NORMAL
  else if String.eqb s "high_quality" then Return HIGH_QUALITY
  else if String.eqb s "layout_aware" then Return LAYOUT_AWARE
  else Raise (ValueError (s ++ " is not a valid ExtractionMode")%string).

(** [ChunkStrategy(value)] *)
Definition parse_chunk_strategy (s : string) : Outcome ChunkStrategy :=
  if String.eqb s "page" then Return PAGE
  else if String.eqb s "paragraph" then Return PARAGRAPH
  else if String.eqb s "section" then Return SECTION
  else if String.eqb s "fixed_size" then Return FIXED_SIZE
  else if String.eqb s "smart" then Return SMART
  else Raise (ValueError (s ++ " is not a valid ChunkStrategy")%string).

(** [_backend_available] *)
Definition _backend_available (E : Env) (b : Backend) : bool :=
  match b with
  | pymupdf => _has_pymupdf E
  | pdfplumber => _has_pdfplumber E
  | pypdf2 => _has_pypdf2 E
  end.

Definition no_backend_message : string :=
  "No PDF parsing libraries available. Install PyMuPDF, pdfplumber, or PyPDF2".

(** [_select_pdf_backend]: what is logged and the backend returned or the
    [ImportError] raised. *)
Definition _select_pdf_backend (E : Env) (preferred : string)
  : list LogEvent * Outcome Backend :=
  let auto :=
    if _has_pymupdf E then Return pymupdf
    else if _has_pdfplumber E then Return pdfplumber
    else if _has_pypdf2 E then Return pypdf2
    else Raise (ImportError no_backend_message) in
  if negb (String.eqb preferred "auto") then
    if String.eqb preferred "pymupdf" && _has_pymupdf E then ([], Return pymupdf)
    else if String.eqb preferred "pdfplumber" && _has_pdfplumber E
    then ([], Return pdfplumber)
    else if String.eqb preferred "pypdf2" && _has_pypdf2 E
    then ([], Return pypdf2)
    else ([Warn_backend_unavailable preferred], auto)
  else ([], auto).

(** [PDFParser.__init__] *)
Definition __init__ (E : Env) (config : Config)
  : list LogEvent * Outcome Parser :=
  match parse_extraction_mode (get_or (cfg_extraction_mode config) "normal"%string) with
  | Raise e => ([], Raise e)
  | Return mode =>
    match parse_chunk_strategy (get_or (cfg_chunk_strategy config) "page"%string) with
    | Raise e => ([], Raise e)
    | Return strategy =>
      let preferred := get_or (cfg_backend config) "auto"%string in
      match _select_pdf_backend E preferred with
      | (evs, Raise e) => (evs, Raise e)
      | (evs, Return b) =>
          ((evs ++ [Info_initialized b])%list,
           Return (mkParser mode strategy
                            (get_or (cfg_max_chunk_size config) 4000)
                            (get_or (cfg_min_chunk_size config) 100)
                            (get_or (cfg_quality_threshold config) 0.7%Q)
                            preferred b))
      end
    end
  end.

(** [can_parse]: [and] calls [exists()] only for a [.pdf] suffix, and
    [exists()] raises the [OSError] it does not take for a missing file. *)
Definition can_parse (E : Env) : Outcome bool :=
  if String.eqb (lower (suffix (file_path E))) ".pdf"
  then path_exists (file_path E)
  else Return false.

(* ================================================================== *)
(** ** Metadata (lines 255-302) *)

Definition set_file_size (n : Z) (m : PDFMetadata) : PDFMetadata :=
  mkPDFMetadata (title m) (author m) (subject m) (keywords m) (creator m)
    (producer m) (creation_date m) (modification_date m) (page_count m) n
    (is_encrypted m) (is_linearized m) (pdf_version m).

Definition set_page_count (n : Z) (m : PDFMetadata) : PDFMetadata :=
  mkPDFMetadata (title m) (author m) (subject m) (keywords m) (creator m)
    (producer m) (creation_date m) (modification_date m) n (file_size m)
    (is_encrypted m) (is_linearized m) (pdf_version m).

Definition set_is_encrypted (b : bool) (m : PDFMetadata) : PDFMetadata :=
  mkPDFMetadata (title m) (author m) (subject m) (keywords m) (creator m)
    (producer m) (creation_date m) (modification_date m) (page_count m)
    (file_size m) b (is_linearized m) (pdf_version m).

Definition set_is_linearized (b : bool) (m : PDFMetadata) : PDFMetadata :=
  mkPDFMetadata (title m) (author m) (subject m) (keywords m) (creator m)
    (producer m) (creation_date m) (modification_date m) (page_count m)
    (file_size m) (is_encrypted m) b (pdf_version m).

(** The six [meta.get(key)] assignments. *)
Definition set_info (meta : InfoDict) (key : string -> string)
    (m : PDFMetadata) : PDFMetadata :=
  mkPDFMetadata (meta (key "title")) (meta (key "author"))
    (meta (key "subject")) (meta (key "keywords"))
    (meta (key "creator")) (meta (key "producer"))
    (creation_date m) (modification_date m) (page_count m) (file_size m)
    (is_encrypted m) (is_linearized m) (pdf_version m).

(** The spelling of a metadata key in each library: ['title'], ['Title'],
    ['/Title']. *)
Definition capitalize (s : string) : string :=
  match s with
  | EmptyString => EmptyString
  | String c s' =>
      let n := nat_of_ascii c in
      String (if ((97 <=? n) && (n <=? 122))%nat then ascii_of_nat (n - 32) else c) s'
  end.

Definition info_key (b : Backend) (s : string) : string :=
  match b with
  | pymupdf => s
  | pdfplumber => capitalize s
  | pypdf2 => String "/" (capitalize s)
  end.

Definition n_pages (v : DocView) : Z := Z.of_nat (List.length (dv_pages v)).

(** The body of the [try] at lines 260-297: the record as far as it was
    filled, and the exception that stopped the filling, if any. *)
Definition read_metadata (b : Backend) (v : DocView) (m : PDFMetadata)
  : PDFMetadata * option exn :=
  match dv_open_raises v with
  | Some e => (m, Some e)
  | None =>
    match b with
    | pymupdf =>
        match dv_info v with
        | Raise e => (m, Some e)
        | Return None =>
            (m, Some (AttributeError "'NoneType' object has no attribute 'get'"))
        | Return (Some meta) =>
            (set_is_linearized (dv_is_pdf v)
               (set_is_encrypted (dv_encrypted v)
                  (set_page_count (n_pages v) (set_info meta (info_key pymupdf) m))),
             None)
        end
    | pdfplumber =>
        let m := set_page_count (n_pages v) m in
        match dv_info v with
        | Raise e => (m, Some e)
        | Return None => (m, None)
        | Return (Some meta) => (set_info meta (info_key pdfplumber) m, None)
        end
    | pypdf2 =>
        let m := set_page_count (n_pages v) m in
        let m := set_is_encrypted (dv_encrypted v) m in
        match dv_info v with
        | Raise e => (m, Some e)
        | Return None => (m, None)
        | Return (Some meta) => (set_info meta (info_key pypdf2) m, None)
        end
    end
  end.

(** [_extract_metadata]: [stat()] is outside the [try]. *)
Definition _extract_metadata (E : Env) : M PDFMetadata :=
  size <- lift (st_size (file_path E)) ;;
  let metadata := set_file_size size default_metadata in
  b <- get_backend ;;
  match read_metadata b (view E b) metadata with
  | (metadata, Some e) => log (Warn_metadata e) ;; ret metadata
  | (metadata, None) => ret metadata
  end.

(* ================================================================== *)
(** ** Page content (lines 304-379) *)

(** [target_pages and n not in target_pages] *)
Definition skipped (target_pages : option (list Z)) (n : Z) : bool :=
  match target_pages with
  | None | Some [] => false
  | Some l => negb (existsb (Z.eqb n) l)
  end.

(** One iteration of the loop for a page that is not skipped: the library
    calls, the [PageData] constructor and the page score. *)
Definition read_page (b : Backend) (n : Z) (v : PageView) : Outcome PageData :=
  match pv_raises v with
  | Some e => Raise e
  | None =>
    let text :=
      match b with
      | pdfplumber => Some (get_or (pv_text v) [])     (* [... or ""] *)
      | _ => pv_text v
      end in
    match text with
    | None => Raise (TypeError "object of type 'NoneType' has no len()")
    | Some t =>
      let page_data :=
        mkPageData n t
          (if truthy t then Z.of_nat (List.length (split t)) else 0)
          (len t)
          (match b with
           | pymupdf | pdfplumber => (0 <? pv_images v)%nat
           | pypdf2 => false
           end)
          (match b with
           | pdfplumber => (0 <? pv_tables v)%nat
           | _ => _detect_tables_in_text t
           end)
          1%Q in
      Return (set_extraction_quality (_assess_page_quality page_data) page_data)
    end
  end.

(** The loop over the document's pages, [page_num] counting from 0: the
    records appended, and the exception that ended the loop, if any. *)
Fixpoint collect_pages (b : Backend) (target_pages : option (list Z))
    (page_num : Z) (vs : list PageView) : list PageData * option exn :=
  match vs with
  | [] => ([], None)
  | v :: vs' =>
      if skipped target_pages (page_num + 1)
      then collect_pages b target_pages (page_num + 1) vs'
      else
        match read_page b (page_num + 1) v with
        | Raise e => ([], Some e)
        | Return page_data =>
            let (rest, err) := collect_pages b target_pages (page_num + 1) vs' in
            (page_data :: rest, err)
        end
  end.

(** [_extract_pages_content] *)
Definition _extract_pages_content (E : Env) (metadata : PDFMetadata)
    (target_pages : option (list Z)) : M (list PageData) :=
  b <- get_backend ;;
  match dv_open_raises (view E b) with
  | Some e => log (Error_page_content e) ;; ret []
  | None =>
      match collect_pages b target_pages 0 (dv_pages (view E b)) with
      | (pages_data, Some e) => log (Error_page_content e) ;; ret pages_data
      | (pages_data, None) => ret pages_data
      end
  end.

(* ================================================================== *)
(** ** Extraction with fallback (lines 167-253, 448-492) *)

(** The failed results the source builds; [quality_score] keeps the
    dataclass default. *)
Definition failure (m : PDFMetadata) (used : string) (msg : string)
  : ExtractionResult :=
  mkExtractionResult false [] [] m used 1%Q (Some msg).

Definition fallback_order : list Backend := [pymupdf; pdfplumber; pypdf2].

(** [_has_fallback_backend] *)
Definition _has_fallback_backend (E : Env) : M bool :=
  b <- get_backend ;;
  let all_backends := filter (_backend_available E) fallback_order in
  ret (existsb (fun x => negb (backend_eqb x b)) all_backends).

(** [1 <= p <= metadata.page_count] *)
Definition in_range (count : Z) (p : Z) : bool :=
  (1 <=? p)%Z && (p <=? count)%Z.

(** Lines 198-209.  [None]: no requested page is in range. *)
Definition validate_pages (count : Z) (pages : option (list Z))
  : option (option (list Z)) :=
  match pages with
  | None => Some None
  | Some [] => Some (Some [])
  | Some l =>
      match filter (in_range count) l with
      | [] => None
      | l' => Some (Some l')
      end
  end.

(** What lines 194-230 leave behind: an early [return], or the result
    built at line 222 with the page selection as filtered. *)
Inductive Attempt :=
| Early (r : ExtractionResult)
| Extracted (result : ExtractionResult) (pages : option (list Z)).

(** Lines 194-230 *)
Definition first_attempt (E : Env) (pages : option (list Z)) : M Attempt :=
  metadata <- _extract_metadata E ;;
  match validate_pages (page_count metadata) pages with
  | None =>
      b <- get_backend ;;
      ret (Early (failure metadata (backend_name b) "No valid pages specified"))
  | Some pages =>
      pages_data <- _extract_pages_content E metadata pages ;;
      let full_text := full_text_of pages_data in
      let quality_score := _assess_extraction_quality pages_data full_text in
      b <- get_backend ;;
      ret (Extracted
             (mkExtractionResult true full_text pages_data metadata
                                 (backend_name b) quality_score None)
             pages)
  end.

Section Recursion.

(** [self.extract_text], as the fallback calls it. *)
Variable self_extract_text : option (list Z) -> M ExtractionResult.

Variable E : Env.

(** The [for] loop of lines 471-477; [Some r] is [return result]. *)
Fixpoint fallback_loop (original_backend : Backend) (pages : option (list Z))
    (order : list Backend) : M (option ExtractionResult) :=
  match order with
  | [] => ret None
  | b :: order' =>
      if negb (backend_eqb b original_backend) && _backend_available E b then
        log (Info_trying_fallback b) ;;
        set_backend b ;;
        result <- self_extract_text pages ;;
        if success result then ret (Some result)
        else fallback_loop original_backend pages order'
      else fallback_loop original_backend pages order'
  end.

(** [_try_fallback_extraction] *)
Definition _try_fallback_extraction (pages : option (list Z))
  : M ExtractionResult :=
  original_backend <- get_backend ;;
  found <- try_finally (fallback_loop original_backend pages fallback_order)
                       (set_backend original_backend) ;;
  match found with
  | Some result => ret result
  | None =>
      ret (failure default_metadata "fallback_failed"
                   "All fallback backends failed")
  end.

(** Lines 232-241; [requested] is the local [pages] after line 199. *)
Definition retry_if_low (result : ExtractionResult)
    (requested : option (list Z)) : M ExtractionResult :=
  let score := quality_score result in
  threshold <- get_quality_threshold ;;
  has_fallback <- _has_fallback_backend E ;;
  if Qltb score threshold && has_fallback then
    log (Info_low_quality score) ;;
    fallback_result <- _try_fallback_extraction requested ;;
    if success fallback_result && Qltb score (quality_score fallback_result)
    then
      log (Info_fallback_improved (quality_score fallback_result)) ;;
      ret fallback_result
    else
      log (Info_extracted (List.length (pages result))) ;;
      ret result
  else
    log (Info_extracted (List.length (pages result))) ;;
    ret result.

(** The [try] block of [extract_text], lines 194-241 *)
Definition extract_text_try (pages : option (list Z)) : M ExtractionResult :=
  attempt <- first_attempt E pages ;;
  match attempt with
  | Early r => ret r
  | Extracted result pages => retry_if_low result pages
  end.

(** The body of [extract_text] *)
Definition extract_text_body (pages : option (list Z)) : M ExtractionResult :=
  parseable <- lift (can_parse E) ;;              (* outside the [try] *)
  if negb parseable then
    b <- get_backend ;;
    ret (failure default_metadata (backend_name b)
                 ("Cannot parse file: " ++ path_text (file_path E)))
  else
    try_except
      (extract_text_try pages)
      (fun e =>
         log (Error_extracting e) ;;
         b <- get_backend ;;
         ret (failure default_metadata (backend_name b) (exn_str e))).

End Recursion.

Definition recursion_message : string :=
  "maximum recursion depth exceeded".

(** [extract_text].  [depth] is how many further nested activations of
    [extract_text] the interpreter's recursion limit leaves room for; the
    call that would exceed it raises [RecursionError]. *)
Fixpoint extract_text (depth : nat) (E : Env) (pages : option (list Z))
  : M ExtractionResult :=
  extract_text_body
    (match depth with
     | O => fun _ => raise (RecursionError recursion_message)
     | S depth' => extract_text depth' E
     end)
    E pages.

(** The call [self.extract_text(file_path, pages)] made by the fallback
    of an activation that has [depth] left. *)
Definition nested_call (depth : nat) (E : Env)
  : option (list Z) -> M ExtractionResult :=
  match depth with
  | O => fun _ => raise (RecursionError recursion_message)
  | S depth' => extract_text depth' E
  end.

(** Some backend other than [b] was imported. *)
Definition has_other_backend (E : Env) (b : Backend) : bool :=
  existsb (fun x => negb (backend_eqb x b))
          (filter (_backend_available E) fallback_order).

(** Some character of [s] is not whitespace. *)
Definition has_visible (s : str) : bool :=
  existsb (fun c => negb (isspace c)) s.

(* ================================================================== *)
(** ** The specification's wording of the two scores *)

Local Open Scope Q_scope.

(** Per-page score: 1.0, with the three multiplicative penalties, at most
    1.0; 0.0 for a page without characters. *)
Definition page_score_spec (p : PageData) : Q :=
  let chars := char_count p in
  let words := word_count p in
  if (chars =? 0)%Z then 0
  else
    Qmin 1
      (1
       * (if (0 <? chars)%Z && (chars <? 50)%Z then 0.5 else 1)
       * (if (0 <? words)%Z && Qltb 15 (inject_Z chars / inject_Z words)
          then 0.7 else 1)
       * (if contains artifact (text p)
             || Qltb (0.1 * inject_Z chars) (inject_Z (count NL (text p)))
          then 0.8 else 1)).

(** Mean of the per-page scores. *)
Definition mean_quality (pages_data : list PageData) : Q :=
  fold_right Qplus 0 (map extraction_quality pages_data)
  / inject_Z (Z.of_nat (List.length pages_data)).

Definition clamp01 (x : Q) : Q := Qmax 0 (Qmin 1 x).

(** Aggregate score: the mean times 1.1 or 0.9, clamped to [0, 1]; 0.0
    without pages or without characters. *)
Definition aggregate_spec (pages_data : list PageData) : Q :=
  let full_text := full_text_of pages_data in
  let total_chars := len full_text in
  let total_words := Z.of_nat (List.length (split full_text)) in
  match pages_data with
  | [] => 0
  | _ =>
    if (total_chars =? 0)%Z then 0
    else
      let mean_word_length := inject_Z total_chars / inject_Z total_words in
      clamp01
        (mean_quality pages_data
         * (if (0 <? total_words)%Z
               && Qle_bool 2 mean_word_length && Qle_bool mean_word_length 12
            then 1.1 else 0.9))
  end.

Local Close Scope Q_scope.

(* ================================================================== *)
(** ** Notions used in the statements *)

(** The metadata record [_extract_metadata] returns under backend [b]. *)
Definition metadata_of (E : Env) (b : Backend) : Outcome PDFMetadata :=
  match st_size (file_path E) with
  | Raise e => Raise e
  | Return size =>
      Return (fst (read_metadata b (view E b)
                                 (set_file_size size default_metadata)))
  end.

(** The page records [_extract_pages_content] returns under backend [b]. *)
Definition pages_of (E : Env) (b : Backend) (target_pages : option (list Z))
  : list PageData :=
  match dv_open_raises (view E b) with
  | Some _ => []
  | None => fst (collect_pages b target_pages 0 (dv_pages (view E b)))
  end.

(** What lines 194-230 come to under backend [b]. *)
Definition attempt_of (E : Env) (b : Backend) (pages : option (list Z))
  : Outcome Attempt :=
  match metadata_of E b with
  | Raise e => Raise e
  | Return m =>
      match validate_pages (page_count m) pages with
      | None =>
          Return (Early (failure m (backend_name b) "No valid pages specified"))
      | Some p =>
          let pages_data := pages_of E b p in
          Return (Extracted
                    (mkExtractionResult true (full_text_of pages_data)
                       pages_data m (backend_name b)
                       (_assess_extraction_quality pages_data
                          (full_text_of pages_data))
                       None)
                    p)
      end
  end.

(** A non-empty explicit page list. *)
Definition explicit (pages : option (list Z)) : bool :=
  match pages with
  | Some (_ :: _) => true
  | _ => false
  end.

(** [p] is the selection [pages] or, for an explicit one, a non-empty part
    of it: what repeated filtering at line 199 can make of [pages]. *)
Definition narrows (pages p : option (list Z)) : Prop :=
  match pages, p with
  | None, None => True
  | Some [], Some [] => True
  | Some (x :: l), Some (y :: l') => incl (y :: l') (x :: l)
  | _, _ => False
  end.

(** Number of "Trying fallback backend" messages in a trace: the alternate
    backends an extraction was started with. *)
Definition fallback_attempts (t : list LogEvent) : nat :=
  List.length
    (filter (fun ev => match ev with Info_trying_fallback _ => true | _ => false end)
            t).

(** Exception [e] was caught and logged. *)
Definition caught (e : exn) (t : list LogEvent) : Prop :=
  In (Warn_metadata e) t \/ In (Error_page_content e) t
  \/ In (Error_extracting e) t.

(** What the loop of [_extract_pages_content] makes of a record: the
    counts are those of its text and the score is the page score. *)
Definition page_ok (p : PageData) : Prop :=
  char_count p = len (text p)
  /\ word_count p = Z.of_nat (List.length (split (text p)))
  /\ extraction_quality p = _assess_page_quality p.

(** The test of line 472: [b] is another backend than the original one
    and its library was imported. *)
Definition eligible (E : Env) (original b : Backend) : bool :=
  negb (backend_eqb b original) && _backend_available E b.

(** The ways one activation of [extract_text] comes to return [r], the
    nested call behaving as [rec]. *)
Inductive Returned (rec : option (list Z) -> M ExtractionResult) (E : Env)
    (pages : option (list Z)) (self : Parser) (r : ExtractionResult) : Prop :=
| Ret_cannot_parse :                                    (* line 183 *)
    can_parse E = Return false ->
    r = failure default_metadata (backend_name (backend self))
                ("Cannot parse file: " ++ path_text (file_path E)) ->
    Returned rec E pages self r
| Ret_no_valid_pages (m : PDFMetadata) :                (* line 201 *)
    can_parse E = Return true ->
    metadata_of E (backend self) = Return m ->
    validate_pages (page_count m) pages = None ->
    r = failure m (backend_name (backend self)) "No valid pages specified" ->
    Returned rec E pages self r
| Ret_stat_raised (e : exn) :                           (* line 245 *)
    can_parse E = Return true ->
    st_size (file_path E) = Raise e ->
    r = failure default_metadata (backend_name (backend self)) (exn_str e) ->
    Returned rec E pages self r
| Ret_own (requested : option (list Z)) :               (* line 241 *)
    can_parse E = Return true ->
    attempt_of E (backend self) pages = Return (Extracted r requested) ->
    Returned rec E pages self r
| Ret_fallback (result : ExtractionResult) (requested : option (list Z))
    (b : Backend) :                                     (* line 238 *)
    can_parse E = Return true ->
    attempt_of E (backend self) pages = Return (Extracted result requested) ->
    outcome (rec requested (with_backend b self)) = Return r ->
    success r = true ->
    (quality_score result < quality_score r)%Q ->
    Returned rec E pages self r
| Ret_nested_raised (result : ExtractionResult) (requested : option (list Z))
    (b : Backend) (e : exn) :                           (* line 245 *)
    can_parse E = Return true ->
    attempt_of E (backend self) pages = Return (Extracted result requested) ->
    outcome (rec requested (with_backend b self)) = Raise e ->
    r = failure default_metadata (backend_name (backend self)) (exn_str e) ->
    Returned rec E pages self r.

(** The metadata pass of PyMuPDF reaches line 270, where the page count
    is stored after the six [meta.get] calls, or fails at [fitz.open],
    which fails the page pass too. *)
Definition records_page_count (v : DocView) : bool :=
  match dv_open_raises v with
  | Some _ => true
  | None =>
      match dv_info v with
      | Return (Some _) => true
      | _ => false
      end
  end.

(** The library refuses the page. *)
Definition refused (v : PageView) : bool :=
  match pv_raises v with
  | Some _ => true
  | None => false
  end.

(** PyMuPDF hands out [doc.metadata] as a dictionary, except for a
    document that needs a password it was not given: then the attribute
    is [None] and loading any page raises.  A view agrees with the
    library when its metadata is a dictionary or none of its pages
    loads. *)
Definition metadata_or_locked (v : DocView) : bool :=
  match dv_info v with
  | Return (Some _) => true
  | _ => forallb refused (dv_pages v)
  end.

(** Under backend [b] the first attempt on [p] does not end in a result
    scoring below the parser's threshold, so extraction with [b] does not
    itself fall back. *)
Definition conclusive (E : Env) (self : Parser) (b : Backend)
    (p : option (list Z)) : bool :=
  match outcome (first_attempt E p (with_backend b self)) with
  | Return (Extracted r _) => negb (Qltb (quality_score r) (quality_threshold self))
  | _ => true
  end.

(** The result a run returned; the placeholder stands for a run that
    raised. *)
Definition returned (x : Run ExtractionResult) : ExtractionResult :=
  match outcome x with
  | Return r => r
  | Raise _ => failure default_metadata "" ""
  end.


(* ================================================================== *)
(** ** Sample documents *)

Module Sample.

Definition sentence : string :=
  "The quick brown fox jumps over the lazy dog and keeps running far away.".

Definition page (t : string) : PageView :=
  mkPageView None (Some (of_string t)) 0 0.

Definition no_info : InfoDict := fun _ => None.

(** A document the library reads without trouble. *)
Definition doc (texts : list string) : DocView :=
  mkDocView None (Return (Some no_info)) false true (map page texts).

(** A file the library cannot open. *)
Definition broken : DocView :=
  mkDocView (Some (BackendError "cannot open broken document"))
            (Return None) false true [].

(** A document that needs a password, as PyMuPDF shows it: no metadata
    and no page that loads. *)
Definition sealed_page : PageView :=
  mkPageView (Some (ValueError "document closed or encrypted")) None 0 0.

Definition sealed (n : nat) : DocView :=
  mkDocView None (Return None) true true (repeat sealed_page n).

Definition file : PathView :=
  mkPathView "report.pdf" "report.pdf" ".pdf" (Return true) (Return 2048).

(** The parser [PDFParser()] builds when PyMuPDF is installed. *)
Definition parser : Parser := mkParser NORMAL PAGE 4000 100 0.7%Q "auto" pymupdf.

(** All three libraries installed.  PyMuPDF reads two short pages,
    pdfplumber cannot open the file, PyPDF2 reads a full sentence on
    page 2. *)
Definition three_backends : Env :=
  mkEnv true true true file
        (fun b => match b with
                  | pymupdf => doc ["x"; "hi"]
                  | pdfplumber => broken
                  | pypdf2 => doc ["x"; sentence]
                  end).

(** Two libraries installed; both read the file, PyMuPDF poorly. *)
Definition two_backends : Env :=
  mkEnv true true false file
        (fun b => match b with
                  | pymupdf => doc ["x"; "hi"]
                  | pdfplumber => doc [sentence; sentence]
                  | pypdf2 => broken
                  end).

(** Only PyMuPDF installed, and it cannot open the file. *)
Definition unreadable : Env :=
  mkEnv true false false file (fun _ => broken).

(** Only PyMuPDF installed; the two-page document needs a password. *)
Definition locked : Env :=
  mkEnv true false false file (fun _ => sealed 2).

(** A five-page document read by PyMuPDF alone. *)
Definition five_pages : Env :=
  mkEnv true false false file
        (fun _ => doc [sentence; sentence; ""; sentence; sentence]).

(** Two libraries installed; both read the file poorly. *)
Definition two_poor_backends : Env :=
  mkEnv true true false file
        (fun b => match b with
                  | pymupdf => doc ["x"; "hi"]
                  | pdfplumber => doc ["y"]
                  | pypdf2 => broken
                  end).

(** The file vanishes between [exists()] and [stat()]. *)
Definition vanished : Env :=
  mkEnv true false false
        (mkPathView "report.pdf" "report.pdf" ".pdf" (Return true)
                    (Raise (OSError "No such file or directory: 'report.pdf'")))
        (fun _ => doc [sentence]).

(** No library could be imported. *)
Definition no_library : Env :=
  mkEnv false false false file (fun _ => broken).

End Sample.

(* ================================================================== *)
(** ** Page count and chunking (lines 504-570) *)

(** [get_page_count] *)
Definition get_page_count (E : Env) : M Z :=
  try_except
    (metadata <- _extract_metadata E ;;
     ret (page_count metadata))
    (fun _ => ret 0).

(** [s.replace(old, new)]: the occurrences of [old] are taken from left to
    right without overlap.  [fuel] bounds the characters still to scan. *)
Fixpoint replace_from (fuel : nat) (old new s : str) : str :=
  match fuel with
  | O => s
  | S fuel' =>
      match s with
      | [] => []
      | c :: s' =>
          if starts_with old s
          then (new ++ replace_from fuel' old new (skipn (List.length old) s))%list
          else c :: replace_from fuel' old new s'
      end
  end.

Definition replace (old new s : str) : str :=
  match old with
  | [] => (new ++ flat_map (fun c => c :: new) s)%list
  | _ => replace_from (List.length s) old new s
  end.

(** The loop of [_split_fixed_size]: the chunks appended from here on,
    [current_chunk] being the chunk under construction. *)
Fixpoint fixed_size_loop (max_size : Z) (sentences : list str)
    (current_chunk : str) : list str :=
  match sentences with
  | [] =>
      if truthy (strip current_chunk) then [strip current_chunk] else []
  | sentence :: rest =>
      if (len current_chunk + len sentence <=? max_size)%Z
      then fixed_size_loop max_size rest (current_chunk ++ sentence ++ [SP])%list
      else
        ((if truthy (strip current_chunk) then [strip current_chunk] else [])
         ++ fixed_size_loop max_size rest (sentence ++ [SP]))%list
  end.

(** [_split_fixed_size] *)
Definition _split_fixed_size (self : Parser) (t : str) : list str :=
  let sentences :=
    split_on NL (replace (of_string ". ") [46%N; NL] t) in
  fixed_size_loop (max_chunk_size self) sentences [].

(** The ['metadata'] dictionary of a chunk: the keys differ with the
    strategy. *)
Inductive ChunkMetadata :=
| Page_metadata (page_number word_count char_count : Z)
                (extraction_quality : Q) (has_images has_tables : bool)
| Fixed_metadata (chunk_index : Z) (strategy : string) (char_count : Z).

(** A chunk dictionary: ['text'] and ['metadata']. *)
Record Chunk := mkChunk {
  chunk_text : str;
  chunk_metadata : ChunkMetadata
}.

(** The loop of lines 520-532 *)
Fixpoint page_chunks (pages_data : list PageData) : list Chunk :=
  match pages_data with
  | [] => []
  | page :: rest =>
      if truthy (strip (text page))
      then mkChunk (text page)
                   (Page_metadata (page_number page) (word_count page)
                      (char_count page) (extraction_quality page)
                      (has_images page) (has_tables page))
           :: page_chunks rest
      else page_chunks rest
  end.

(** The loop of lines 539-547, [i] being the index [enumerate] gives. *)
Fixpoint fixed_chunks (i : Z) (chunks : list str) : list Chunk :=
  match chunks with
  | [] => []
  | chunk_text :: rest =>
      mkChunk chunk_text (Fixed_metadata i "fixed_size" (len chunk_text))
      :: fixed_chunks (i + 1) rest
  end.

(** [split_by_pages]; [strategy] is the optional argument
    [chunk_strategy]. *)
Definition split_by_pages (self : Parser) (pages_data : list PageData)
    (strategy : option ChunkStrategy) : list Chunk :=
  match get_or strategy (chunk_strategy self) with
  | PAGE => page_chunks pages_data
  | FIXED_SIZE =>
      let all_text := full_text_of pages_data in
      fixed_chunks 0 (_split_fixed_size self all_text)
  | _ => []
  end.

(** A string without whitespace at either end. *)
Definition trimmed (s : str) : Prop :=
  match s with [] => True | c :: _ => isspace c = false end
  /\ match rev s with [] => True | c :: _ => isspace c = false end.

(** The sentences [_split_fixed_size] cuts a text into. *)
Definition sentences_of (t : str) : list str :=
  split_on NL (replace (of_string ". ") [46%N; NL] t).

(* ================================================================== *)
(** ** The converter's helpers ([src/converters.py], lines 112-127, 429-440) *)

(** [d.get(key, default)] on a dictionary written as a literal. *)
Fixpoint dict_get {A} (d : list (string * A)) (key : string) (default : A) : A :=
  match d with
  | [] => default
  | (k, v) :: d' => if String.eqb k key then v else dict_get d' key default
  end.

Definition format_map : list (string * string) :=
  [(".txt", "text"); (".md", "markdown"); (".markdown", "markdown");
   (".json", "json"); (".yml", "yaml"); (".yaml", "yaml");
   (".html", "html"); (".htm", "html")].

(** [_detect_format] *)
Definition _detect_format (output_path : PathView) : string :=
  let suffix := lower (suffix output_path) in
  dict_get format_map suffix "text".

(** The formats [convert] has a branch for (lines 81-90). *)
Definition supported_formats : list string :=
  ["text"; "markdown"; "json"; "yaml"; "html"].

(** [_escape_html] *)
Definition _escape_html (t : str) : str :=
  if negb (truthy t) then []
  else
    let t := replace (of_string "&") (of_string "&amp;") t in
    let t := replace (of_string "<") (of_string "&lt;") t in
    let t := replace (of_string ">") (of_string "&gt;") t in
    let t := replace [34%N] (of_string "&quot;") t in
    let t := replace (of_string "'") (of_string "&#x27;") t in
    t.

(** What [_escape_html] makes of one character. *)
Definition escape_char (c : N) : str :=
  if (c =? 38)%N then of_string "&amp;"
  else if (c =? 60)%N then of_string "&lt;"
  else if (c =? 62)%N then of_string "&gt;"
  else if (c =? 34)%N then of_string "&quot;"
  else if (c =? 39)%N then of_string "&#x27;"
  else [c].

(** The characters HTML markup is made of: [<], [>], the two quotes. *)
Definition is_markup (c : N) : bool :=
  (c =? 60)%N || (c =? 62)%N || (c =? 34)%N || (c =? 39)%N.

(** One of the five characters [_escape_html] replaces. *)
Definition is_special (c : N) : bool := (c =? 38)%N || is_markup c.

(** Reading an escaped text back: each of the five entities becomes its
    character.  [fuel] bounds the characters still to read. *)
Fixpoint unescape_from (fuel : nat) (t : str) : str :=
  match fuel with
  | O => t
  | S fuel' =>
      match t with
      | [] => []
      | c :: rest =>
          if starts_with (of_string "&amp;") t
          then 38%N :: unescape_from fuel' (skipn 5 t)
          else if starts_with (of_string "&lt;") t
          then 60%N :: unescape_from fuel' (skipn 4 t)
          else if starts_with (of_string "&gt;") t
          then 62%N :: unescape_from fuel' (skipn 4 t)
          else if starts_with (of_string "&quot;") t
          then 34%N :: unescape_from fuel' (skipn 6 t)
          else if starts_with (of_string "&#x27;") t
          then 39%N :: unescape_from fuel' (skipn 6 t)
          else c :: unescape_from fuel' rest
      end
  end.

Definition unescape (t : str) : str := unescape_from (List.length t) t.

(* ================================================================== *)
(** ** The engine's report ([src/pdf_engine.py], lines 96-144) *)

(** The values the report dictionary holds: [None], booleans, integers,
    floats and strings, and under ['page_details'] a list of dictionaries
    of such values. *)
Inductive Scalar :=
| VNone
| VBool (b : bool)
| VInt (n : Z)
| VFloat (q : Q)
| VStr (s : string).

Inductive Value :=
| Plain (v : Scalar)
| Rows (l : list (list (string * Scalar))).

Definition Dict := list (string * Value).

(** An optional string as a value: [None] stays [None]. *)
Definition opt_value (o : option string) : Scalar :=
  match o with
  | Some s => VStr s
  | None => VNone
  end.

(** [sum(f(page) for page in pages)] over integers. *)
Definition sum_int (f : PageData -> Z) (pages_data : list PageData) : Z :=
  fold_left (fun acc page => acc + f page)%Z pages_data 0%Z.

(** [sum(1 for page in pages if flag(page))] *)
Definition count_pages (flag : PageData -> bool) (pages_data : list PageData)
  : Z :=
  fold_left (fun acc page => if flag page then acc + 1 else acc)%Z
            pages_data 0%Z.

(** One entry of ['page_details'] (lines 133-140). *)
Definition page_detail (page : PageData) : list (string * Scalar) :=
  [("page", VInt (page_number page));
   ("words", VInt (word_count page));
   ("chars", VInt (char_count page));
   ("quality", VFloat (extraction_quality page));
   ("has_images", VBool (has_images page));
   ("has_tables", VBool (has_tables page))].

(** [PDFEngine.get_info]; the state is the engine's parser.  [file_path]
    is the argument as the caller wrote it and [E] what the parser finds
    for [Path(file_path)].  The dates are held in their printed form. *)
Definition get_info (depth : nat) (E : Env) (file_path : string)
    (verbose : bool) : M Dict :=
  result <- extract_text depth E None ;;
  if negb (success result) then
    ret [("success", Plain (VBool false));
         ("error", Plain (opt_value (error_message result)))]
  else
    let info : Dict :=
      [("success", Plain (VBool true));
       ("file_path", Plain (VStr file_path));
       ("file_size", Plain (VInt (file_size (metadata result))));
       ("page_count", Plain (VInt (page_count (metadata result))));
       ("title", Plain (opt_value (title (metadata result))));
       ("author", Plain (opt_value (author (metadata result))));
       ("subject", Plain (opt_value (subject (metadata result))));
       ("creator", Plain (opt_value (creator (metadata result))));
       ("producer", Plain (opt_value (producer (metadata result))));
       ("is_encrypted", Plain (VBool (is_encrypted (metadata result))));
       ("backend_used", Plain (VStr (backend_used result)));
       ("quality_score", Plain (VFloat (quality_score result)))] in
    if verbose then
      let info : Dict :=
        (info ++
         [("keywords", Plain (opt_value (keywords (metadata result))));
          ("creation_date", Plain (opt_value (creation_date (metadata result))));
          ("modification_date",
           Plain (opt_value (modification_date (metadata result))));
          ("is_linearized", Plain (VBool (is_linearized (metadata result))));
          ("pdf_version", Plain (opt_value (pdf_version (metadata result))));
          ("total_words", Plain (VInt (sum_int word_count (pages result))));
          ("total_characters", Plain (VInt (sum_int char_count (pages result))));
          ("pages_with_images",
           Plain (VInt (count_pages has_images (pages result))));
          ("pages_with_tables",
           Plain (VInt (count_pages has_tables (pages result))));
          ("average_quality",
           Plain
             match pages result with
             | [] => VInt 0
             | _ => VFloat (sum_quality (pages result)
                            / inject_Z (Z.of_nat (List.length (pages result))))%Q
             end)])%list in
      let info : Dict :=
        (info ++ [("page_details", Rows (map page_detail (pages result)))])%list in
      ret info
    else ret info.

(* ================================================================== *)
(** * Properties *)

Local Close Scope string_scope.

(** ** Text *)

Section TextFacts.

Lemma split_from_pending (s : str) (c : N) (cur : str) :
  split_from (c :: cur) s <> [].
Proof.
  revert c cur; induction s as [|d s IH]; intros c cur; simpl.
  - discriminate.
  - destruct (isspace d); [discriminate | apply IH].
Qed.

Lemma split_from_visible (s cur : str) :
  has_visible s = true -> split_from cur s <> [].
Proof.
  revert cur; induction s as [|c s IH]; intros cur H; simpl in *.
  - discriminate.
  - destruct (isspace c); simpl in H.
    + destruct cur; [apply IH; assumption | discriminate].
    + apply split_from_pending.
Qed.

Lemma lstrip_blank (s : str) : has_visible s = false -> lstrip s = [].
Proof.
  induction s as [|c s IH]; simpl; intro H; [reflexivity|].
  destruct (isspace c); simpl in H; [auto | discriminate].
Qed.

Lemma lstrip_visible (s : str) :
  has_visible (lstrip s) = true -> has_visible s = true.
Proof.
  induction s as [|c s IH]; simpl; intro H; [assumption|].
  destruct (isspace c) eqn:Hc; simpl.
  - auto.
  - simpl in H. rewrite Hc in H. assumption.
Qed.

Lemma has_visible_rev (s : str) : has_visible (rev s) = has_visible s.
Proof.
  unfold has_visible. induction s as [|c s IH]; simpl; [reflexivity|].
  rewrite existsb_app, IH. simpl. rewrite orb_false_r. apply orb_comm.
Qed.

Lemma nonempty_lstrip_visible (s : str) : lstrip s <> [] -> has_visible s = true.
Proof.
  intro H. destruct (has_visible s) eqn:Hv; [reflexivity|].
  elim H. apply lstrip_blank; assumption.
Qed.

(** A page whose stripped text is non-empty has a visible character. *)
Lemma strip_truthy_visible (s : str) :
  truthy (strip s) = true -> has_visible s = true.
Proof.
  unfold strip. intro H.
  apply lstrip_visible. rewrite <- has_visible_rev.
  apply nonempty_lstrip_visible.
  intro Hnil. rewrite Hnil in H. discriminate.
Qed.

Lemma has_visible_app_l (s t : str) :
  has_visible s = true -> has_visible (s ++ t) = true.
Proof.
  unfold has_visible. intro H. rewrite existsb_app, H. reflexivity.
Qed.

Lemma join_head_visible (sep s : str) (rest : list str) :
  has_visible s = true -> has_visible (join sep (s :: rest)) = true.
Proof.
  intro H. destruct rest as [|t rest]; simpl; [assumption|].
  apply has_visible_app_l; assumption.
Qed.

Lemma len_nonneg (s : str) : 0 <= len s.
Proof. unfold len. lia. Qed.

Lemma len_zero (s : str) : len s = 0 -> s = [].
Proof. unfold len. destruct s; simpl; [reflexivity | lia]. Qed.

End TextFacts.

(** The joined text of a result has a word as soon as it has a character. *)
Lemma full_text_words (pages_data : list PageData) :
  len (full_text_of pages_data) <> 0 ->
  0 < Z.of_nat (List.length (split (full_text_of pages_data))).
Proof.
  unfold full_text_of. intro H.
  destruct (filter (fun page => truthy (strip (text page))) pages_data)
    as [|p kept] eqn:Hk.
  - elim H. reflexivity.
  - assert (Hin : In p (p :: kept)) by (left; reflexivity).
    rewrite <- Hk in Hin. apply filter_In in Hin. destruct Hin as [_ Hp].
    assert (Hv : has_visible (join [NL; NL] (map text (p :: kept))) = true).
    { simpl map. apply join_head_visible, strip_truthy_visible, Hp. }
    pose proof (split_from_visible _ [] Hv) as Hs.
    unfold split. destruct (split_from [] _); [elim Hs; reflexivity|].
    simpl List.length. lia.
Qed.

(** ** Scores *)

Section ScoreFacts.

Local Open Scope Q_scope.

Lemma Qltb_lt (x y : Q) : Qltb x y = true <-> x < y.
Proof.
  unfold Qltb. rewrite negb_true_iff, <- not_true_iff_false, Qle_bool_iff.
  split; [apply Qnot_le_lt | apply Qlt_not_le].
Qed.

Lemma Qltb_ge (x y : Q) : Qltb x y = false <-> y <= x.
Proof.
  unfold Qltb. rewrite negb_false_iff. apply Qle_bool_iff.
Qed.

(** [a / c > k] and [a > k * c] agree for a positive [c]. *)
Lemma Qltb_div (k a c : Q) : 0 < c -> Qltb k (a / c) = Qltb (k * c) a.
Proof.
  intro Hc.
  destruct (Qltb (k * c) a) eqn:H.
  - apply Qltb_lt. apply Qltb_lt in H. apply Qlt_shift_div_l; assumption.
  - apply Qltb_ge. apply Qltb_ge in H. apply Qle_shift_div_r; assumption.
Qed.

Lemma page_quality_bounds (p : PageData) :
  0 <= _assess_page_quality p /\ _assess_page_quality p <= 1.
Proof.
  unfold _assess_page_quality.
  destruct (char_count p =? 0)%Z; [split; discriminate|].
  destruct (char_count p <? 50)%Z;
    destruct (0 <? word_count p)%Z;
    try destruct (Qltb 15 _);
    destruct (contains artifact (text p) || Qltb 0.1 _);
    cbv zeta; split; vm_compute; discriminate.
Qed.

(** The source's page score is the specified one whenever the character
    count is a length. *)
Lemma page_quality_refines (p : PageData) :
  (0 <= char_count p)%Z -> _assess_page_quality p == page_score_spec p.
Proof.
  intro Hc. unfold _assess_page_quality, page_score_spec. cbv zeta.
  destruct (char_count p =? 0)%Z eqn:H0; [reflexivity|].
  apply Z.eqb_neq in H0.
  assert (Hpos : (0 <? char_count p)%Z = true) by (apply Z.ltb_lt; lia).
  rewrite Hpos. cbn [andb].
  assert (Hmax : Z.max 1 (char_count p) = char_count p) by lia.
  rewrite Hmax.
  assert (Hq : 0 < inject_Z (char_count p)).
  { rewrite <- (Zlt_Qlt 0). lia. }
  rewrite (Qltb_div 0.1 _ _ Hq).
  destruct (char_count p <? 50)%Z;
    destruct (0 <? word_count p)%Z; cbn [andb];
    try destruct (Qltb 15 _);
    destruct (contains artifact (text p) || Qltb (0.1 * _) _);
    reflexivity.
Qed.

Lemma sum_quality_from (pages_data : list PageData) (acc : Q) :
  fold_left (fun a p => a + extraction_quality p) pages_data acc
  == acc + fold_right Qplus 0 (map extraction_quality pages_data).
Proof.
  revert acc; induction pages_data as [|p ps IH]; intro acc; simpl.
  - ring.
  - rewrite IH. ring.
Qed.

Lemma sum_quality_fold (pages_data : list PageData) :
  sum_quality pages_data
  == fold_right Qplus 0 (map extraction_quality pages_data).
Proof. unfold sum_quality. rewrite sum_quality_from. ring. Qed.

Lemma sum_fold_nonneg (pages_data : list PageData) :
  Forall (fun p => 0 <= extraction_quality p) pages_data ->
  0 <= fold_right Qplus 0 (map extraction_quality pages_data).
Proof.
  induction 1 as [|p ps Hp _ IH]; simpl; [discriminate|].
  lra.
Qed.

Lemma mean_quality_nonneg (pages_data : list PageData) :
  pages_data <> [] ->
  Forall (fun p => 0 <= extraction_quality p) pages_data ->
  0 <= mean_quality pages_data.
Proof.
  intros Hne Hall. unfold mean_quality.
  apply Qle_shift_div_l.
  - rewrite <- (Zlt_Qlt 0). destruct pages_data; [congruence | simpl; lia].
  - rewrite Qmult_0_l. apply sum_fold_nonneg; assumption.
Qed.

Lemma aggregate_le_1 (pages_data : list PageData) (full_text : str) :
  _assess_extraction_quality pages_data full_text <= 1.
Proof.
  unfold _assess_extraction_quality.
  destruct pages_data; [discriminate|].
  cbv zeta. destruct (len full_text =? 0)%Z; [discriminate|].
  apply Q.le_min_l.
Qed.

(** The source's aggregate score is the specified one on the text that
    [extract_text] joins from the pages. *)
Lemma aggregate_refines (pages_data : list PageData) :
  Forall (fun p => 0 <= extraction_quality p) pages_data ->
  _assess_extraction_quality pages_data (full_text_of pages_data)
  == aggregate_spec pages_data.
Proof.
  intro Hall. unfold _assess_extraction_quality, aggregate_spec.
  destruct pages_data as [|p ps] eqn:Hps; [reflexivity|].
  rewrite <- Hps in *. cbv zeta.
  destruct (len (full_text_of pages_data) =? 0)%Z eqn:H0; [reflexivity|].
  apply Z.eqb_neq in H0.
  pose proof (full_text_words pages_data H0) as Hw.
  apply Z.ltb_lt in Hw. rewrite Hw. cbn [andb].
  assert (Hmean : sum_quality pages_data
                  / inject_Z (Z.of_nat (List.length pages_data))
                  == mean_quality pages_data).
  { unfold mean_quality. rewrite sum_quality_fold. reflexivity. }
  assert (Hnn : 0 <= mean_quality pages_data).
  { apply mean_quality_nonneg; [rewrite Hps; discriminate | assumption]. }
  unfold clamp01.
  destruct (Qle_bool 2 _ && Qle_bool _ 12);
    rewrite Hmean;
    (rewrite Q.max_r; [reflexivity|]);
    apply Q.min_glb; [discriminate | | discriminate | ];
    apply Qmult_le_0_compat; try assumption; discriminate.
Qed.

End ScoreFacts.

(** ** Runs *)

Section RunFacts.

Context {A B : Type} (m : M A) (f : A -> M B) (self : Parser).

Lemma bind_return_final (a : A) :
  outcome (m self) = Return a ->
  final (bind m f self) = final (f a (final (m self))).
Proof. unfold bind. intros ->. reflexivity. Qed.

Lemma bind_return_outcome (a : A) :
  outcome (m self) = Return a ->
  outcome (bind m f self) = outcome (f a (final (m self))).
Proof. unfold bind. intros ->. reflexivity. Qed.

Lemma bind_return_trace (a : A) :
  outcome (m self) = Return a ->
  trace (bind m f self) = trace (m self) ++ trace (f a (final (m self))).
Proof. unfold bind. intros ->. reflexivity. Qed.

Lemma bind_raise_final (e : exn) :
  outcome (m self) = Raise e -> final (bind m f self) = final (m self).
Proof. unfold bind. intros ->. reflexivity. Qed.

Lemma bind_raise_outcome (e : exn) :
  outcome (m self) = Raise e -> outcome (bind m f self) = Raise e.
Proof. unfold bind. intros ->. reflexivity. Qed.

Lemma bind_raise_trace (e : exn) :
  outcome (m self) = Raise e -> trace (bind m f self) = trace (m self).
Proof. unfold bind. intros ->. reflexivity. Qed.

Lemma bind_return_run (a : A) :
  outcome (m self) = Return a ->
  bind m f self
  = mkRun (final (f a (final (m self))))
          (trace (m self) ++ trace (f a (final (m self))))
          (outcome (f a (final (m self)))).
Proof. unfold bind. intros ->. reflexivity. Qed.

Lemma bind_raise_run (e : exn) :
  outcome (m self) = Raise e ->
  bind m f self = mkRun (final (m self)) (trace (m self)) (Raise e).
Proof. unfold bind. intros ->. reflexivity. Qed.

End RunFacts.

Lemma run_eta {A} (r : Run A) : mkRun (final r) (trace r) (outcome r) = r.
Proof. destruct r; reflexivity. Qed.

(** Binding a step that only reads [self]. *)
Lemma bind_pure {A B} (m : M A) (f : A -> M B) (self : Parser) (a : A) :
  m self = mkRun self [] (Return a) -> bind m f self = f a self.
Proof. unfold bind. intros ->. cbn. apply run_eta. Qed.

Lemma bind_log {B} (ev : LogEvent) (k : unit -> M B) (self : Parser) :
  bind (log ev) k self
  = mkRun (final (k tt self)) (ev :: trace (k tt self)) (outcome (k tt self)).
Proof. reflexivity. Qed.

Lemma fallback_attempts_app (t u : list LogEvent) :
  fallback_attempts (t ++ u) = (fallback_attempts t + fallback_attempts u)%nat.
Proof. unfold fallback_attempts. rewrite filter_app, length_app. reflexivity. Qed.

(** ** The first attempt *)

Lemma with_backend_same (self : Parser) : with_backend (backend self) self = self.
Proof. destruct self; reflexivity. Qed.

Lemma with_backend_twice (a b : Backend) (self : Parser) :
  with_backend a (with_backend b self) = with_backend a self.
Proof. reflexivity. Qed.

Lemma backend_eqb_eq (a b : Backend) : backend_eqb a b = true <-> a = b.
Proof. destruct a, b; simpl; split; intro H; congruence. Qed.

Lemma extract_metadata_run (E : Env) (self : Parser) :
  final (_extract_metadata E self) = self
  /\ outcome (_extract_metadata E self) = metadata_of E (backend self).
Proof.
  unfold _extract_metadata, metadata_of, bind, lift, get_backend.
  destruct (st_size (file_path E)); simpl; [|split; reflexivity].
  destruct (read_metadata _ _ _) as [m [e|]]; simpl; split; reflexivity.
Qed.

Lemma extract_pages_content_run (E : Env) (m : PDFMetadata)
    (target_pages : option (list Z)) (self : Parser) :
  final (_extract_pages_content E m target_pages self) = self
  /\ outcome (_extract_pages_content E m target_pages self)
     = Return (pages_of E (backend self) target_pages).
Proof.
  unfold _extract_pages_content, pages_of, bind, get_backend. simpl.
  destruct (dv_open_raises _); simpl; [split; reflexivity|].
  destruct (collect_pages _ _ _ _) as [ps [e|]]; simpl; split; reflexivity.
Qed.

Lemma first_attempt_run (E : Env) (pages : option (list Z)) (self : Parser) :
  final (first_attempt E pages self) = self
  /\ outcome (first_attempt E pages self) = attempt_of E (backend self) pages.
Proof.
  unfold first_attempt, attempt_of.
  destruct (extract_metadata_run E self) as [Hf Ho].
  destruct (metadata_of E (backend self)) as [m|e].
  - rewrite (bind_return_final _ _ _ _ Ho), (bind_return_outcome _ _ _ _ Ho), Hf.
    destruct (validate_pages (page_count m) pages) as [p|];
      [|split; reflexivity].
    destruct (extract_pages_content_run E m p self) as [Hf' Ho'].
    rewrite (bind_return_final _ _ _ _ Ho'), (bind_return_outcome _ _ _ _ Ho'), Hf'.
    split; reflexivity.
  - rewrite (bind_raise_final _ _ _ _ Ho), (bind_raise_outcome _ _ _ _ Ho), Hf.
    split; reflexivity.
Qed.

(** No logged event of the first attempt is a fallback attempt. *)
Lemma first_attempt_quiet (E : Env) (pages : option (list Z)) (self : Parser) :
  fallback_attempts (trace (first_attempt E pages self)) = 0%nat.
Proof.
  unfold first_attempt, _extract_metadata, _extract_pages_content,
    bind, lift, get_backend.
  destruct (st_size (file_path E)); simpl; [|reflexivity].
  destruct (read_metadata _ _ _) as [m [e|]]; simpl;
    (destruct (validate_pages (page_count m) pages) as [p|]; simpl;
     [|reflexivity]);
    (destruct (dv_open_raises _); simpl; [reflexivity|]);
    destruct (collect_pages _ _ _ _) as [ps [e'|]]; reflexivity.
Qed.

(** ** Page records *)

Lemma read_page_ok (b : Backend) (n : Z) (v : PageView) (p : PageData) :
  read_page b n v = Return p -> page_number p = n /\ page_ok p.
Proof.
  unfold read_page. destruct (pv_raises v); [discriminate|].
  set (t := match b with pdfplumber => _ | _ => _ end).
  destruct t as [t|]; [|discriminate].
  intro H. injection H as <-. unfold page_ok. simpl.
  split; [reflexivity|]. split; [reflexivity|].
  split; [destruct t; reflexivity | reflexivity].
Qed.

Lemma collect_pages_facts (b : Backend) (target_pages : option (list Z))
    (vs : list PageView) (i : Z) (p : PageData) :
  In p (fst (collect_pages b target_pages i vs)) ->
  i < page_number p <= i + Z.of_nat (List.length vs)
  /\ skipped target_pages (page_number p) = false
  /\ page_ok p.
Proof.
  revert i; induction vs as [|v vs IH]; intros i Hin; simpl in Hin.
  - contradiction.
  - destruct (skipped target_pages (i + 1)) eqn:Hs.
    + destruct (IH _ Hin) as (Hr & Hk & Hok).
      (split; [|split; assumption]); simpl List.length; lia.
    + destruct (read_page b (i + 1) v) as [q|e] eqn:Hq; [|contradiction].
      destruct (collect_pages b target_pages (i + 1) vs) as [rest err] eqn:Hc.
      simpl in Hin. destruct Hin as [<-|Hin].
      * destruct (read_page_ok _ _ _ _ Hq) as [Hn Hok]. rewrite Hn.
        (split; [|split; assumption]); simpl List.length; lia.
      * specialize (IH (i + 1)). rewrite Hc in IH.
        destruct (IH Hin) as (Hr & Hk & Hok).
        (split; [|split; assumption]); simpl List.length; lia.
Qed.

(** Page numbers increase along the list, so a bound on them bounds the
    number of records. *)
Lemma collect_pages_length (b : Backend) (target_pages : option (list Z))
    (vs : list PageView) (i c : Z) :
  (forall p, In p (fst (collect_pages b target_pages i vs)) ->
             page_number p <= c) ->
  Z.of_nat (List.length (fst (collect_pages b target_pages i vs)))
  <= Z.max 0 (c - i).
Proof.
  revert i; induction vs as [|v vs IH]; intros i Hle; simpl in *.
  - lia.
  - destruct (skipped target_pages (i + 1)).
    + specialize (IH _ Hle). lia.
    + destruct (read_page b (i + 1) v) as [q|e] eqn:Hq; [|simpl; lia].
      destruct (collect_pages b target_pages (i + 1) vs) as [rest err] eqn:Hc.
      simpl in *.
      assert (Hq' : page_number q <= c) by (apply Hle; left; reflexivity).
      destruct (read_page_ok _ _ _ _ Hq) as [Hn _]. rewrite Hn in Hq'.
      specialize (IH (i + 1)). rewrite Hc in IH. simpl in IH.
      assert (Z.of_nat (List.length rest) <= Z.max 0 (c - (i + 1))).
      { apply IH. intros p Hp. apply Hle. right. assumption. }
      lia.
Qed.

Lemma pages_of_facts (E : Env) (b : Backend) (target_pages : option (list Z))
    (p : PageData) :
  In p (pages_of E b target_pages) ->
  1 <= page_number p <= n_pages (view E b)
  /\ skipped target_pages (page_number p) = false
  /\ page_ok p.
Proof.
  unfold pages_of, n_pages. destruct (dv_open_raises _); [contradiction|].
  intro Hin. apply collect_pages_facts in Hin.
  destruct Hin as (Hr & Hk & Hok). (split; [|split; assumption]); lia.
Qed.

Lemma pages_of_length (E : Env) (b : Backend) (target_pages : option (list Z))
    (c : Z) :
  (forall p, In p (pages_of E b target_pages) -> page_number p <= c) ->
  Z.of_nat (List.length (pages_of E b target_pages)) <= Z.max 0 c.
Proof.
  unfold pages_of. destruct (dv_open_raises _); [simpl; lia|].
  intro H. apply collect_pages_length in H. lia.
Qed.

Lemma page_ok_nonneg (p : PageData) :
  page_ok p -> (0 <= extraction_quality p)%Q.
Proof. intros (_ & _ & ->). apply page_quality_bounds. Qed.

(** ** The page selection *)

Lemma skipped_explicit (l : list Z) (n : Z) :
  l <> [] -> skipped (Some l) n = false -> In n l.
Proof.
  intros Hne H. destruct l as [|x l]; [congruence|].
  unfold skipped in H. apply negb_false_iff, existsb_exists in H.
  destruct H as (y & Hy & Heq). apply Z.eqb_eq in Heq. subst. assumption.
Qed.

Lemma validate_pages_explicit (count : Z) (l : list Z) (p : option (list Z)) :
  l <> [] ->
  validate_pages count (Some l) = Some p ->
  exists l', p = Some l' /\ l' <> [] /\ l' = filter (in_range count) l.
Proof.
  intros Hne H. destruct l as [|x l]; [congruence|].
  unfold validate_pages in H.
  destruct (filter (in_range count) (x :: l)) as [|y l'] eqn:Hf; [discriminate|].
  injection H as <-. exists (y :: l').
  split; [reflexivity | split; [discriminate | reflexivity]].
Qed.

Lemma validate_pages_none (count : Z) (l : list Z) :
  l <> [] ->
  (validate_pages count (Some l) = None <-> filter (in_range count) l = []).
Proof.
  intros Hne. destruct l as [|x l]; [congruence|].
  unfold validate_pages.
  destruct (filter (in_range count) (x :: l)); split; congruence.
Qed.

Lemma validate_pages_narrows (count : Z) (pages p : option (list Z)) :
  validate_pages count pages = Some p -> narrows pages p.
Proof.
  destruct pages as [[|x l]|]; unfold validate_pages.
  - intro H; injection H as <-. exact I.
  - destruct (filter (in_range count) (x :: l)) as [|y l'] eqn:Hf; [discriminate|].
    intro H; injection H as <-. simpl. rewrite <- Hf.
    intros z Hz. apply filter_In in Hz. apply Hz.
  - intro H; injection H as <-. exact I.
Qed.

Lemma narrows_refl (pages : option (list Z)) : narrows pages pages.
Proof. destruct pages as [[|x l]|]; simpl; auto using incl_refl. Qed.

Lemma narrows_trans (a b c : option (list Z)) :
  narrows a b -> narrows b c -> narrows a c.
Proof.
  destruct a as [[|x l]|], b as [[|y l']|], c as [[|z l'']|]; simpl;
    try tauto. intros H1 H2. eapply incl_tran; eassumption.
Qed.

Lemma narrows_explicit (a b : option (list Z)) :
  narrows a b -> explicit b = explicit a.
Proof. destruct a as [[|x l]|], b as [[|y l']|]; simpl; tauto. Qed.

(** ** The fallback, for any behaviour of the nested call *)

Section Fallback.

Variable rec : option (list Z) -> M ExtractionResult.
Variable E : Env.

Lemma fallback_loop_cons (original b : Backend) (p : option (list Z))
    (order : list Backend) (self : Parser) :
  fallback_loop rec E original p (b :: order) self
  = if eligible E original b then
      let r := rec p (with_backend b self) in
      match outcome r with
      | Return result =>
          if success result
          then mkRun (final r) (Info_trying_fallback b :: trace r ++ [])
                     (Return (Some result))
          else
            let r' := fallback_loop rec E original p order (final r) in
            mkRun (final r') (Info_trying_fallback b :: trace r ++ trace r')
                  (outcome r')
      | Raise e => mkRun (final r) (Info_trying_fallback b :: trace r) (Raise e)
      end
    else fallback_loop rec E original p order self.
Proof.
  unfold eligible. simpl fallback_loop.
  destruct (negb (backend_eqb b original) && _backend_available E b);
    [|reflexivity].
  unfold bind, log, set_backend. simpl.
  destruct (outcome (rec p (with_backend b self))) as [result|e]; simpl;
    [|reflexivity].
  destruct (success result); reflexivity.
Qed.

Lemma try_fallback_unfold (p : option (list Z)) (self : Parser) :
  _try_fallback_extraction rec E p self
  = let r := fallback_loop rec E (backend self) p fallback_order self in
    let restored := with_backend (backend self) (final r) in
    match outcome r with
    | Return (Some result) =>
        mkRun restored (trace r ++ []) (Return result)
    | Return None =>
        mkRun restored (trace r ++ [])
              (Return (failure default_metadata "fallback_failed"
                               "All fallback backends failed"))
    | Raise e => mkRun restored (trace r ++ []) (Raise e)
    end.
Proof.
  unfold _try_fallback_extraction, bind, get_backend, try_finally, set_backend.
  cbn [final outcome trace app].
  destruct (outcome (fallback_loop rec E (backend self) p fallback_order self))
    as [[r|]|e]; cbn [final outcome trace app ret];
    rewrite ?app_nil_r; reflexivity.
Qed.

Hypothesis rec_keeps : forall p self, final (rec p self) = self.

Lemma fallback_loop_final (original : Backend) (p : option (list Z))
    (order : list Backend) (self : Parser) :
  with_backend original (final (fallback_loop rec E original p order self))
  = with_backend original self.
Proof.
  revert self; induction order as [|b order IH]; intro self.
  - reflexivity.
  - rewrite fallback_loop_cons. destruct (eligible E original b); [|apply IH].
    cbv zeta. rewrite rec_keeps.
    destruct (outcome (rec p (with_backend b self))) as [result|e];
      [|reflexivity].
    destruct (success result); [reflexivity|].
    simpl final. rewrite IH. reflexivity.
Qed.

(** A value the loop returns is a successful result of the nested call
    under some backend; an exception it raises is one the nested call
    raised. *)
Lemma fallback_loop_outcome (original : Backend) (p : option (list Z))
    (order : list Backend) (self : Parser) :
  match outcome (fallback_loop rec E original p order self) with
  | Return (Some r) =>
      success r = true
      /\ exists b, outcome (rec p (with_backend b self)) = Return r
  | Return None => True
  | Raise e => exists b, outcome (rec p (with_backend b self)) = Raise e
  end.
Proof.
  revert self; induction order as [|b order IH]; intro self.
  - exact I.
  - rewrite fallback_loop_cons. destruct (eligible E original b); [|apply IH].
    cbv zeta. rewrite rec_keeps.
    destruct (outcome (rec p (with_backend b self))) as [result|e] eqn:Ho.
    + destruct (success result) eqn:Hs.
      * simpl. split; [assumption | exists b; assumption].
      * simpl outcome. specialize (IH (with_backend b self)).
        destruct (outcome (fallback_loop rec E original p order _))
          as [[r|]|e]; try exact I.
        -- destruct IH as [H1 [b' H2]]. split; [assumption | exists b'; exact H2].
        -- destruct IH as [b' H2]. exists b'; exact H2.
    + simpl. exists b; assumption.
Qed.

Lemma try_fallback_final (p : option (list Z)) (self : Parser) :
  final (_try_fallback_extraction rec E p self) = self.
Proof.
  rewrite try_fallback_unfold. cbv zeta.
  pose proof (fallback_loop_final (backend self) p fallback_order self) as H.
  rewrite with_backend_same in H.
  destruct (outcome (fallback_loop rec E (backend self) p fallback_order self))
    as [[r|]|e]; exact H.
Qed.

Lemma try_fallback_outcome (p : option (list Z)) (self : Parser) :
  match outcome (_try_fallback_extraction rec E p self) with
  | Return r =>
      (success r = true
       /\ exists b, outcome (rec p (with_backend b self)) = Return r)
      \/ success r = false
  | Raise e => exists b, outcome (rec p (with_backend b self)) = Raise e
  end.
Proof.
  rewrite try_fallback_unfold. cbv zeta.
  pose proof (fallback_loop_outcome (backend self) p fallback_order self) as H.
  destruct (outcome (fallback_loop rec E (backend self) p fallback_order self))
    as [[r|]|e]; cbn [outcome].
  - left. exact H.
  - right. reflexivity.
  - exact H.
Qed.

End Fallback.

(** ** One activation of [extract_text], for any behaviour of the nested call *)

Section Activation.

Variable rec : option (list Z) -> M ExtractionResult.
Variable E : Env.

Lemma has_fallback_run (self : Parser) :
  _has_fallback_backend E self
  = mkRun self [] (Return (has_other_backend E (backend self))).
Proof. reflexivity. Qed.

Lemma retry_if_low_unfold (result : ExtractionResult)
    (requested : option (list Z)) (self : Parser) :
  retry_if_low rec E result requested self
  = if Qltb (quality_score result) (quality_threshold self)
       && has_other_backend E (backend self)
    then
      let r := _try_fallback_extraction rec E requested self in
      match outcome r with
      | Return fallback_result =>
          if success fallback_result
             && Qltb (quality_score result) (quality_score fallback_result)
          then
            mkRun (final r)
                  (Info_low_quality (quality_score result)
                   :: trace r
                      ++ [Info_fallback_improved (quality_score fallback_result)])
                  (Return fallback_result)
          else
            mkRun (final r)
                  (Info_low_quality (quality_score result)
                   :: trace r ++ [Info_extracted (List.length (pages result))])
                  (Return result)
      | Raise e =>
          mkRun (final r) (Info_low_quality (quality_score result) :: trace r)
                (Raise e)
      end
    else mkRun self [Info_extracted (List.length (pages result))] (Return result).
Proof.
  unfold retry_if_low. cbv zeta.
  rewrite (bind_pure get_quality_threshold _ self (quality_threshold self))
    by reflexivity.
  rewrite (bind_pure (_has_fallback_backend E) _ self
                     (has_other_backend E (backend self)))
    by reflexivity.
  destruct (Qltb (quality_score result) (quality_threshold self)
            && has_other_backend E (backend self)); [|reflexivity].
  rewrite bind_log. cbv zeta.
  destruct (outcome (_try_fallback_extraction rec E requested self))
    as [fr|e] eqn:Ho.
  - rewrite (bind_return_run _ _ _ _ Ho).
    destruct (success fr && Qltb (quality_score result) (quality_score fr));
      reflexivity.
  - rewrite (bind_raise_run _ _ _ _ Ho). reflexivity.
Qed.

Lemma extract_text_try_unfold (pages : option (list Z)) (self : Parser) :
  extract_text_try rec E pages self
  = let a := first_attempt E pages self in
    match outcome a with
    | Return (Early r) => mkRun (final a) (trace a ++ []) (Return r)
    | Return (Extracted result requested) =>
        let r := retry_if_low rec E result requested (final a) in
        mkRun (final r) (trace a ++ trace r) (outcome r)
    | Raise e => mkRun (final a) (trace a) (Raise e)
    end.
Proof.
  unfold extract_text_try. cbv zeta.
  destruct (outcome (first_attempt E pages self)) as [[r|result requested]|e]
    eqn:Ho.
  - rewrite (bind_return_run _ _ _ _ Ho). reflexivity.
  - rewrite (bind_return_run _ _ _ _ Ho). reflexivity.
  - rewrite (bind_raise_run _ _ _ _ Ho). reflexivity.
Qed.

Lemma extract_text_body_unfold (pages : option (list Z)) (self : Parser) :
  extract_text_body rec E pages self
  = match can_parse E with
    | Return true =>
        let t := extract_text_try rec E pages self in
        match outcome t with
        | Return r => t
        | Raise e =>
            mkRun (final t) (trace t ++ [Error_extracting e])
                  (Return (failure default_metadata
                                   (backend_name (backend (final t)))
                                   (exn_str e)))
        end
    | Return false =>
        mkRun self []
              (Return (failure default_metadata (backend_name (backend self))
                               ("Cannot parse file: " ++ path_text (file_path E))%string))
    | Raise e => mkRun self [] (Raise e)
    end.
Proof.
  unfold extract_text_body. destruct (can_parse E) as [[|]|e0];
    [|reflexivity|reflexivity].
  rewrite (bind_pure (lift (Return true)) _ self true) by reflexivity.
  cbn [negb]. unfold try_except. cbv zeta.
  destruct (outcome (extract_text_try rec E pages self)); reflexivity.
Qed.

(** Past the [can_parse] check the activation returns; what the check
    raises leaves it. *)
Lemma extract_text_body_returns (pages : option (list Z)) (self : Parser) :
  match can_parse E with
  | Return _ => exists r, outcome (extract_text_body rec E pages self) = Return r
  | Raise e => extract_text_body rec E pages self = mkRun self [] (Raise e)
  end.
Proof.
  rewrite extract_text_body_unfold.
  destruct (can_parse E) as [[|]|e0]; [|eexists; reflexivity|reflexivity].
  cbv zeta. destruct (outcome (extract_text_try rec E pages self)) as [r|e] eqn:H.
  - exists r; assumption.
  - eexists; reflexivity.
Qed.

Hypothesis rec_keeps : forall p self, final (rec p self) = self.

Lemma retry_if_low_final (result : ExtractionResult)
    (requested : option (list Z)) (self : Parser) :
  final (retry_if_low rec E result requested self) = self.
Proof.
  rewrite retry_if_low_unfold.
  destruct (_ && _); [|reflexivity]. cbv zeta.
  pose proof (try_fallback_final rec E rec_keeps requested self) as H.
  destruct (outcome (_try_fallback_extraction rec E requested self)) as [fr|e];
    [destruct (_ && _)|]; exact H.
Qed.

Lemma extract_text_try_final (pages : option (list Z)) (self : Parser) :
  final (extract_text_try rec E pages self) = self.
Proof.
  rewrite extract_text_try_unfold. cbv zeta.
  destruct (first_attempt_run E pages self) as [Hf _].
  destruct (outcome (first_attempt E pages self)) as [[r|result requested]|e];
    cbn [final]; try assumption.
  rewrite Hf. apply retry_if_low_final.
Qed.

Lemma extract_text_body_final (pages : option (list Z)) (self : Parser) :
  final (extract_text_body rec E pages self) = self.
Proof.
  rewrite extract_text_body_unfold.
  destruct (can_parse E) as [[|]|e0]; [|reflexivity|reflexivity].
  cbv zeta. pose proof (extract_text_try_final pages self) as H.
  destruct (outcome (extract_text_try rec E pages self)); exact H.
Qed.

End Activation.

Lemma extract_text_unfold (depth : nat) (E : Env) (pages : option (list Z)) :
  extract_text depth E pages = extract_text_body (nested_call depth E) E pages.
Proof. destruct depth; reflexivity. Qed.

(** [extract_text] leaves the parser as it found it. *)
Lemma extract_text_keeps (depth : nat) (E : Env) :
  forall pages self, final (extract_text depth E pages self) = self.
Proof.
  induction depth as [|d IH]; intros pages self; rewrite extract_text_unfold;
    apply extract_text_body_final.
  - reflexivity.
  - exact IH.
Qed.

Lemma nested_call_keeps (depth : nat) (E : Env) :
  forall pages self, final (nested_call depth E pages self) = self.
Proof. destruct depth; [reflexivity | apply extract_text_keeps]. Qed.

Lemma extract_text_returns (depth : nat) (E : Env) (pages : option (list Z))
    (self : Parser) :
  match can_parse E with
  | Return _ => exists r, outcome (extract_text depth E pages self) = Return r
  | Raise e => extract_text depth E pages self = mkRun self [] (Raise e)
  end.
Proof. rewrite extract_text_unfold. apply extract_text_body_returns. Qed.

(** ** What an activation returns *)

Lemma attempt_of_cases (E : Env) (b : Backend) (pages : option (list Z)) :
  match attempt_of E b pages with
  | Raise e => st_size (file_path E) = Raise e
  | Return (Early r) =>
      exists m, metadata_of E b = Return m
                /\ validate_pages (page_count m) pages = None
                /\ r = failure m (backend_name b) "No valid pages specified"
  | Return (Extracted r requested) =>
      exists m, metadata_of E b = Return m
                /\ validate_pages (page_count m) pages = Some requested
                /\ r = mkExtractionResult true
                         (full_text_of (pages_of E b requested))
                         (pages_of E b requested) m (backend_name b)
                         (_assess_extraction_quality
                            (pages_of E b requested)
                            (full_text_of (pages_of E b requested)))
                         None
  end.
Proof.
  unfold attempt_of.
  destruct (metadata_of E b) as [m|e] eqn:Hm.
  - destruct (validate_pages (page_count m) pages) as [p|] eqn:Hv.
    + exists m. split; [reflexivity|]. split; [assumption | reflexivity].
    + exists m. split; [reflexivity|]. split; [assumption | reflexivity].
  - revert Hm. unfold metadata_of.
    destruct (st_size (file_path E)); [discriminate|].
    intro H; injection H as ->. reflexivity.
Qed.

Lemma extracted_success (E : Env) (b : Backend) (pages p : option (list Z))
    (r : ExtractionResult) :
  attempt_of E b pages = Return (Extracted r p) ->
  success r = true /\ error_message r = None
  /\ (quality_score r <= 1)%Q.
Proof.
  intro H. pose proof (attempt_of_cases E b pages) as Hc. rewrite H in Hc.
  destruct Hc as (m & _ & _ & ->). cbn.
  repeat split. apply aggregate_le_1.
Qed.

Section Classification.

Variable rec : option (list Z) -> M ExtractionResult.
Variable E : Env.
Hypothesis rec_keeps : forall p self, final (rec p self) = self.

Lemma retry_if_low_cases (result : ExtractionResult)
    (requested : option (list Z)) (self : Parser) :
  match outcome (retry_if_low rec E result requested self) with
  | Return r =>
      r = result
      \/ (success r = true
          /\ (quality_score result < quality_score r)%Q
          /\ exists b, outcome (rec requested (with_backend b self)) = Return r)
  | Raise e => exists b, outcome (rec requested (with_backend b self)) = Raise e
  end.
Proof.
  rewrite retry_if_low_unfold.
  destruct (_ && _); [|left; reflexivity]. cbv zeta.
  pose proof (try_fallback_outcome rec E rec_keeps requested self) as H.
  destruct (outcome (_try_fallback_extraction rec E requested self)) as [fr|e].
  - destruct (success fr && Qltb (quality_score result) (quality_score fr))
      eqn:Hb; cbn [outcome]; [|left; reflexivity].
    apply andb_true_iff in Hb. destruct Hb as [Hs Hq].
    right. split; [assumption|]. split; [apply Qltb_lt; assumption|].
    destruct H as [[_ H]|H]; [exact H | congruence].
  - exact H.
Qed.

Lemma extract_text_body_cases (pages : option (list Z)) (self : Parser)
    (r : ExtractionResult) :
  outcome (extract_text_body rec E pages self) = Return r ->
  Returned rec E pages self r.
Proof.
  rewrite extract_text_body_unfold.
  destruct (can_parse E) as [[|]|e0] eqn:Hcp; cbn [outcome].
  2:{ intro H. injection H as <-. apply Ret_cannot_parse; [assumption|reflexivity]. }
  2:{ discriminate. }
  cbv zeta. rewrite extract_text_try_unfold. cbv zeta.
  destruct (first_attempt_run E pages self) as [Hf Ho].
  pose proof (attempt_of_cases E (backend self) pages) as Hc.
  rewrite Ho. rewrite Hf.
  destruct (attempt_of E (backend self) pages) as [[r0|result requested]|e]
    eqn:Ha; cbn [outcome final trace].
  - intros H. injection H as <-.
    destruct Hc as (m & Hm & Hv & ->).
    eapply Ret_no_valid_pages; eauto.
  - pose proof (retry_if_low_cases result requested self) as Hr.
    rewrite (retry_if_low_final rec E rec_keeps).
    destruct (outcome (retry_if_low rec E result requested self)) as [x|e]
      eqn:Hx; cbn [outcome final trace]; intros H.
    + injection H as <-. destruct Hr as [->|(Hs & Hq & b & Hb)].
      * eapply Ret_own; eauto.
      * eapply Ret_fallback; eauto.
    + injection H as <-. destruct Hr as [b Hb].
      eapply Ret_nested_raised; eauto.
  - intros H. injection H as <-.
    eapply Ret_stat_raised; eauto.
Qed.

End Classification.

Lemma nested_call_raises (depth : nat) (E : Env) (p : option (list Z))
    (self : Parser) (e : exn) (parseable : bool) :
  can_parse E = Return parseable ->
  outcome (nested_call depth E p self) = Raise e ->
  e = RecursionError recursion_message.
Proof.
  intro Hcp. destruct depth; simpl.
  - intro H; injection H as <-. reflexivity.
  - intro H. pose proof (extract_text_returns depth E p self) as Hx.
    rewrite Hcp in Hx. destruct Hx as [r Hr]. congruence.
Qed.

Lemma extract_text_cases (depth : nat) (E : Env) (pages : option (list Z))
    (self : Parser) (r : ExtractionResult) :
  outcome (extract_text depth E pages self) = Return r ->
  Returned (nested_call depth E) E pages self r.
Proof.
  rewrite extract_text_unfold. apply extract_text_body_cases.
  apply nested_call_keeps.
Qed.

(** A successful result is the one some backend's first attempt built,
    for the requested selection or a part of it. *)
Lemma extract_text_success (depth : nat) (E : Env) :
  forall pages self r,
    outcome (extract_text depth E pages self) = Return r ->
    success r = true ->
    exists b p requested,
      narrows pages p /\ attempt_of E b p = Return (Extracted r requested).
Proof.
  induction depth as [|d IH]; intros pages self r Hr Hs;
    apply extract_text_cases in Hr;
    destruct Hr as [Hcp ->|m Hcp Hm Hv ->|e Hcp He ->|requested Hcp Ha
                   |result requested b Hcp Ha Hb Hs' Hq
                   |result requested b e Hcp Ha Hb ->];
    try discriminate;
    try (exists (backend self), pages, requested;
         split; [apply narrows_refl | assumption]).
  destruct (IH _ _ _ Hb Hs) as (b' & p & q & Hn & Hp).
  exists b', p, q. split; [|assumption].
  eapply narrows_trans; [|exact Hn].
  pose proof (attempt_of_cases E (backend self) pages) as Hc.
  rewrite Ha in Hc. destruct Hc as (m & _ & Hv & _).
  eapply validate_pages_narrows; eassumption.
Qed.

(** A failed result carries neither text nor pages. *)
Lemma extract_text_failed (depth : nat) (E : Env) (selection : option (list Z))
    (self : Parser) (r : ExtractionResult) :
  outcome (extract_text depth E selection self) = Return r ->
  success r = false ->
  result_text r = [] /\ pages r = [] /\ (quality_score r == 1)%Q.
Proof.
  intros Hr Hs. apply extract_text_cases in Hr.
  destruct Hr as [Hcp ->|m Hcp Hm Hv ->|e Hcp He ->|requested Hcp Ha
                 |result requested b Hcp Ha Hb Hs' Hq
                 |result requested b e Hcp Ha Hb ->];
    try (repeat split; reflexivity).
  - apply extracted_success in Ha. destruct Ha as [Ha _]. congruence.
  - congruence.
Qed.

(* ================================================================== *)
(** * The claims *)

Import Sample.

Local Open Scope Q_scope.

Lemma produced_pages_ok (depth : nat) (E : Env) (selection : option (list Z))
    (self : Parser) (r : ExtractionResult) :
  outcome (extract_text depth E selection self) = Return r ->
  result_text r = full_text_of (pages r)
  /\ Forall page_ok (pages r)
  /\ (success r = true ->
      quality_score r
      = _assess_extraction_quality (pages r) (full_text_of (pages r))).
Proof.
  intro Hr. destruct (success r) eqn:Hs.
  - destruct (extract_text_success _ _ _ _ _ Hr Hs) as (b & p & q & _ & Ha).
    pose proof (attempt_of_cases E b p) as Hc. rewrite Ha in Hc.
    destruct Hc as (m & _ & _ & ->). cbn.
    split; [reflexivity|]. split; [|reflexivity].
    apply Forall_forall. intros x Hx. apply pages_of_facts in Hx. apply Hx.
  - destruct (extract_text_failed _ _ _ _ _ Hr Hs) as (Ht & Hp & _).
    rewrite Ht, Hp. split; [reflexivity|]. split; [constructor | discriminate].
Qed.

(** C2.  Every page record of a result [extract_text] returns carries the
    specified page score: 1.0 times 0.5 for fewer than 50 characters, times
    0.7 for more than 15 characters per word, times 0.8 for the artifact or
    more than one newline per ten characters, at most 1.0, and 0.0 for a
    page without characters; the counts are those of the page text, so a
    page with empty text scores exactly 0.0. *)
Theorem page_quality_as_specified (depth : nat) (E : Env)
    (selection : option (list Z)) (self : Parser) (r : ExtractionResult)
    (p : PageData) :
  outcome (extract_text depth E selection self) = Return r ->
  In p (pages r) ->
  extraction_quality p == page_score_spec p
  /\ char_count p = len (text p)
  /\ word_count p = Z.of_nat (List.length (split (text p)))
  /\ (text p = [] -> extraction_quality p = 0).
Proof.
  intros Hr Hin.
  destruct (produced_pages_ok _ _ _ _ _ Hr) as (_ & Hall & _).
  rewrite Forall_forall in Hall. destruct (Hall p Hin) as (Hc & Hw & Hq).
  split; [|split; [assumption|split; [assumption|]]].
  - rewrite Hq. apply page_quality_refines. rewrite Hc. apply len_nonneg.
  - intro Ht. rewrite Hq. unfold _assess_page_quality.
    rewrite Hc, Ht. reflexivity.
Qed.

Lemma page_quality_as_specified_witness :
  let r := returned (extract_text 1 five_pages None parser) in
  let p := nth 2 (pages r) (mkPageData 0 [] 0 0 false false 1) in
  outcome (extract_text 1 five_pages None parser) = Return r
  /\ In p (pages r)
  /\ extraction_quality p == page_score_spec p
  /\ text p = []
  /\ extraction_quality p = 0.
Proof.
  intros r p.
  assert (H1 : outcome (extract_text 1 five_pages None parser) = Return r)
    by (vm_compute; reflexivity).
  assert (H2 : In p (pages r)) by (vm_compute; tauto).
  destruct (page_quality_as_specified 1 five_pages None parser r p H1 H2)
    as (Hq & _ & _ & H0).
  assert (Ht : text p = []) by (vm_compute; reflexivity).
  repeat split; auto.
Defined.

(** C3.  The aggregate score of every successful result is the specified
    one: the mean of the page scores times 1.1 when the joined text has
    words of mean length within [2, 12] and times 0.9 otherwise, clamped to
    [0, 1]; it is 0.0 for an empty page sequence and for a text without
    characters. *)
Theorem aggregate_quality_as_specified (depth : nat) (E : Env)
    (selection : option (list Z)) (self : Parser) (r : ExtractionResult) :
  outcome (extract_text depth E selection self) = Return r ->
  success r = true ->
  quality_score r == aggregate_spec (pages r)
  /\ result_text r = full_text_of (pages r)
  /\ (pages r = [] \/ len (result_text r) = 0%Z -> quality_score r == 0).
Proof.
  intros Hr Hs.
  destruct (produced_pages_ok _ _ _ _ _ Hr) as (Ht & Hall & Hq).
  specialize (Hq Hs).
  assert (Hspec : quality_score r == aggregate_spec (pages r)).
  { rewrite Hq. apply aggregate_refines.
    eapply Forall_impl; [|exact Hall]. intros p. apply page_ok_nonneg. }
  split; [assumption|]. split; [assumption|].
  intros [Hnil|Hlen]; rewrite Hspec; unfold aggregate_spec.
  - rewrite Hnil. reflexivity.
  - rewrite <- Ht, Hlen. destruct (pages r); reflexivity.
Qed.

Lemma aggregate_quality_as_specified_witness :
  let r := returned (extract_text 1 five_pages None parser) in
  outcome (extract_text 1 five_pages None parser) = Return r
  /\ success r = true
  /\ quality_score r == aggregate_spec (pages r)
  /\ quality_score r == 0.88.
Proof.
  intro r.
  assert (H1 : outcome (extract_text 1 five_pages None parser) = Return r)
    by (vm_compute; reflexivity).
  assert (H2 : success r = true) by (vm_compute; reflexivity).
  destruct (aggregate_quality_as_specified 1 five_pages None parser r H1 H2)
    as (Hq & _ & _).
  repeat split; auto.
Defined.

(** C4.  The result [extract_text] returns never scores below the result
    its first attempt built: when the fallback runs, the better of the two
    is kept. *)
Theorem fallback_never_lowers_quality (depth : nat) (E : Env)
    (selection requested : option (list Z)) (self : Parser)
    (result r : ExtractionResult) :
  outcome (first_attempt E selection self) = Return (Extracted result requested) ->
  outcome (extract_text depth E selection self) = Return r ->
  quality_score result <= quality_score r.
Proof.
  intros Ha Hr.
  destruct (first_attempt_run E selection self) as [_ Ho]. rewrite Ho in Ha.
  destruct (extracted_success _ _ _ _ _ Ha) as (_ & _ & Hle).
  apply extract_text_cases in Hr.
  destruct Hr as [Hcp ->|m Hcp Hm Hv ->|e Hcp He ->|requested' Hcp Ha'
                 |result' requested' b Hcp Ha' Hb Hs' Hq
                 |result' requested' b e Hcp Ha' Hb ->];
    try exact Hle.
  - rewrite Ha in Ha'. injection Ha' as -> _. apply Qle_refl.
  - rewrite Ha in Ha'. injection Ha' as <- _. apply Qlt_le_weak. assumption.
Qed.

Lemma fallback_never_lowers_quality_witness :
  let r := returned (extract_text 3 two_backends None parser) in
  exists result,
    outcome (first_attempt two_backends None parser)
    = Return (Extracted result None)
    /\ outcome (extract_text 3 two_backends None parser) = Return r
    /\ fallback_attempts (trace (extract_text 3 two_backends None parser)) = 1%nat
    /\ quality_score result == 0.55
    /\ quality_score r == 1
    /\ quality_score result <= quality_score r.
Proof.
  intros r.
  destruct (outcome (first_attempt two_backends None parser)) as [[x|result q]|e]
    eqn:Ha; try (vm_compute in Ha; discriminate).
  assert (Hq : q = None) by (vm_compute in Ha; congruence). subst q.
  exists result.
  assert (H1 : outcome (extract_text 3 two_backends None parser) = Return r)
    by (vm_compute; reflexivity).
  pose proof (fallback_never_lowers_quality 3 two_backends None None parser
                result r Ha H1) as Hle.
  assert (quality_score result == 0.55)
    by (vm_compute in Ha; injection Ha as <-; vm_compute; reflexivity).
  repeat split; auto.
Defined.

(** C7.  A result [extract_text] returns with [success == false] has an
    empty text and an empty page sequence. *)
Theorem failed_result_is_empty (depth : nat) (E : Env)
    (selection : option (list Z)) (self : Parser) (r : ExtractionResult) :
  outcome (extract_text depth E selection self) = Return r ->
  success r = false ->
  result_text r = [] /\ pages r = [].
Proof.
  intros Hr Hs. destruct (extract_text_failed _ _ _ _ _ Hr Hs) as (Ht & Hp & _).
  split; assumption.
Qed.

Lemma failed_result_is_empty_witness :
  let r := returned (extract_text 1 five_pages (Some [9999%Z]) parser) in
  outcome (extract_text 1 five_pages (Some [9999%Z]) parser) = Return r
  /\ success r = false
  /\ result_text r = [] /\ pages r = [].
Proof.
  intro r.
  assert (H1 : outcome (extract_text 1 five_pages (Some [9999%Z]) parser)
               = Return r) by (vm_compute; reflexivity).
  assert (H2 : success r = false) by (vm_compute; reflexivity).
  split; [assumption|]. split; [assumption|].
  exact (failed_result_is_empty 1 five_pages (Some [9999%Z]) parser r H1 H2).
Defined.

(** C10.  After [extract_text] returns, the parser's [backend] attribute
    is what it was before the call.  The fallback routine, which assigns
    it, has put the original value back when it returns or raises. *)
Theorem backend_restored (depth : nat) (E : Env) (selection : option (list Z))
    (self : Parser) :
  backend (final (extract_text depth E selection self)) = backend self
  /\ backend (final (_try_fallback_extraction (nested_call depth E) E
                                              selection self))
     = backend self.
Proof.
  rewrite extract_text_keeps.
  rewrite (try_fallback_final _ E (nested_call_keeps depth E)).
  split; reflexivity.
Qed.

(** ** The page selection in [extract_text] *)



Section EmptySelection.

Variable rec : option (list Z) -> M ExtractionResult.
Variable E : Env.
Hypothesis rec_same : forall self, rec (Some []) self = rec None self.




End EmptySelection.


(** ** Page numbers and the page count *)

Local Close Scope Q_scope.

Lemma metadata_page_count (E : Env) (b : Backend) (m : PDFMetadata) :
  metadata_of E b = Return m ->
  page_count m = 0 \/ page_count m = n_pages (view E b).
Proof.
  unfold metadata_of. destruct (st_size (file_path E)); [|discriminate].
  intro H; injection H as <-. unfold read_metadata.
  destruct (dv_open_raises (view E b)); [left; reflexivity|].
  destruct b; destruct (dv_info _) as [[meta|]|e]; cbn; auto.
Qed.

Lemma metadata_page_count_nonneg (E : Env) (b : Backend) (m : PDFMetadata) :
  metadata_of E b = Return m -> 0 <= page_count m.
Proof.
  intro H. destruct (metadata_page_count _ _ _ H) as [->| ->];
    [lia | unfold n_pages; lia].
Qed.

Lemma metadata_page_count_recorded (E : Env) (b : Backend) (m : PDFMetadata) :
  metadata_of E b = Return m ->
  dv_open_raises (view E b) = None ->
  (b = pymupdf -> records_page_count (view E pymupdf) = true) ->
  page_count m = n_pages (view E b).
Proof.
  unfold metadata_of. destruct (st_size (file_path E)); [|discriminate].
  intros H Hopen Hrec; injection H as <-. unfold read_metadata.
  rewrite Hopen.
  destruct b; try (destruct (dv_info _) as [[meta|]|e]; reflexivity).
  specialize (Hrec eq_refl). unfold records_page_count in Hrec.
  rewrite Hopen in Hrec.
  destruct (dv_info (view E pymupdf)) as [[meta|]|e];
    [reflexivity | discriminate | discriminate].
Qed.

(** With an explicit selection the records are those of requested pages
    within the page count. *)
Lemma extracted_explicit (E : Env) (b : Backend) (l : list Z)
    (q : option (list Z)) (r : ExtractionResult) (x : PageData) :
  l <> [] ->
  attempt_of E b (Some l) = Return (Extracted r q) ->
  In x (pages r) ->
  In (page_number x) (filter (in_range (page_count (metadata r))) l).
Proof.
  intros Hne Ha Hx.
  pose proof (attempt_of_cases E b (Some l)) as Hc. rewrite Ha in Hc.
  destruct Hc as (m & Hm & Hv & ->). cbn in *.
  destruct (validate_pages_explicit _ _ _ Hne Hv) as (l' & -> & Hne' & Hl').
  apply pages_of_facts in Hx. destruct Hx as (_ & Hk & _).
  rewrite <- Hl'. apply skipped_explicit; assumption.
Qed.

(** When every page is refused the loop ends at the first page it does
    not skip, with no record. *)
Lemma collect_pages_refused (b : Backend) (target_pages : option (list Z))
    (vs : list PageView) :
  forallb refused vs = true ->
  forall i, fst (collect_pages b target_pages i vs) = [].
Proof.
  induction vs as [|v vs IH]; intros Hall i; [reflexivity|].
  cbn [forallb] in Hall. apply andb_true_iff in Hall. destruct Hall as [Hv Hvs].
  cbn [collect_pages]. destruct (skipped target_pages (i + 1)).
  - apply IH; assumption.
  - unfold read_page. unfold refused in Hv.
    destruct (pv_raises v); [reflexivity | discriminate].
Qed.

Lemma extracted_bounds (E : Env) (b : Backend) (p q : option (list Z))
    (r : ExtractionResult) :
  attempt_of E b p = Return (Extracted r q) ->
  metadata_or_locked (view E pymupdf) = true ->
  Z.of_nat (List.length (pages r)) <= page_count (metadata r)
  /\ forall x, In x (pages r) -> 1 <= page_number x <= page_count (metadata r).
Proof.
  intros Ha Hlib.
  pose proof (attempt_of_cases E b p) as Hcases. rewrite Ha in Hcases.
  destruct Hcases as (m & Hm & Hv & ->). cbn [pages metadata].
  assert (Hall : forall x, In x (pages_of E b q) ->
                           1 <= page_number x <= page_count m).
  { intros x Hx. pose proof Hx as Hx'. apply pages_of_facts in Hx'.
    destruct Hx' as (Hr & _ & _).
    assert (Hopen : dv_open_raises (view E b) = None).
    { unfold pages_of in Hx. destruct (dv_open_raises (view E b));
        [contradiction | reflexivity]. }
    rewrite (metadata_page_count_recorded E b m Hm Hopen); [assumption|].
    intros ->. unfold records_page_count. rewrite Hopen.
    unfold metadata_or_locked in Hlib.
    destruct (dv_info (view E pymupdf)) as [[meta|]|e]; [reflexivity| |];
      unfold pages_of in Hx; rewrite Hopen in Hx;
      rewrite (collect_pages_refused _ _ _ Hlib) in Hx; contradiction. }
  split; [|assumption].
  pose proof (metadata_page_count_nonneg _ _ _ Hm) as Hnn.
  pose proof (pages_of_length E b q (page_count m)) as Hlen.
  assert (Hle : forall x, In x (pages_of E b q) -> page_number x <= page_count m).
  { intros x Hx. apply Hall in Hx. lia. }
  specialize (Hlen Hle). lia.
Qed.

(** C8.  Every result [extract_text] returns has at most
    [metadata.page_count] page records, and every [page_number] lies in
    [1, metadata.page_count].  PyMuPDF's answers are taken as the library
    gives them: [doc.metadata] is a dictionary, or the document needs a
    password and none of its pages loads. *)
Theorem pages_within_page_count (depth : nat) (E : Env)
    (selection : option (list Z)) (self : Parser) (r : ExtractionResult) :
  metadata_or_locked (view E pymupdf) = true ->
  outcome (extract_text depth E selection self) = Return r ->
  Z.of_nat (List.length (pages r)) <= page_count (metadata r)
  /\ forall x, In x (pages r) -> 1 <= page_number x <= page_count (metadata r).
Proof.
  intros Hlib Hr. destruct (success r) eqn:Hs.
  - destruct (extract_text_success _ _ _ _ _ Hr Hs) as (b & p & q & Hn & Ha).
    apply (extracted_bounds E b p q r Ha Hlib).
  - destruct (extract_text_failed _ _ _ _ _ Hr Hs) as (_ & Hp & _).
    rewrite Hp. split; [|intros x []]. cbn.
    apply extract_text_cases in Hr.
    destruct Hr as [Hcp ->|m Hcp Hm Hv ->|e Hcp He ->|requested Hcp Ha
                   |result requested b Hcp Ha Hb Hs' Hq
                   |result requested b e Hcp Ha Hb ->]; cbn; try lia.
    + eapply metadata_page_count_nonneg; eassumption.
    + apply extracted_success in Ha. destruct Ha as [Ha _]. congruence.
    + congruence.
Qed.

Lemma pages_within_page_count_witness :
  let r := returned (extract_text 1 five_pages (Some [1; 9999]) parser) in
  let s := returned (extract_text 1 locked None parser) in
  (metadata_or_locked (view five_pages pymupdf) = true
   /\ outcome (extract_text 1 five_pages (Some [1; 9999]) parser) = Return r
   /\ Z.of_nat (List.length (pages r)) <= page_count (metadata r)
   /\ map page_number (pages r) = [1]
   /\ page_count (metadata r) = 5)
  /\ (metadata_or_locked (view locked pymupdf) = true
      /\ outcome (extract_text 1 locked None parser) = Return s
      /\ Z.of_nat (List.length (pages s)) <= page_count (metadata s)
      /\ pages s = []
      /\ page_count (metadata s) = 0).
Proof.
  intros r s.
  assert (H0 : metadata_or_locked (view five_pages pymupdf) = true)
    by reflexivity.
  assert (H1 : outcome (extract_text 1 five_pages (Some [1; 9999]) parser)
               = Return r) by (vm_compute; reflexivity).
  assert (H2 : metadata_or_locked (view locked pymupdf) = true)
    by reflexivity.
  assert (H3 : outcome (extract_text 1 locked None parser) = Return s)
    by (vm_compute; reflexivity).
  destruct (pages_within_page_count 1 five_pages (Some [1; 9999]) parser r H0 H1)
    as [Hlen _].
  destruct (pages_within_page_count 1 locked None parser s H2 H3)
    as [Hlen' _].
  split.
  - split; [assumption|]. split; [assumption|]. split; [assumption|].
    split; vm_compute; reflexivity.
  - split; [assumption|]. split; [assumption|]. split; [assumption|].
    split; vm_compute; reflexivity.
Defined.

Lemma metadata_run_of (E : Env) (self : Parser) (m : PDFMetadata) :
  outcome (_extract_metadata E self) = Return m ->
  metadata_of E (backend self) = Return m.
Proof. destruct (extract_metadata_run E self) as [_ <-]. auto. Qed.

Lemma narrows_explicit_part (l : list Z) (p : option (list Z)) :
  l <> [] -> narrows (Some l) p ->
  exists l', p = Some l' /\ l' <> [] /\ incl l' l.
Proof.
  intros Hne Hn. destruct l as [|x l]; [congruence|].
  destruct p as [[|y l']|]; simpl in Hn; try contradiction.
  exists (y :: l'). split; [reflexivity|]. split; [discriminate | assumption].
Qed.

(** C5.  With a non-empty explicit page list, on a file that can be parsed
    and whose metadata pass returned [m]: if no requested number lies in
    [1, m.page_count] the call returns the failed result 'No valid pages
    specified', with no text and no pages; otherwise the numbers out of
    range are dropped without an error of that kind, and every page record
    of the result is one of the requested numbers within range. *)
Theorem invalid_pages_dropped_or_rejected (depth : nat) (E : Env)
    (l : list Z) (self : Parser) (m : PDFMetadata) :
  l <> [] ->
  can_parse E = Return true ->
  outcome (_extract_metadata E self) = Return m ->
  (filter (in_range (page_count m)) l = [] ->
   outcome (extract_text depth E (Some l) self)
   = Return (mkExtractionResult false [] [] m (backend_name (backend self)) 1%Q
                                (Some "No valid pages specified"%string)))
  /\ (filter (in_range (page_count m)) l <> [] ->
      forall r, outcome (extract_text depth E (Some l) self) = Return r ->
                error_message r <> Some "No valid pages specified"%string
                /\ forall x, In x (pages r) ->
                             In (page_number x)
                                (filter (in_range (page_count m)) l)).
Proof.
  intros Hne Hcp Hmeta. apply metadata_run_of in Hmeta.
  assert (Hstat : forall e, st_size (file_path E) <> Raise e).
  { intros e He. unfold metadata_of in Hmeta. rewrite He in Hmeta. discriminate. }
  pose proof (attempt_of_cases E (backend self) (Some l)) as Hcases.
  split.
  - intro Hnone. apply (validate_pages_none (page_count m)) in Hnone;
      [|assumption].
    pose proof (extract_text_returns depth E (Some l) self) as Hret.
    rewrite Hcp in Hret. destruct Hret as [r Hr].
    rewrite Hr. f_equal. apply extract_text_cases in Hr.
    destruct Hr as [Hcp' ->|m' Hcp' Hm Hv ->|e Hcp' He ->|requested Hcp' Ha
                   |result requested b Hcp' Ha Hb Hs' Hq
                   |result requested b e Hcp' Ha Hb ->];
      try congruence;
      try (exfalso; eapply Hstat; eassumption);
      try (rewrite Ha in Hcases; destruct Hcases as (m' & Hm' & Hv & _);
           congruence).
    unfold failure. congruence.
  - intros Hsome r Hr.
    assert (Hv : validate_pages (page_count m) (Some l)
                 = Some (Some (filter (in_range (page_count m)) l))).
    { destruct (validate_pages (page_count m) (Some l)) as [p|] eqn:Hv.
      - destruct (validate_pages_explicit _ _ _ Hne Hv) as (l' & -> & _ & ->).
        reflexivity.
      - apply validate_pages_none in Hv; [contradiction | assumption]. }
    assert (Hown : forall result requested,
               attempt_of E (backend self) (Some l)
               = Return (Extracted result requested) ->
               requested = Some (filter (in_range (page_count m)) l)
               /\ metadata result = m).
    { intros result requested Ha. rewrite Ha in Hcases.
      destruct Hcases as (m' & Hm' & Hv' & ->). cbn.
      assert (m' = m) by congruence. subst m'. split; congruence. }
    pose proof Hr as Hcls. apply extract_text_cases in Hcls.
    destruct Hcls as [Hcp' ->|m' Hcp' Hm Hv' ->|e Hcp' He ->|requested Hcp' Ha
                     |result requested b Hcp' Ha Hb Hs' Hq
                     |result requested b e Hcp' Ha Hb ->];
      try congruence;
      try (exfalso; eapply Hstat; eassumption).
    + destruct (Hown _ _ Ha) as [_ Hm'].
      destruct (extracted_success _ _ _ _ _ Ha) as (_ & Herr & _).
      split; [rewrite Herr; discriminate|].
      intros x Hx. rewrite <- Hm'.
      eapply extracted_explicit; eassumption.
    + destruct (Hown _ _ Ha) as [-> _].
      destruct depth as [|d]; [discriminate|]. simpl in Hb.
      destruct (extract_text_success _ _ _ _ _ Hb Hs') as (b' & p & q & Hn & Hp).
      destruct (extracted_success _ _ _ _ _ Hp) as (_ & Herr & _).
      split; [rewrite Herr; discriminate|].
      destruct (narrows_explicit_part _ _ Hsome Hn) as (l' & -> & Hne' & Hincl).
      intros x Hx. apply Hincl.
      pose proof (extracted_explicit E b' l' q r x Hne' Hp Hx) as Hin.
      apply filter_In in Hin. apply Hin.
    + apply (nested_call_raises _ _ _ _ _ _ Hcp) in Hb. subst e. cbn.
      split; [discriminate | intros x []].
Qed.

Lemma invalid_pages_dropped_or_rejected_witness :
  let m := metadata (returned (extract_text 1 five_pages None parser)) in
  let r := returned (extract_text 1 five_pages (Some [1; 9999]) parser) in
  [9999] <> []
  /\ can_parse five_pages = Return true
  /\ outcome (_extract_metadata five_pages parser) = Return m
  /\ filter (in_range (page_count m)) [9999] = []
  /\ outcome (extract_text 1 five_pages (Some [9999]) parser)
     = Return (mkExtractionResult false [] [] m "pymupdf" 1%Q
                                  (Some "No valid pages specified"%string))
  /\ filter (in_range (page_count m)) [1; 9999] <> []
  /\ outcome (extract_text 1 five_pages (Some [1; 9999]) parser) = Return r
  /\ forall x, In x (pages r) -> In (page_number x) [1].
Proof.
  intros m r.
  assert (H0 : [9999] <> []) by discriminate.
  assert (H0' : [1; 9999] <> []) by discriminate.
  assert (H1 : can_parse five_pages = Return true) by reflexivity.
  assert (H2 : outcome (_extract_metadata five_pages parser) = Return m)
    by (vm_compute; reflexivity).
  assert (H3 : filter (in_range (page_count m)) [9999] = [])
    by (vm_compute; reflexivity).
  assert (H4 : filter (in_range (page_count m)) [1; 9999] <> [])
    by (vm_compute; discriminate).
  assert (H5 : outcome (extract_text 1 five_pages (Some [1; 9999]) parser)
               = Return r) by (vm_compute; reflexivity).
  destruct (invalid_pages_dropped_or_rejected 1 five_pages [9999] parser m
              H0 H1 H2) as [Hrej _].
  destruct (invalid_pages_dropped_or_rejected 1 five_pages [1; 9999] parser m
              H0' H1 H2) as [_ Hdrop].
  specialize (Hrej H3). destruct (Hdrop H4 r H5) as [_ Hin].
  split; [assumption|]. split; [assumption|]. split; [assumption|].
  split; [assumption|]. split; [exact Hrej|]. split; [assumption|].
  split; [assumption|].
  intros x Hx. specialize (Hin x Hx). exact Hin.
Defined.

(** ** Exceptions *)

Lemma select_pdf_backend_raises (E : Env) (preferred : string) (e : exn) :
  snd (_select_pdf_backend E preferred) = Raise e ->
  _has_pymupdf E = false /\ _has_pdfplumber E = false /\ _has_pypdf2 E = false.
Proof.
  unfold _select_pdf_backend.
  destruct (negb (String.eqb preferred "auto"));
    destruct (_has_pymupdf E), (_has_pdfplumber E), (_has_pypdf2 E);
    rewrite ?andb_true_r, ?andb_false_r;
    repeat match goal with
           | |- context [if ?c then _ else _] => destruct c
           end;
    cbn; intro H; try discriminate; auto.
Qed.

Lemma select_pdf_backend_none (E : Env) (preferred : string) :
  _has_pymupdf E = false -> _has_pdfplumber E = false -> _has_pypdf2 E = false ->
  snd (_select_pdf_backend E preferred) = Raise (ImportError no_backend_message).
Proof.
  unfold _select_pdf_backend. intros -> -> ->.
  rewrite !andb_false_r. destruct (negb _); reflexivity.
Qed.

(** C6 (amended).  Past the [can_parse] check [extract_text] always
    returns a result and never raises; only what the check itself raises,
    before the [try], leaves the call.
    An exception that leaves its [try] block becomes the failed result
    whose [error_message] is the exception's message.  The page pass never
    raises and the metadata pass raises only what [stat()] raised: what a
    backend library raises inside them is logged there and extraction goes
    on.  Backend selection raises [ImportError] exactly when no library
    was imported, and then so does the constructor. *)
Theorem exceptions_never_escape (depth : nat) (E : Env)
    (selection : option (list Z)) (self : Parser) :
  match can_parse E with
  | Return _ => exists r, outcome (extract_text depth E selection self) = Return r
  | Raise e => outcome (extract_text depth E selection self) = Raise e
  end
  /\ (forall e,
        can_parse E = Return true ->
        outcome (extract_text_try (nested_call depth E) E selection self)
        = Raise e ->
        outcome (extract_text depth E selection self)
        = Return (mkExtractionResult false [] [] default_metadata
                    (backend_name (backend self)) 1%Q (Some (exn_str e))))
  /\ (forall m target,
        exists pages_data,
          outcome (_extract_pages_content E m target self) = Return pages_data)
  /\ (forall e, outcome (_extract_metadata E self) = Raise e ->
                st_size (file_path E) = Raise e)
  /\ (forall preferred,
        (exists e, snd (_select_pdf_backend E preferred) = Raise e)
        <-> _has_pymupdf E = false /\ _has_pdfplumber E = false
            /\ _has_pypdf2 E = false)
  /\ (forall preferred e,
        snd (_select_pdf_backend E preferred) = Raise e ->
        e = ImportError no_backend_message)
  /\ (forall config mode strategy,
        parse_extraction_mode (get_or (cfg_extraction_mode config) "normal"%string)
        = Return mode ->
        parse_chunk_strategy (get_or (cfg_chunk_strategy config) "page"%string)
        = Return strategy ->
        _has_pymupdf E = false -> _has_pdfplumber E = false ->
        _has_pypdf2 E = false ->
        snd (__init__ E config) = Raise (ImportError no_backend_message)).
Proof.
  split.
  { pose proof (extract_text_returns depth E selection self) as Hret.
    destruct (can_parse E); [exact Hret | rewrite Hret; reflexivity]. }
  split.
  { intros e Hcp Ht. rewrite extract_text_unfold, extract_text_body_unfold, Hcp.
    cbv zeta. rewrite Ht. cbn [outcome].
    rewrite (extract_text_try_final _ E (nested_call_keeps depth E)).
    reflexivity. }
  split.
  { intros m target. eexists.
    apply (proj2 (extract_pages_content_run E m target self)). }
  split.
  { intros e He. destruct (extract_metadata_run E self) as [_ Ho].
    rewrite Ho in He. unfold metadata_of in He.
    destruct (st_size (file_path E)); [discriminate|].
    injection He as ->. reflexivity. }
  split.
  { intro preferred. split.
    - intros [e He]. eapply select_pdf_backend_raises; eassumption.
    - intros (H1 & H2 & H3). eexists.
      apply select_pdf_backend_none; assumption. }
  split.
  { intros preferred e He.
    destruct (select_pdf_backend_raises _ _ _ He) as (H1 & H2 & H3).
    rewrite (select_pdf_backend_none E preferred H1 H2 H3) in He.
    injection He as <-. reflexivity. }
  intros config mode strategy Hmode Hstrategy H1 H2 H3.
  unfold __init__. rewrite Hmode, Hstrategy.
  pose proof (select_pdf_backend_none E
                (get_or (cfg_backend config) "auto"%string) H1 H2 H3) as Hsel.
  destruct (_select_pdf_backend E (get_or (cfg_backend config) "auto"%string))
    as [evs o].
  cbn in Hsel. subst o. reflexivity.
Qed.

Lemma exceptions_never_escape_witness :
  let e := OSError "No such file or directory: 'report.pdf'" in
  can_parse vanished = Return true
  /\ outcome (extract_text_try (nested_call 1 vanished) vanished None parser)
     = Raise e
  /\ outcome (extract_text 1 vanished None parser)
     = Return (mkExtractionResult false [] [] default_metadata "pymupdf" 1%Q
                 (Some "No such file or directory: 'report.pdf'"%string))
  /\ (_has_pymupdf no_library = false /\ _has_pdfplumber no_library = false
      /\ _has_pypdf2 no_library = false)
  /\ (exists e', snd (_select_pdf_backend no_library "auto") = Raise e')
  /\ snd (__init__ no_library (mkConfig None None None None None None))
     = Raise (ImportError no_backend_message).
Proof.
  intro e.
  assert (H1 : can_parse vanished = Return true) by reflexivity.
  assert (H2 : outcome (extract_text_try (nested_call 1 vanished) vanished
                                         None parser) = Raise e)
    by (vm_compute; reflexivity).
  assert (H3 : _has_pymupdf no_library = false
               /\ _has_pdfplumber no_library = false
               /\ _has_pypdf2 no_library = false)
    by (repeat split; reflexivity).
  destruct (exceptions_never_escape 1 vanished None parser)
    as (_ & Hconv & _).
  destruct (exceptions_never_escape 1 no_library None parser)
    as (_ & _ & _ & _ & Hsel & _ & Hinit).
  split; [assumption|]. split; [assumption|].
  split; [exact (Hconv e H1 H2)|]. split; [assumption|].
  split; [exact (proj2 (Hsel "auto"%string) H3)|].
  exact (Hinit (mkConfig None None None None None None) NORMAL PAGE
               eq_refl eq_refl eq_refl eq_refl eq_refl).
Defined.

(** C6, as stated, fails: PyMuPDF alone on a file it cannot open.  The
    exception is raised in both passes, caught and logged at lines 299 and
    376, and the call returns a successful result without pages and
    without an error message. *)
Lemma swallowed_backend_exception :
  let e := BackendError "cannot open broken document" in
  let run := extract_text 1 unreadable None parser in
  caught e (trace run)
  /\ In (Error_page_content e) (trace run)
  /\ outcome run = Return (returned run)
  /\ success (returned run) = true
  /\ error_message (returned run) = None
  /\ ~ (success (returned run) = false
        /\ error_message (returned run) = Some (exn_str e)).
Proof.
  intros e run.
  assert (Hin : In (Error_page_content e) (trace run))
    by (vm_compute; tauto).
  split; [right; left; exact Hin|]. split; [exact Hin|].
  repeat split; try (vm_compute; reflexivity).
  intros [H _]. vm_compute in H. discriminate.
Qed.

(** ** Counting the alternate backends tried *)

Section Counting.

Variable rec : option (list Z) -> M ExtractionResult.
Variable E : Env.

(** The attempts of one activation are those of its fallback loop. *)
Lemma body_attempts (selection : option (list Z)) (self : Parser) :
  fallback_attempts (trace (extract_text_body rec E selection self)) = 0%nat
  \/ exists result requested,
       can_parse E = Return true
       /\ outcome (first_attempt E selection self)
          = Return (Extracted result requested)
       /\ Qltb (quality_score result) (quality_threshold self) = true
       /\ fallback_attempts (trace (extract_text_body rec E selection self))
          = fallback_attempts
              (trace (fallback_loop rec E (backend self) requested
                                    fallback_order self)).
Proof.
  rewrite extract_text_body_unfold.
  destruct (can_parse E) as [[|]|e0] eqn:Hcp;
    [|left; reflexivity|left; reflexivity].
  cbv zeta. rewrite extract_text_try_unfold. cbv zeta.
  pose proof (first_attempt_quiet E selection self) as Hq.
  destruct (first_attempt_run E selection self) as [Hf _]. rewrite Hf.
  destruct (outcome (first_attempt E selection self))
    as [[r|result requested]|e] eqn:Ho; cbn [outcome trace final].
  - left. rewrite fallback_attempts_app, Hq. reflexivity.
  - rewrite retry_if_low_unfold.
    destruct (Qltb (quality_score result) (quality_threshold self)) eqn:Hlow;
      cbn [andb].
    2:{ left. cbn [outcome trace]. rewrite fallback_attempts_app, Hq.
        reflexivity. }
    destruct (has_other_backend E (backend self)).
    2:{ left. cbn [outcome trace]. rewrite fallback_attempts_app, Hq.
        reflexivity. }
    right. exists result, requested.
    split; [reflexivity|]. split; [reflexivity|]. split; [assumption|].
    cbv zeta. rewrite try_fallback_unfold. cbv zeta.
    set (loop := fallback_loop rec E (backend self) requested fallback_order self).
    destruct (outcome loop) as [[fr|]|e]; cbn [outcome trace final];
      try destruct (_ && _); cbn [outcome trace final];
      rewrite ?fallback_attempts_app, ?Hq, ?app_nil_r;
      unfold fallback_attempts; cbn [filter List.length];
      rewrite ?filter_app, ?length_app; cbn [filter List.length]; lia.
  - left. rewrite fallback_attempts_app, Hq. reflexivity.
Qed.

(** An activation whose first attempt is conclusive tries no alternate
    and returns what that attempt built. *)
Lemma conclusive_activation (selection : option (list Z)) (self : Parser) :
  conclusive E self (backend self) selection = true ->
  fallback_attempts (trace (extract_text_body rec E selection self)) = 0%nat
  /\ forall r q,
       can_parse E = Return true ->
       outcome (first_attempt E selection self) = Return (Extracted r q) ->
       outcome (extract_text_body rec E selection self) = Return r.
Proof.
  unfold conclusive. rewrite with_backend_same. intro Hc. split.
  - destruct (body_attempts selection self)
      as [H|(result & requested & _ & Ho & Hlow & _)]; [assumption|].
    rewrite Ho, Hlow in Hc. discriminate.
  - intros r q Hcp Ho. rewrite Ho in Hc. apply negb_true_iff in Hc.
    rewrite extract_text_body_unfold, Hcp. cbv zeta.
    rewrite extract_text_try_unfold. cbv zeta. rewrite Ho.
    cbn [outcome]. rewrite retry_if_low_unfold.
    destruct (first_attempt_run E selection self) as [Hf _]. rewrite Hf, Hc.
    reflexivity.
Qed.

Variable original : Backend.
Variable requested : option (list Z).
Variable self0 : Parser.

Hypothesis rec_keeps : forall p self, final (rec p self) = self.
Hypothesis rec_quiet :
  forall b, eligible E original b = true ->
            fallback_attempts (trace (rec requested (with_backend b self0)))
            = 0%nat.

Lemma fallback_loop_attempts (order : list Backend) (self : Parser) :
  (forall b, with_backend b self = with_backend b self0) ->
  (fallback_attempts (trace (fallback_loop rec E original requested order self))
   <= List.length (filter (eligible E original) order))%nat.
Proof.
  revert self; induction order as [|b order IH]; intros self Hcfg.
  - cbn. lia.
  - rewrite fallback_loop_cons. cbn [filter].
    destruct (eligible E original b) eqn:Hel; [|apply IH; assumption].
    cbv zeta. rewrite rec_keeps, Hcfg.
    pose proof (rec_quiet b Hel) as Hq.
    destruct (outcome (rec requested (with_backend b self0))) as [result|e].
    + destruct (success result); cbn [trace List.length].
      * change (Info_trying_fallback b :: ?t)
          with ([Info_trying_fallback b] ++ t).
        rewrite !fallback_attempts_app, Hq. cbn. lia.
      * change (Info_trying_fallback b :: ?t)
          with ([Info_trying_fallback b] ++ t).
        rewrite !fallback_attempts_app, Hq.
        specialize (IH (with_backend b self0) (fun _ => eq_refl)).
        cbn [fallback_attempts] in *. cbn. lia.
    + cbn [trace List.length].
      change (Info_trying_fallback b :: ?t)
        with ([Info_trying_fallback b] ++ t).
      rewrite !fallback_attempts_app, Hq. cbn. lia.
Qed.

(** The loop stops at the first eligible backend whose nested call does
    not return a failed result. *)
Lemma fallback_loop_first (order rest : list Backend) (b1 : Backend)
    (self : Parser) :
  (forall b, with_backend b self = with_backend b self0) ->
  filter (eligible E original) order = b1 :: rest ->
  match outcome (rec requested (with_backend b1 self0)) with
  | Return r => success r = true
  | Raise _ => True
  end ->
  (fallback_attempts (trace (fallback_loop rec E original requested order self))
   <= 1)%nat.
Proof.
  revert self; induction order as [|b order IH]; intros self Hcfg Hf Hs.
  - discriminate.
  - rewrite fallback_loop_cons. cbn [filter] in Hf.
    destruct (eligible E original b) eqn:Hel; [|apply IH; assumption].
    injection Hf as -> _.
    cbv zeta. rewrite rec_keeps, Hcfg.
    pose proof (rec_quiet b1 Hel) as Hq.
    destruct (outcome (rec requested (with_backend b1 self0))) as [result|e].
    + rewrite Hs. cbn [trace].
      change (Info_trying_fallback b1 :: ?t)
        with ([Info_trying_fallback b1] ++ t).
      rewrite !fallback_attempts_app, Hq. cbn. lia.
    + cbn [trace].
      change (Info_trying_fallback b1 :: ?t)
        with ([Info_trying_fallback b1] ++ t).
      rewrite !fallback_attempts_app, Hq. cbn. lia.
Qed.

End Counting.

Lemma eligible_at_most_two (E : Env) (original : Backend) :
  (List.length (filter (eligible E original) fallback_order) <= 2)%nat.
Proof.
  unfold eligible, fallback_order, _backend_available.
  destruct original; cbn;
    destruct (_has_pymupdf E), (_has_pdfplumber E), (_has_pypdf2 E); cbn; lia.
Qed.

Lemma nested_call_quiet (depth : nat) (E : Env) (self : Parser) (b : Backend)
    (requested : option (list Z)) :
  conclusive E self b requested = true ->
  fallback_attempts (trace (nested_call depth E requested (with_backend b self)))
  = 0%nat.
Proof.
  intro Hc. destruct depth as [|d]; [reflexivity|].
  cbn [nested_call]. rewrite extract_text_unfold.
  apply conclusive_activation. exact Hc.
Qed.

(** C1 (amended).  One activation of [extract_text] runs the fallback
    loop at most once, and the loop tries the other imported backends in
    the order pymupdf, pdfplumber, pypdf2 until one returns a successful
    result.  Hence, when no alternate's own first attempt scores below the
    threshold, a call makes at most two alternate attempts, and at most
    one when the first alternate's extraction succeeds. *)
Theorem fallback_attempts_bounded (depth : nat) (E : Env)
    (selection : option (list Z)) (self : Parser) :
  (forall b requested result,
      outcome (first_attempt E selection self)
      = Return (Extracted result requested) ->
      eligible E (backend self) b = true ->
      conclusive E self b requested = true) ->
  (fallback_attempts (trace (extract_text depth E selection self)) <= 2)%nat
  /\ (forall result requested b1 rest r1 q1,
         outcome (first_attempt E selection self)
         = Return (Extracted result requested) ->
         filter (eligible E (backend self)) fallback_order = b1 :: rest ->
         outcome (first_attempt E requested (with_backend b1 self))
         = Return (Extracted r1 q1) ->
         (fallback_attempts (trace (extract_text depth E selection self))
          <= 1)%nat).
Proof.
  intro Hconc. rewrite extract_text_unfold.
  destruct (body_attempts (nested_call depth E) E selection self)
    as [H0 | (result & requested & Hcp & Ho & Hlow & Heq)].
  - rewrite H0. split; [lia | intros; lia].
  - rewrite Heq.
    assert (Hquiet : forall b,
               eligible E (backend self) b = true ->
               fallback_attempts
                 (trace (nested_call depth E requested (with_backend b self)))
               = 0%nat).
    { intros b Hel. apply nested_call_quiet. eapply Hconc; eassumption. }
    split.
    + etransitivity; [|apply (eligible_at_most_two E (backend self))].
      apply (fallback_loop_attempts _ E (backend self) requested self
               (nested_call_keeps depth E) Hquiet).
      reflexivity.
    + intros result' requested' b1 rest r1 q1 Ho' Hfil Hb1.
      rewrite Ho in Ho'. injection Ho' as <- <-.
      assert (Hel : eligible E (backend self) b1 = true).
      { assert (Hin : In b1 (filter (eligible E (backend self)) fallback_order))
          by (rewrite Hfil; left; reflexivity).
        apply filter_In in Hin. apply Hin. }
      apply (fallback_loop_first _ E (backend self) requested self
               (nested_call_keeps depth E) Hquiet fallback_order rest b1 self
               (fun _ => eq_refl) Hfil).
      destruct depth as [|d]; [exact I|].
      cbn [nested_call]. rewrite extract_text_unfold.
      destruct (conclusive_activation (nested_call d E) E requested
                  (with_backend b1 self) (Hconc b1 requested result Ho Hel))
        as [_ Hret].
      rewrite (Hret r1 q1 Hcp Hb1).
      destruct (first_attempt_run E requested (with_backend b1 self)) as [_ Hrun].
      rewrite Hrun in Hb1. apply extracted_success in Hb1. apply Hb1.
Qed.

Lemma fallback_attempts_bounded_witness :
  (forall b requested result,
      outcome (first_attempt three_backends (Some [2%Z]) parser)
      = Return (Extracted result requested) ->
      eligible three_backends (backend parser) b = true ->
      conclusive three_backends parser b requested = true)
  /\ (fallback_attempts
        (trace (extract_text 3 three_backends (Some [2%Z]) parser)) <= 2)%nat
  /\ (forall b requested result,
         outcome (first_attempt two_backends None parser)
         = Return (Extracted result requested) ->
         eligible two_backends (backend parser) b = true ->
         conclusive two_backends parser b requested = true)
  /\ filter (eligible two_backends (backend parser)) fallback_order
     = [pdfplumber]
  /\ (fallback_attempts (trace (extract_text 3 two_backends None parser))
      <= 1)%nat.
Proof.
  assert (H3 : forall b requested result,
             outcome (first_attempt three_backends (Some [2%Z]) parser)
             = Return (Extracted result requested) ->
             eligible three_backends (backend parser) b = true ->
             conclusive three_backends parser b requested = true).
  { intros b requested result Ho Hel. vm_compute in Ho.
    injection Ho as _ <-. destruct b; vm_compute; [|reflexivity..].
    vm_compute in Hel. discriminate. }
  assert (H2 : forall b requested result,
             outcome (first_attempt two_backends None parser)
             = Return (Extracted result requested) ->
             eligible two_backends (backend parser) b = true ->
             conclusive two_backends parser b requested = true).
  { intros b requested result Ho Hel. vm_compute in Ho.
    injection Ho as _ <-. destruct b; vm_compute; try reflexivity;
      vm_compute in Hel; discriminate. }
  assert (Hf : filter (eligible two_backends (backend parser)) fallback_order
               = [pdfplumber]) by reflexivity.
  split; [exact H3|].
  split; [exact (proj1 (fallback_attempts_bounded 3 three_backends
                          (Some [2%Z]) parser H3))|].
  split; [exact H2|]. split; [exact Hf|].
  destruct (outcome (first_attempt two_backends None parser))
    as [[x|result requested]|e] eqn:Ho; try (vm_compute in Ho; discriminate).
  destruct (outcome (first_attempt two_backends requested
                                   (with_backend pdfplumber parser)))
    as [[x|r1 q1]|e] eqn:Hb;
    try (vm_compute in Ho; injection Ho as _ <-; vm_compute in Hb; discriminate).
  refine (proj2 (fallback_attempts_bounded 3 two_backends None parser _)
                result requested pdfplumber [] r1 q1 _ Hf Hb).
  - intros b requested' result' Ho'. rewrite Ho in Ho'.
    exact (H2 b requested' result' Ho').
  - exact Ho.
Defined.

(** C1, as stated, fails: three libraries installed, page 2 requested.
    PyMuPDF reads page 2 poorly (score 0.55), pdfplumber cannot open the
    file and its extraction fails with 'No valid pages specified', so the
    loop goes on to PyPDF2: two alternate backends are attempted. *)
Lemma two_alternates_attempted :
  let run := extract_text 3 three_backends (Some [2%Z]) parser in
  filter (fun ev => match ev with Info_trying_fallback _ => true | _ => false end)
         (trace run)
  = [Info_trying_fallback pdfplumber; Info_trying_fallback pypdf2]
  /\ fallback_attempts (trace run) = 2%nat
  /\ ~ (fallback_attempts (trace run) <= 1)%nat
  /\ backend_used (returned run) = "pypdf2"%string.
Proof.
  intro run.
  assert (H : fallback_attempts (trace run) = 2%nat) by (vm_compute; reflexivity).
  split; [vm_compute; reflexivity|]. split; [exact H|].
  split; [rewrite H; lia | vm_compute; reflexivity].
Qed.

(** When both installed backends read the file poorly, each nested call
    falls back in turn, until the recursion limit ends the descent: the
    number of alternate attempts grows with the depth available. *)
Example nested_fallback_descends :
  fallback_attempts (trace (extract_text 3 two_poor_backends None parser)) = 4%nat
  /\ fallback_attempts (trace (extract_text 7 two_poor_backends None parser))
     = 8%nat.
Proof. split; vm_compute; reflexivity. Qed.

(** ** Sample runs of the text helpers and the scores *)

Example split_sample :
  split (of_string "  two  words ") = [of_string "two"; of_string "words"].
Proof. reflexivity. Qed.

Example strip_sample : strip (of_string "  a b  ") = of_string "a b".
Proof. reflexivity. Qed.

Example join_sample :
  join [NL; NL] [of_string "a"; of_string "b"] = of_string "a" ++ [NL; NL] ++ of_string "b".
Proof. reflexivity. Qed.

Example short_page_scores_half :
  (_assess_page_quality (mkPageData 1 (of_string "hi") 1 2 false false 1) == 0.5)%Q.
Proof. reflexivity. Qed.

Example unbroken_page_scores_low :
  let t := of_string "aaaaaaaaaaaaaaaaaaaaaaaaaaaaaaaaaaaaaaaaaaaaaaaaaaaaaaaaaaaa" in
  (_assess_page_quality (mkPageData 1 t 1 (len t) false false 1) == 0.7)%Q.
Proof. reflexivity. Qed.

Example select_falls_back_to_auto :
  _select_pdf_backend two_backends "pypdf2"
  = ([Warn_backend_unavailable "pypdf2"], Return pymupdf).
Proof. reflexivity. Qed.

(* ================================================================== *)
(** * Further properties of the parser *)

Local Close Scope Q_scope.

(** ** Backend selection *)

Lemma first_available (E : Env) :
  match filter (_backend_available E) fallback_order with
  | b :: _ =>
      (if _has_pymupdf E then Return pymupdf
       else if _has_pdfplumber E then Return pdfplumber
       else if _has_pypdf2 E then Return pypdf2
       else Raise (ImportError no_backend_message)) = Return b
  | [] =>
      (if _has_pymupdf E then @Return Backend pymupdf
       else if _has_pdfplumber E then Return pdfplumber
       else if _has_pypdf2 E then Return pypdf2
       else Raise (ImportError no_backend_message))
      = Raise (ImportError no_backend_message)
  end.
Proof.
  unfold fallback_order, _backend_available. cbn.
  destruct (_has_pymupdf E), (_has_pdfplumber E), (_has_pypdf2 E); reflexivity.
Qed.

(** X1.  A parser that [__init__] builds has a backend whose library was
    imported, and its settings are the configured ones or the defaults
    4000, 100, 0.7 and 'auto'. *)
Theorem constructed_backend_available (E : Env) (config : Config)
    (self : Parser) :
  snd (__init__ E config) = Return self ->
  _backend_available E (backend self) = true
  /\ max_chunk_size self = get_or (cfg_max_chunk_size config) 4000
  /\ min_chunk_size self = get_or (cfg_min_chunk_size config) 100
  /\ quality_threshold self = get_or (cfg_quality_threshold config) 0.7%Q
  /\ preferred_backend self = get_or (cfg_backend config) "auto"%string.
Proof.
  unfold __init__.
  destruct (parse_extraction_mode _); [|discriminate].
  destruct (parse_chunk_strategy _); [|discriminate].
  destruct (_select_pdf_backend E _) as [evs [b|e]] eqn:Hsel; [|discriminate].
  cbn. intro H; injection H as <-. cbn.
  split; [|repeat split].
  revert Hsel. unfold _select_pdf_backend.
  repeat match goal with
         | |- context [if ?c then _ else _] => destruct c eqn:?
         end;
    intro H; inversion H; subst; cbn;
    try assumption;
    repeat match goal with
           | H : _ && _ = true |- _ => apply andb_true_iff in H; destruct H
           end;
    assumption.
Qed.

Lemma constructed_backend_available_witness :
  snd (__init__ two_backends (mkConfig None None None None None (Some "pdfplumber"%string)))
  = Return (mkParser NORMAL PAGE 4000 100 0.7%Q "pdfplumber" pdfplumber)
  /\ _backend_available two_backends pdfplumber = true.
Proof.
  assert (H : snd (__init__ two_backends
                     (mkConfig None None None None None (Some "pdfplumber"%string)))
              = Return (mkParser NORMAL PAGE 4000 100 0.7%Q "pdfplumber" pdfplumber))
    by reflexivity.
  split; [exact H|].
  exact (proj1 (constructed_backend_available _ _ _ H)).
Defined.

(** X2.  A backend requested by name whose library was imported is the
    one selected, without a warning.  Any other request ('auto', an
    unknown name, a library that is missing) selects the first imported
    library in the order pymupdf, pdfplumber, pypdf2, or raises
    [ImportError] when there is none, and logs a warning unless the
    request was 'auto'. *)
Theorem requested_backend_or_first_available (E : Env) (preferred : string) :
  (forall b, preferred = backend_name b -> _backend_available E b = true ->
             _select_pdf_backend E preferred = ([], Return b))
  /\ ((forall b, preferred = backend_name b -> _backend_available E b = false) ->
      _select_pdf_backend E preferred
      = (if String.eqb preferred "auto" then []
         else [Warn_backend_unavailable preferred],
         match filter (_backend_available E) fallback_order with
         | b :: _ => Return b
         | [] => Raise (ImportError no_backend_message)
         end)).
Proof.
  split.
  - intros b -> Hav. unfold _select_pdf_backend.
    destruct b; cbn in *; rewrite Hav; try reflexivity;
      destruct (_has_pymupdf E); try reflexivity;
      destruct (_has_pdfplumber E); reflexivity.
  - intro Hno. unfold _select_pdf_backend.
    pose proof (first_available E) as Hfirst.
    assert (H1 : String.eqb preferred "pymupdf" && _has_pymupdf E = false).
    { destruct (String.eqb_spec preferred "pymupdf") as [->|]; [|reflexivity].
      apply (Hno pymupdf eq_refl). }
    assert (H2 : String.eqb preferred "pdfplumber" && _has_pdfplumber E = false).
    { destruct (String.eqb_spec preferred "pdfplumber") as [->|]; [|reflexivity].
      apply (Hno pdfplumber eq_refl). }
    assert (H3 : String.eqb preferred "pypdf2" && _has_pypdf2 E = false).
    { destruct (String.eqb_spec preferred "pypdf2") as [->|]; [|reflexivity].
      apply (Hno pypdf2 eq_refl). }
    rewrite H1, H2, H3.
    destruct (filter (_backend_available E) fallback_order) as [|b l];
      rewrite Hfirst; destruct (String.eqb preferred "auto"); reflexivity.
Qed.

Lemma requested_backend_or_first_available_witness :
  _backend_available two_backends pdfplumber = true
  /\ _select_pdf_backend two_backends "pdfplumber" = ([], Return pdfplumber)
  /\ (forall b, "pypdf2"%string = backend_name b ->
                _backend_available two_backends b = false)
  /\ _select_pdf_backend two_backends "pypdf2"
     = ([Warn_backend_unavailable "pypdf2"], Return pymupdf).
Proof.
  assert (H1 : _backend_available two_backends pdfplumber = true) by reflexivity.
  assert (H2 : forall b, "pypdf2"%string = backend_name b ->
                         _backend_available two_backends b = false).
  { intros b Hb. destruct b; try discriminate. reflexivity. }
  split; [exact H1|].
  split; [exact (proj1 (requested_backend_or_first_available two_backends
                          "pdfplumber") pdfplumber eq_refl H1)|].
  split; [exact H2|].
  exact (proj2 (requested_backend_or_first_available two_backends "pypdf2") H2).
Defined.

(** ** Results of [extract_text] *)

Lemma collect_pages_sorted (b : Backend) (target_pages : option (list Z))
    (vs : list PageView) (i : Z) :
  StronglySorted Z.lt
    (map page_number (fst (collect_pages b target_pages i vs))).
Proof.
  revert i; induction vs as [|v vs IH]; intro i; simpl.
  - constructor.
  - destruct (skipped target_pages (i + 1)); [apply IH|].
    destruct (read_page b (i + 1) v) as [q|e] eqn:Hq; [|constructor].
    specialize (IH (i + 1)).
    pose proof (collect_pages_facts b target_pages vs (i + 1)) as Hfacts.
    destruct (collect_pages b target_pages (i + 1) vs) as [rest err].
    simpl in *. constructor; [assumption|].
    destruct (read_page_ok _ _ _ _ Hq) as [-> _].
    apply Forall_forall. intros n Hn. apply in_map_iff in Hn.
    destruct Hn as (p & <- & Hp). apply Hfacts in Hp. lia.
Qed.

(** X3.  The page records of every result [extract_text] returns are in
    strictly ascending order of [page_number]; no page occurs twice, even
    when the requested list repeats a number. *)
Theorem pages_strictly_ascending (depth : nat) (E : Env)
    (selection : option (list Z)) (self : Parser) (r : ExtractionResult) :
  outcome (extract_text depth E selection self) = Return r ->
  StronglySorted Z.lt (map page_number (pages r)).
Proof.
  intro Hr. destruct (success r) eqn:Hs.
  - destruct (extract_text_success _ _ _ _ _ Hr Hs) as (b & p & q & _ & Ha).
    pose proof (attempt_of_cases E b p) as Hc. rewrite Ha in Hc.
    destruct Hc as (m & _ & _ & ->). cbn. unfold pages_of.
    destruct (dv_open_raises (view E b)); [constructor|].
    apply collect_pages_sorted.
  - destruct (extract_text_failed _ _ _ _ _ Hr Hs) as (_ & -> & _).
    constructor.
Qed.

Lemma pages_strictly_ascending_witness :
  let r := returned (extract_text 1 five_pages (Some [4; 2; 4; 9999; 2]) parser) in
  outcome (extract_text 1 five_pages (Some [4; 2; 4; 9999; 2]) parser) = Return r
  /\ map page_number (pages r) = [2; 4]
  /\ StronglySorted Z.lt (map page_number (pages r)).
Proof.
  intro r.
  assert (H : outcome (extract_text 1 five_pages (Some [4; 2; 4; 9999; 2]) parser)
              = Return r) by (vm_compute; reflexivity).
  split; [exact H|]. split; [vm_compute; reflexivity|].
  exact (pages_strictly_ascending 1 five_pages _ parser r H).
Defined.

(** X4.  [backend_used] of every result [extract_text] returns names a
    backend: the parser's own, or for a successful result possibly another
    one.  The placeholder result 'fallback_failed' that
    [_try_fallback_extraction] builds never reaches the caller. *)
Theorem backend_used_is_a_backend (depth : nat) (E : Env)
    (selection : option (list Z)) (self : Parser) (r : ExtractionResult) :
  outcome (extract_text depth E selection self) = Return r ->
  (exists b, backend_used r = backend_name b
             /\ (success r = false -> b = backend self))
  /\ backend_used r <> "fallback_failed"%string.
Proof.
  intro Hr.
  assert (H : exists b, backend_used r = backend_name b
                        /\ (success r = false -> b = backend self)).
  { destruct (success r) eqn:Hs.
    - destruct (extract_text_success _ _ _ _ _ Hr Hs) as (b & p & q & _ & Ha).
      pose proof (attempt_of_cases E b p) as Hc. rewrite Ha in Hc.
      destruct Hc as (m & _ & _ & ->). exists b. split; [reflexivity|discriminate].
    - apply extract_text_cases in Hr.
      destruct Hr as [Hcp ->|m Hcp Hm Hv ->|e Hcp He ->|requested Hcp Ha
                     |result requested b Hcp Ha Hb Hs' Hq
                     |result requested b e Hcp Ha Hb ->];
        try (exists (backend self); split; reflexivity).
      + apply extracted_success in Ha. destruct Ha as [Ha _]. congruence.
      + congruence. }
  split; [exact H|].
  destruct H as (b & -> & _). destruct b; discriminate.
Qed.

Lemma backend_used_is_a_backend_witness :
  let r := returned (extract_text 3 three_backends (Some [2]) parser) in
  outcome (extract_text 3 three_backends (Some [2]) parser) = Return r
  /\ backend_used r = "pypdf2"%string
  /\ backend_used r <> "fallback_failed"%string.
Proof.
  intro r.
  assert (H : outcome (extract_text 3 three_backends (Some [2]) parser) = Return r)
    by (vm_compute; reflexivity).
  split; [exact H|]. split; [vm_compute; reflexivity|].
  exact (proj2 (backend_used_is_a_backend 3 three_backends _ parser r H)).
Defined.

(** X5.  When the first attempt scores at least the parser's threshold,
    [extract_text] tries no other backend and returns the result of that
    attempt. *)
Theorem good_first_attempt_is_returned (depth : nat) (E : Env)
    (selection requested : option (list Z)) (self : Parser)
    (result : ExtractionResult) :
  can_parse E = Return true ->
  outcome (first_attempt E selection self) = Return (Extracted result requested) ->
  (quality_threshold self <= quality_score result)%Q ->
  outcome (extract_text depth E selection self) = Return result
  /\ fallback_attempts (trace (extract_text depth E selection self)) = 0%nat.
Proof.
  intros Hcp Ho Hq.
  assert (Hc : conclusive E self (backend self) selection = true).
  { unfold conclusive. rewrite with_backend_same, Ho.
    apply negb_true_iff. apply Qltb_ge. assumption. }
  rewrite extract_text_unfold.
  destruct (conclusive_activation (nested_call depth E) E selection self Hc)
    as [H0 Hret].
  split; [eapply Hret; eassumption | exact H0].
Qed.

Lemma good_first_attempt_is_returned_witness :
  let result := returned (extract_text 0 five_pages None parser) in
  can_parse five_pages = Return true
  /\ outcome (first_attempt five_pages None parser)
     = Return (Extracted result None)
  /\ (quality_threshold parser <= quality_score result)%Q
  /\ outcome (extract_text 2 five_pages None parser) = Return result.
Proof.
  intro result.
  assert (H1 : can_parse five_pages = Return true) by reflexivity.
  assert (H2 : outcome (first_attempt five_pages None parser)
               = Return (Extracted result None)) by (vm_compute; reflexivity).
  assert (H3 : (quality_threshold parser <= quality_score result)%Q)
    by (vm_compute; discriminate).
  split; [exact H1|]. split; [exact H2|]. split; [exact H3|].
  exact (proj1 (good_first_attempt_is_returned 2 five_pages None None parser
                  result H1 H2 H3)).
Defined.

(** X6.  With no other library imported than the parser's own, a low score
    is accepted: [extract_text] tries no other backend and returns the
    result of its first attempt, whatever its score. *)
Theorem single_backend_never_falls_back (depth : nat) (E : Env)
    (selection : option (list Z)) (self : Parser) :
  has_other_backend E (backend self) = false ->
  fallback_attempts (trace (extract_text depth E selection self)) = 0%nat
  /\ forall result requested,
       can_parse E = Return true ->
       outcome (first_attempt E selection self)
       = Return (Extracted result requested) ->
       outcome (extract_text depth E selection self) = Return result.
Proof.
  intro Hno. rewrite extract_text_unfold, extract_text_body_unfold.
  destruct (can_parse E) as [[|]|e0];
    [|split; [reflexivity | discriminate]|split; [reflexivity | discriminate]].
  cbv zeta. rewrite extract_text_try_unfold. cbv zeta.
  pose proof (first_attempt_quiet E selection self) as Hq.
  destruct (first_attempt_run E selection self) as [Hf _]. rewrite Hf.
  destruct (outcome (first_attempt E selection self))
    as [[r|result requested]|e]; cbn [outcome trace final].
  - split; [|discriminate].
    rewrite fallback_attempts_app, Hq. reflexivity.
  - rewrite retry_if_low_unfold, Hno, andb_false_r. cbn [outcome trace final].
    split.
    + rewrite fallback_attempts_app, Hq. reflexivity.
    + intros result' requested' _ H. injection H as <- _. reflexivity.
  - split; [|discriminate].
    rewrite fallback_attempts_app, Hq. reflexivity.
Qed.

Lemma single_backend_never_falls_back_witness :
  let r := returned (extract_text 2 unreadable None parser) in
  has_other_backend unreadable (backend parser) = false
  /\ fallback_attempts (trace (extract_text 2 unreadable None parser)) = 0%nat
  /\ can_parse unreadable = Return true
  /\ outcome (first_attempt unreadable None parser) = Return (Extracted r None)
  /\ (quality_score r == 0)%Q
  /\ outcome (extract_text 2 unreadable None parser) = Return r.
Proof.
  intro r.
  assert (H0 : has_other_backend unreadable (backend parser) = false)
    by reflexivity.
  assert (H1 : can_parse unreadable = Return true) by reflexivity.
  assert (H2 : outcome (first_attempt unreadable None parser)
               = Return (Extracted r None)) by (vm_compute; reflexivity).
  destruct (single_backend_never_falls_back 2 unreadable None parser H0)
    as [Hq Hret].
  split; [exact H0|]. split; [exact Hq|]. split; [exact H1|].
  split; [exact H2|]. split; [vm_compute; reflexivity|].
  exact (Hret r None H1 H2).
Defined.

(** ** Page count *)

(** X7.  [get_page_count] never raises and leaves the parser alone.  It
    returns 0 or the number of pages of the document: 0 when [stat()]
    raises or the library cannot open the file, and the value
    [extract_text] stores in [metadata.page_count] whenever its first
    attempt comes to a result. *)
Theorem get_page_count_total (E : Env) (self : Parser) :
  final (get_page_count E self) = self
  /\ exists n,
       outcome (get_page_count E self) = Return n
       /\ (n = 0 \/ n = n_pages (view E (backend self)))
       /\ ((exists e, st_size (file_path E) = Raise e)
           \/ dv_open_raises (view E (backend self)) <> None -> n = 0)
       /\ (forall selection result requested,
              outcome (first_attempt E selection self)
              = Return (Extracted result requested) ->
              page_count (metadata result) = n).
Proof.
  unfold get_page_count, try_except.
  destruct (extract_metadata_run E self) as [Hf Ho].
  destruct (metadata_of E (backend self)) as [m|e] eqn:Hm.
  - cbv zeta. rewrite (bind_return_run _ _ _ _ Ho), Hf.
    cbn. split; [reflexivity|]. exists (page_count m).
    split; [reflexivity|].
    split; [eapply metadata_page_count; eassumption|].
    split.
    + intros [[e He]|Hopen].
      * unfold metadata_of in Hm. rewrite He in Hm. discriminate.
      * unfold metadata_of in Hm.
        destruct (st_size (file_path E)); [|discriminate].
        injection Hm as <-. unfold read_metadata.
        destruct (dv_open_raises (view E (backend self))); [reflexivity|].
        congruence.
    + intros selection result requested Ha.
      destruct (first_attempt_run E selection self) as [_ Hrun].
      rewrite Hrun in Ha.
      pose proof (attempt_of_cases E (backend self) selection) as Hc.
      rewrite Ha in Hc. destruct Hc as (m' & Hm' & _ & ->). cbn. congruence.
  - cbv zeta. rewrite (bind_raise_run _ _ _ _ Ho), Hf.
    cbn. split; [reflexivity|]. exists 0.
    split; [reflexivity|]. split; [left; reflexivity|].
    split; [reflexivity|].
    intros selection result requested Ha.
    destruct (first_attempt_run E selection self) as [_ Hrun].
    rewrite Hrun in Ha.
    pose proof (attempt_of_cases E (backend self) selection) as Hc.
    rewrite Ha in Hc. destruct Hc as (m' & Hm' & _). congruence.
Qed.

Lemma get_page_count_total_witness :
  (exists e, st_size (file_path vanished) = Raise e)
  /\ outcome (get_page_count vanished parser) = Return 0
  /\ outcome (get_page_count five_pages parser) = Return 5
  /\ page_count (metadata (returned (extract_text 1 five_pages None parser))) = 5.
Proof.
  assert (H1 : exists e, st_size (file_path vanished) = Raise e)
    by (eexists; reflexivity).
  destruct (get_page_count_total vanished parser) as (_ & n & Hn & _ & Hz & _).
  destruct (get_page_count_total five_pages parser) as (_ & k & Hk & _ & _ & Hsame).
  assert (Ha : outcome (first_attempt five_pages None parser)
               = Return (Extracted (returned (extract_text 1 five_pages None parser))
                                   None)) by (vm_compute; reflexivity).
  pose proof (Hsame None _ None Ha) as H5.
  pose proof (Hz (or_introl H1)) as H0. rewrite H0 in Hn.
  assert (Hk5 : k = 5) by (vm_compute in Hk; congruence).
  rewrite Hk5 in Hk, H5.
  split; [exact H1|]. split; [exact Hn|]. split; [exact Hk | exact H5].
Defined.

(** ** The table heuristic *)

Lemma split_on_from_length (sep : N) (s cur : str) :
  List.length (split_on_from sep cur s)
  = S (List.length (filter (fun x => (x =? sep)%N) s)).
Proof.
  revert cur; induction s as [|c s IH]; intro cur; simpl; [reflexivity|].
  destruct (c =? sep)%N; simpl; rewrite IH; reflexivity.
Qed.

Lemma starts_with_app (sub a b : str) :
  starts_with sub a = true -> starts_with sub (a ++ b) = true.
Proof.
  revert a; induction sub as [|x sub IH]; intros a H; [reflexivity|].
  destruct a as [|y a]; [discriminate|]. simpl in *.
  apply andb_true_iff in H. destruct H as [-> H]. simpl. apply IH, H.
Qed.

Lemma contains_app_l (sub a b : str) :
  contains sub a = true -> contains sub (a ++ b) = true.
Proof.
  induction a as [|y a IH]; intro H.
  - simpl in H. rewrite orb_false_r in H.
    destruct sub; [|discriminate]. destruct b; reflexivity.
  - simpl in H. apply orb_true_iff in H. destruct H as [H|H].
    + change ((y :: a) ++ b) with (y :: a ++ b).
      assert (Hs : starts_with sub ((y :: a) ++ b) = true)
        by (apply starts_with_app; assumption).
      simpl in Hs |- *. rewrite Hs. reflexivity.
    + cbn [app contains]. rewrite (IH H). apply orb_true_r.
Qed.

Lemma contains_app_r (sub a b : str) :
  contains sub b = true -> contains sub (a ++ b) = true.
Proof.
  intro H. induction a as [|y a IH]; [assumption|].
  cbn [app contains]. rewrite IH. apply orb_true_r.
Qed.

Lemma split_on_from_infix (sep : N) (s cur line : str) :
  In line (split_on_from sep cur s) ->
  exists pre post, rev cur ++ s = pre ++ line ++ post.
Proof.
  revert cur; induction s as [|c s IH]; intros cur Hin; simpl in Hin.
  - destruct Hin as [<-|[]]. exists [], []. rewrite !app_nil_r. reflexivity.
  - destruct (c =? sep)%N.
    + destruct Hin as [<-|Hin].
      * exists [], (c :: s). reflexivity.
      * destruct (IH [] Hin) as (pre & post & Heq). simpl in Heq.
        exists (rev cur ++ c :: pre), post. rewrite Heq.
        rewrite <- app_assoc. reflexivity.
    + destruct (IH (c :: cur) Hin) as (pre & post & Heq).
      exists pre, post. rewrite <- Heq. simpl. rewrite <- app_assoc. reflexivity.
Qed.

(** X8.  [_detect_tables_in_text] reports a table only for a text of at
    least three lines (two newline characters) that contains two
    consecutive spaces; empty text is never reported. *)
Theorem tables_need_three_lines (t : str) :
  _detect_tables_in_text t = true ->
  t <> [] /\ 2 <= count NL t /\ contains double_space t = true.
Proof.
  unfold _detect_tables_in_text.
  destruct t as [|c t']; [discriminate|]. cbn [truthy negb]. cbv zeta.
  set (t := c :: t').
  set (good := fun line => (3 <=? List.length (split line))%nat
                           && contains double_space line).
  intro H. apply Nat.leb_le in H.
  split; [discriminate|]. split.
  - pose proof (filter_length_le good (split_on NL t)) as Hle.
    unfold split_on in Hle. rewrite split_on_from_length in Hle.
    unfold count. fold good in H. unfold split_on in H. lia.
  - destruct (filter good (split_on NL t)) as [|line rest] eqn:Hf;
      [simpl in H; lia|].
    assert (Hin : In line (filter good (split_on NL t)))
      by (rewrite Hf; left; reflexivity).
    apply filter_In in Hin. destruct Hin as [Hin Hgood].
    unfold good in Hgood. apply andb_true_iff in Hgood.
    destruct Hgood as [_ Hds].
    apply split_on_from_infix in Hin. destruct Hin as (pre & post & Heq).
    simpl in Heq. rewrite Heq.
    apply contains_app_r, contains_app_l. assumption.
Qed.

Lemma tables_need_three_lines_witness :
  let t := of_string "a  b  c" ++ [NL] ++ of_string "d  e  f" ++ [NL]
           ++ of_string "g  h  i" in
  _detect_tables_in_text t = true
  /\ t <> [] /\ 2 <= count NL t /\ contains double_space t = true.
Proof.
  intro t.
  assert (H : _detect_tables_in_text t = true) by reflexivity.
  split; [exact H | exact (tables_need_three_lines t H)].
Defined.

Lemma collect_pages_read (b : Backend) (target_pages : option (list Z))
    (vs : list PageView) (i : Z) (p : PageData) :
  In p (fst (collect_pages b target_pages i vs)) ->
  exists n v, read_page b n v = Return p.
Proof.
  revert i; induction vs as [|v vs IH]; intros i Hin; simpl in Hin.
  - contradiction.
  - destruct (skipped target_pages (i + 1)); [eapply IH; eassumption|].
    destruct (read_page b (i + 1) v) as [q|e] eqn:Hq; [|contradiction].
    specialize (IH (i + 1)).
    destruct (collect_pages b target_pages (i + 1) vs) as [rest err].
    simpl in Hin. destruct Hin as [<-|Hin]; [eauto | apply IH, Hin].
Qed.

(** X9.  In a result that PyMuPDF or PyPDF2 produced, a page's
    [has_tables] flag is the table heuristic applied to that page's text;
    in a result that PyPDF2 produced, [has_images] is false on every
    page. *)
Theorem page_flags_by_backend (depth : nat) (E : Env)
    (selection : option (list Z)) (self : Parser) (r : ExtractionResult)
    (p : PageData) :
  outcome (extract_text depth E selection self) = Return r ->
  In p (pages r) ->
  (backend_used r <> "pdfplumber"%string ->
   has_tables p = _detect_tables_in_text (text p))
  /\ (backend_used r = "pypdf2"%string -> has_images p = false).
Proof.
  intros Hr Hin.
  destruct (success r) eqn:Hs.
  2:{ destruct (extract_text_failed _ _ _ _ _ Hr Hs) as (_ & Hp & _).
      rewrite Hp in Hin. contradiction. }
  destruct (extract_text_success _ _ _ _ _ Hr Hs) as (b & q & q' & _ & Ha).
  pose proof (attempt_of_cases E b q) as Hc. rewrite Ha in Hc.
  destruct Hc as (m & _ & _ & ->). cbn in *.
  unfold pages_of in Hin. destruct (dv_open_raises (view E b)); [contradiction|].
  apply collect_pages_read in Hin. destruct Hin as (n & v & Hread).
  unfold read_page in Hread. destruct (pv_raises v); [discriminate|].
  split.
  - intro Hb. destruct b; try (elim Hb; reflexivity);
      destruct (pv_text v); try discriminate;
      injection Hread as <-; reflexivity.
  - intro Hb. destruct b; try discriminate.
    destruct (pv_text v); try discriminate.
    injection Hread as <-. reflexivity.
Qed.

Lemma page_flags_by_backend_witness :
  let r := returned (extract_text 3 three_backends (Some [2]) parser) in
  let p := nth 0 (pages r) (mkPageData 0 [] 0 0 true true 1) in
  outcome (extract_text 3 three_backends (Some [2]) parser) = Return r
  /\ In p (pages r)
  /\ backend_used r = "pypdf2"%string
  /\ has_images p = false
  /\ has_tables p = _detect_tables_in_text (text p).
Proof.
  intros r p.
  assert (H1 : outcome (extract_text 3 three_backends (Some [2]) parser) = Return r)
    by (vm_compute; reflexivity).
  assert (H2 : In p (pages r)) by (vm_compute; tauto).
  assert (H3 : backend_used r = "pypdf2"%string) by (vm_compute; reflexivity).
  assert (H4 : backend_used r <> "pdfplumber"%string)
    by (rewrite H3; discriminate).
  destruct (page_flags_by_backend 3 three_backends _ parser r p H1 H2)
    as [Ht Hi].
  split; [exact H1|]. split; [exact H2|]. split; [exact H3|].
  split; [exact (Hi H3) | exact (Ht H4)].
Defined.

(* ================================================================== *)
(** * Chunking *)

(** ** Whitespace at the ends of a string *)

Lemma split_from_boundary (c : N) (x y cur : str) :
  isspace c = true ->
  split_from cur (x ++ c :: y) = split_from cur x ++ split_from [] y.
Proof.
  intro Hc. revert cur; induction x as [|d x IH]; intro cur; simpl.
  - rewrite Hc. destruct cur; reflexivity.
  - destruct (isspace d).
    + destruct cur; rewrite IH; reflexivity.
    + apply IH.
Qed.

Lemma split_blank (p : str) : has_visible p = false -> split_from [] p = [].
Proof.
  induction p as [|c p IH]; simpl; intro H; [reflexivity|].
  destruct (isspace c); simpl in H; [auto | discriminate].
Qed.

Lemma split_blank_prefix (p x : str) :
  has_visible p = false -> split_from [] (p ++ x) = split_from [] x.
Proof.
  induction p as [|c p IH]; simpl; intro H; [reflexivity|].
  destruct (isspace c); simpl in H; [auto | discriminate].
Qed.

Lemma split_blank_suffix (q x cur : str) :
  has_visible q = false -> split_from cur (x ++ q) = split_from cur x.
Proof.
  destruct q as [|c q]; intro H; [rewrite app_nil_r; reflexivity|].
  simpl in H. destruct (isspace c) eqn:Hc; simpl in H; [|discriminate].
  rewrite (split_from_boundary c x q cur Hc), (split_blank q H).
  apply app_nil_r.
Qed.

Lemma lstrip_parts (s : str) :
  exists p, s = p ++ lstrip s /\ has_visible p = false.
Proof.
  induction s as [|c s (p & Hs & Hp)]; [exists []; split; reflexivity|].
  simpl. destruct (isspace c) eqn:Hc.
  - exists (c :: p). split; [simpl; congruence|]. simpl. rewrite Hc. exact Hp.
  - exists []. split; reflexivity.
Qed.

Lemma lstrip_head (s : str) :
  match lstrip s with [] => True | c :: _ => isspace c = false end.
Proof.
  induction s as [|c s IH]; simpl; [exact I|].
  destruct (isspace c) eqn:Hc; [exact IH | exact Hc].
Qed.

Lemma lstrip_fixed (s : str) :
  match s with [] => True | c :: _ => isspace c = false end -> lstrip s = s.
Proof. destruct s as [|c s]; simpl; [reflexivity | intros ->; reflexivity]. Qed.

(** A string is its stripped part between two runs of whitespace. *)
Lemma strip_parts (s : str) :
  exists p q, s = p ++ strip s ++ q
              /\ has_visible p = false /\ has_visible q = false.
Proof.
  unfold strip.
  destruct (lstrip_parts s) as (p & Hs & Hp).
  destruct (lstrip_parts (rev (lstrip s))) as (q & Hr & Hq).
  exists p, (rev q). split; [|split; [assumption|]].
  - rewrite <- rev_app_distr, <- Hr, rev_involutive. exact Hs.
  - rewrite has_visible_rev. exact Hq.
Qed.

Lemma strip_trimmed (s : str) : trimmed (strip s).
Proof.
  unfold trimmed, strip. split.
  - destruct (lstrip_parts (rev (lstrip s))) as (q & Hr & Hq).
    pose proof (lstrip_head s) as Hh.
    assert (Ha : lstrip s = rev (lstrip (rev (lstrip s))) ++ rev q).
    { rewrite <- rev_app_distr, <- Hr, rev_involutive. reflexivity. }
    destruct (rev (lstrip (rev (lstrip s)))) as [|c l]; [exact I|].
    rewrite Ha in Hh. exact Hh.
  - rewrite rev_involutive. apply lstrip_head.
Qed.

Lemma trimmed_strip (s : str) : trimmed s -> strip s = s.
Proof.
  intros [Hh Hl]. unfold strip.
  rewrite (lstrip_fixed s Hh), (lstrip_fixed (rev s) Hl). apply rev_involutive.
Qed.

Lemma split_strip (s : str) : split (strip s) = split s.
Proof.
  destruct (strip_parts s) as (p & q & Hs & Hp & Hq).
  unfold split. rewrite Hs at 2.
  rewrite (split_blank_prefix p _ Hp), (split_blank_suffix q _ [] Hq).
  reflexivity.
Qed.

Lemma strip_length (s : str) : (List.length (strip s) <= List.length s)%nat.
Proof.
  destruct (strip_parts s) as (p & q & Hs & _). rewrite Hs at 2.
  rewrite !length_app. lia.
Qed.

(** Stripping a string that ends with a space removes that space. *)
Lemma strip_trailing_space (y : str) :
  (List.length (strip (y ++ [SP])) <= List.length y)%nat.
Proof.
  destruct (strip_parts (y ++ [SP])) as (p & q & Hs & _ & _).
  destruct (strip_trimmed (y ++ [SP])) as [_ Hl].
  assert (Hr : rev (y ++ [SP]) = rev q ++ rev (strip (y ++ [SP])) ++ rev p).
  { rewrite Hs at 1. rewrite !rev_app_distr, app_assoc. reflexivity. }
  rewrite rev_app_distr in Hr. simpl in Hr.
  assert (Hlen : List.length (y ++ [SP])
                 = (List.length p + List.length (strip (y ++ [SP]))
                    + List.length q)%nat).
  { rewrite Hs at 1. rewrite !length_app. lia. }
  rewrite length_app in Hlen. simpl in Hlen.
  destruct q as [|c q]; [|simpl in Hlen; lia].
  simpl in Hr.
  destruct (rev (strip (y ++ [SP]))) as [|c l] eqn:Hrev.
  - apply (f_equal (@List.length N)) in Hrev. rewrite length_rev in Hrev.
    simpl in Hrev. lia.
  - simpl in Hr. injection Hr as <- _. discriminate.
Qed.

(** ** [replace] and [split] *)

Lemma replace_dot_space_words (fuel : nat) :
  forall s cur,
    (List.length s <= fuel)%nat ->
    split_from cur (replace_from fuel [46%N; SP] [46%N; NL] s) = split_from cur s.
Proof.
  induction fuel as [|fuel IH]; intros s cur Hlen; [reflexivity|].
  destruct s as [|c s]; [reflexivity|]. simpl in Hlen.
  cbn [replace_from].
  destruct (starts_with [46%N; SP] (c :: s)) eqn:Hst.
  - cbn [starts_with] in Hst. apply andb_true_iff in Hst.
    destruct Hst as [Hc Hst]. apply N.eqb_eq in Hc. subst c.
    destruct s as [|d s]; [discriminate|].
    cbn [starts_with] in Hst.
    rewrite andb_true_r in Hst. apply N.eqb_eq in Hst. subst d.
    cbn [List.length skipn app]. simpl in Hlen.
    change (split_from cur (46%N :: NL :: replace_from fuel [46%N; SP] [46%N; NL] s)
            = split_from cur (46%N :: SP :: s)).
    cbn. rewrite IH by lia. reflexivity.
  - simpl. destruct (isspace c); [destruct cur|]; rewrite IH by lia; reflexivity.
Qed.

Lemma replace_words (t : str) :
  split (replace (of_string ". ") [46%N; NL] t) = split t.
Proof.
  unfold split, replace. cbn [of_string].
  change (N_of_ascii ".") with 46%N. change (N_of_ascii " ") with SP.
  apply replace_dot_space_words. lia.
Qed.

Lemma split_on_from_join (sep : N) (s cur : str) :
  join [sep] (split_on_from sep cur s) = rev cur ++ s.
Proof.
  revert cur; induction s as [|c s IH]; intro cur; cbn [split_on_from].
  - cbn. rewrite app_nil_r. reflexivity.
  - destruct (c =? sep)%N eqn:Hc.
    + apply N.eqb_eq in Hc. subst c. specialize (IH []).
      pose proof (split_on_from_length sep s []) as Hl.
      destruct (split_on_from sep [] s) as [|x l]; [discriminate|].
      change (join [sep] (rev cur :: x :: l))
        with (rev cur ++ [sep] ++ join [sep] (x :: l)).
      rewrite IH. reflexivity.
    + rewrite IH. cbn [rev]. rewrite <- app_assoc. reflexivity.
Qed.

Lemma split_join_lines (l : list str) :
  split (join [NL] l) = List.concat (map split l).
Proof.
  induction l as [|x l IH]; [reflexivity|].
  destruct l as [|y l].
  - simpl. rewrite app_nil_r. reflexivity.
  - change (join [NL] (x :: y :: l)) with (x ++ NL :: join [NL] (y :: l)).
    unfold split in *. rewrite split_from_boundary by reflexivity.
    rewrite IH. reflexivity.
Qed.

Lemma sentences_words (t : str) :
  List.concat (map split (sentences_of t)) = split t.
Proof.
  unfold sentences_of. rewrite <- split_join_lines.
  unfold split_on. rewrite split_on_from_join. simpl.
  apply replace_words.
Qed.

(** ** [_split_fixed_size] *)

Lemma flushed_chunk (current : str) (c : str) :
  In c (if truthy (strip current) then [strip current] else []) ->
  c = strip current /\ c <> [].
Proof.
  destruct (strip current) as [|x l] eqn:Hs; simpl; [contradiction|].
  intros [<-|[]]. split; [reflexivity | discriminate].
Qed.

Lemma flushed_words (current : str) :
  List.concat (map split (if truthy (strip current) then [strip current] else []))
  = split current.
Proof.
  rewrite <- (split_strip current).
  destruct (strip current); [reflexivity|]. simpl. apply app_nil_r.
Qed.

Lemma fixed_size_loop_chunks (max_size : Z) (sentences : list str)
    (current c : str) :
  In c (fixed_size_loop max_size sentences current) ->
  c <> [] /\ strip c = c.
Proof.
  revert current; induction sentences as [|s rest IH]; intros current Hin;
    simpl in Hin.
  - apply flushed_chunk in Hin. destruct Hin as [-> Hne].
    split; [assumption | apply trimmed_strip, strip_trimmed].
  - destruct (len current + len s <=? max_size).
    + eapply IH; eassumption.
    + apply in_app_or in Hin. destruct Hin as [Hin|Hin].
      * apply flushed_chunk in Hin. destruct Hin as [-> Hne].
        split; [assumption | apply trimmed_strip, strip_trimmed].
      * eapply IH; eassumption.
Qed.

(** X10.  Every chunk [_split_fixed_size] returns is non-empty and has no
    whitespace at either end. *)
Theorem fixed_chunks_are_stripped (self : Parser) (t c : str) :
  In c (_split_fixed_size self t) ->
  c <> [] /\ strip c = c /\ has_visible c = true.
Proof.
  intro Hin. apply fixed_size_loop_chunks in Hin. destruct Hin as [Hne Hs].
  split; [assumption|]. split; [assumption|].
  apply strip_truthy_visible. rewrite Hs. destruct c; [congruence|reflexivity].
Qed.

Lemma fixed_chunks_are_stripped_witness :
  let self := mkParser NORMAL FIXED_SIZE 6 100 0.7%Q "auto" pymupdf in
  let t := of_string "  One. Two.   Three.  " in
  In (of_string "One.") (_split_fixed_size self t)
  /\ _split_fixed_size self t
     = [of_string "One."; of_string "Two."; of_string "Three."]
  /\ strip (of_string "One.") = of_string "One.".
Proof.
  intros self t.
  assert (H : In (of_string "One.") (_split_fixed_size self t))
    by (vm_compute; tauto).
  split; [exact H|]. split; [vm_compute; reflexivity|].
  exact (proj1 (proj2 (fixed_chunks_are_stripped self t _ H))).
Defined.

Lemma fixed_size_loop_bound (max_size : Z) (sentences : list str)
    (current c : str) :
  (forall s, In s sentences -> len s <= max_size) ->
  (current = [] \/ exists y, current = y ++ [SP] /\ len y <= max_size) ->
  In c (fixed_size_loop max_size sentences current) ->
  len c <= max_size.
Proof.
  revert current; induction sentences as [|s rest IH];
    intros current Hall Hcur Hin; simpl in Hin.
  - apply flushed_chunk in Hin. destruct Hin as [-> Hne].
    destruct Hcur as [->|(y & -> & Hy)]; [elim Hne; reflexivity|].
    pose proof (strip_trailing_space y). unfold len in *. lia.
  - assert (Hs : len s <= max_size) by (apply Hall; left; reflexivity).
    assert (Hrest : forall s', In s' rest -> len s' <= max_size)
      by (intros s' Hs'; apply Hall; right; assumption).
    destruct (len current + len s <=? max_size) eqn:Hfit.
    + apply Z.leb_le in Hfit.
      apply (IH (current ++ s ++ [SP]) Hrest); [|assumption].
      right. exists (current ++ s). rewrite <- app_assoc.
      split; [reflexivity|]. unfold len in *. rewrite length_app. lia.
    + apply in_app_or in Hin. destruct Hin as [Hin|Hin].
      * apply flushed_chunk in Hin. destruct Hin as [-> Hne].
        destruct Hcur as [->|(y & -> & Hy)]; [elim Hne; reflexivity|].
        pose proof (strip_trailing_space y). unfold len in *. lia.
      * apply (IH (s ++ [SP]) Hrest); [|assumption].
        right. exists s. split; [reflexivity | assumption].
Qed.

(** X11.  When no sentence of the text is longer than [max_chunk_size],
    no chunk [_split_fixed_size] returns is longer than [max_chunk_size]. *)
Theorem fixed_chunks_within_size (self : Parser) (t c : str) :
  (forall s, In s (sentences_of t) -> len s <= max_chunk_size self) ->
  In c (_split_fixed_size self t) ->
  len c <= max_chunk_size self.
Proof.
  intros Hall Hin.
  apply (fixed_size_loop_bound (max_chunk_size self) (sentences_of t) [] c Hall);
    [left; reflexivity | exact Hin].
Qed.

Lemma fixed_chunks_within_size_witness :
  let self := mkParser NORMAL FIXED_SIZE 12 100 0.7%Q "auto" pymupdf in
  let t := of_string "One. Two. Three. Four." in
  (forall s, In s (sentences_of t) -> len s <= max_chunk_size self)
  /\ _split_fixed_size self t = [of_string "One. Two."; of_string "Three. Four."]
  /\ len (of_string "Three. Four.") <= 12.
Proof.
  intros self t.
  assert (Hall : forall s, In s (sentences_of t) -> len s <= max_chunk_size self).
  { intros s Hs. vm_compute in Hs.
    repeat (destruct Hs as [<-|Hs]; [vm_compute; discriminate|]).
    contradiction. }
  assert (Hin : In (of_string "Three. Four.") (_split_fixed_size self t))
    by (vm_compute; tauto).
  split; [exact Hall|]. split; [vm_compute; reflexivity|].
  exact (fixed_chunks_within_size self t _ Hall Hin).
Defined.

Lemma fixed_size_loop_words (max_size : Z) (sentences : list str)
    (current : str) :
  (current = [] \/ exists y, current = y ++ [SP]) ->
  List.concat (map split (fixed_size_loop max_size sentences current))
  = split current ++ List.concat (map split sentences).
Proof.
  revert current; induction sentences as [|s rest IH]; intros current Hcur;
    cbn [fixed_size_loop].
  - rewrite flushed_words. cbn. rewrite app_nil_r. reflexivity.
  - assert (Hjoin : split (current ++ s ++ [SP]) = split current ++ split s).
    { unfold split. destruct Hcur as [->|(y & ->)].
      - cbn [app]. apply (split_blank_suffix [SP] s []). reflexivity.
      - rewrite <- app_assoc. cbn [app].
        rewrite (split_from_boundary SP y (s ++ [SP]) []) by reflexivity.
        rewrite (split_blank_suffix [SP] s []) by reflexivity.
        rewrite (split_blank_suffix [SP] y []) by reflexivity.
        reflexivity. }
    destruct (len current + len s <=? max_size).
    + rewrite IH by (right; exists (current ++ s); rewrite <- app_assoc; reflexivity).
      rewrite Hjoin. cbn [map List.concat]. rewrite app_assoc. reflexivity.
    + rewrite map_app, concat_app, flushed_words.
      rewrite IH by (right; exists s; reflexivity).
      unfold split at 2. rewrite (split_blank_suffix [SP] s []) by reflexivity.
      reflexivity.
Qed.

(** X12.  [_split_fixed_size] keeps the words of the text: the words of
    the chunks, read in order, are exactly the words of the text, whatever
    the chunk size. *)
Theorem fixed_chunks_keep_words (self : Parser) (t : str) :
  List.concat (map split (_split_fixed_size self t)) = split t.
Proof.
  unfold _split_fixed_size. cbv zeta. fold (sentences_of t).
  rewrite fixed_size_loop_words by (left; reflexivity).
  apply sentences_words.
Qed.

(** ** [split_by_pages] *)

Lemma page_chunks_texts (pages_data : list PageData) :
  map chunk_text (page_chunks pages_data)
  = map text (filter (fun page => truthy (strip (text page))) pages_data).
Proof.
  induction pages_data as [|page rest IH]; simpl; [reflexivity|].
  destruct (truthy (strip (text page))); simpl; rewrite IH; reflexivity.
Qed.

(** X13.  Under the PAGE strategy [split_by_pages] makes one chunk per
    page with visible text, in page order, so that joining the chunk texts
    with a blank line gives the text of the extraction result the pages
    came from. *)
Theorem page_chunks_rebuild_text (depth : nat) (E : Env)
    (selection : option (list Z)) (self chunker : Parser)
    (r : ExtractionResult) :
  outcome (extract_text depth E selection self) = Return r ->
  join [NL; NL] (map chunk_text (split_by_pages chunker (pages r) (Some PAGE)))
  = result_text r
  /\ (List.length (split_by_pages chunker (pages r) (Some PAGE))
      <= List.length (pages r))%nat
  /\ Forall (fun c => has_visible (chunk_text c) = true)
            (split_by_pages chunker (pages r) (Some PAGE)).
Proof.
  intro Hr. destruct (produced_pages_ok _ _ _ _ _ Hr) as (Ht & _ & _).
  unfold split_by_pages. cbn [get_or].
  split; [|split].
  - rewrite page_chunks_texts, Ht. reflexivity.
  - rewrite <- (length_map chunk_text), page_chunks_texts, length_map.
    apply filter_length_le.
  - apply Forall_forall. intros c Hc.
    assert (Hin : In (chunk_text c) (map chunk_text (page_chunks (pages r))))
      by (apply in_map; assumption).
    rewrite page_chunks_texts in Hin. apply in_map_iff in Hin.
    destruct Hin as (p & <- & Hp). apply filter_In in Hp.
    apply strip_truthy_visible, Hp.
Qed.

Lemma page_chunks_rebuild_text_witness :
  let r := returned (extract_text 1 five_pages None Sample.parser) in
  outcome (extract_text 1 five_pages None Sample.parser) = Return r
  /\ List.length (pages r) = 5%nat
  /\ List.length (split_by_pages Sample.parser (pages r) (Some PAGE)) = 4%nat
  /\ join [NL; NL]
          (map chunk_text (split_by_pages Sample.parser (pages r) (Some PAGE)))
     = result_text r.
Proof.
  intro r.
  assert (H : outcome (extract_text 1 five_pages None Sample.parser) = Return r)
    by (vm_compute; reflexivity).
  split; [exact H|]. split; [vm_compute; reflexivity|].
  split; [vm_compute; reflexivity|].
  exact (proj1 (page_chunks_rebuild_text 1 five_pages None Sample.parser
                  Sample.parser r H)).
Defined.

Lemma blank_pages_no_text (pages_data : list PageData) :
  (forall p, In p pages_data -> has_visible (text p) = false) ->
  filter (fun page => truthy (strip (text page))) pages_data = [].
Proof.
  induction pages_data as [|p rest IH]; intro H; [reflexivity|]. simpl.
  destruct (truthy (strip (text p))) eqn:Ht.
  - apply strip_truthy_visible in Ht.
    rewrite (H p (or_introl eq_refl)) in Ht. discriminate.
  - apply IH. intros q Hq. apply H. right. assumption.
Qed.

(** X14.  Pages without visible text give no chunk under any strategy;
    the strategies PARAGRAPH, SECTION and SMART give no chunk for any
    pages. *)
Theorem blank_pages_give_no_chunks (self : Parser) (pages_data : list PageData)
    (strategy : option ChunkStrategy) :
  (forall p, In p pages_data -> has_visible (text p) = false)
  \/ (get_or strategy (chunk_strategy self) <> PAGE
      /\ get_or strategy (chunk_strategy self) <> FIXED_SIZE) ->
  split_by_pages self pages_data strategy = [].
Proof.
  unfold split_by_pages. intros [Hblank|[H1 H2]].
  - pose proof (blank_pages_no_text pages_data Hblank) as Hf.
    destruct (get_or strategy (chunk_strategy self)); try reflexivity.
    + assert (Hm : map chunk_text (page_chunks pages_data) = [])
        by (rewrite page_chunks_texts, Hf; reflexivity).
      destruct (page_chunks pages_data); [reflexivity | discriminate].
    + cbv zeta. unfold full_text_of. rewrite Hf.
      unfold _split_fixed_size. cbn.
      destruct (0 <=? max_chunk_size self); reflexivity.
  - destruct (get_or strategy (chunk_strategy self)); congruence.
Qed.

Lemma blank_pages_give_no_chunks_witness :
  let blank := [mkPageData 1 (of_string "   ") 0 3 false false 0.5%Q;
                mkPageData 2 [] 0 0 false false 0%Q] in
  (forall p, In p blank -> has_visible (text p) = false)
  /\ split_by_pages Sample.parser blank (Some FIXED_SIZE) = []
  /\ split_by_pages Sample.parser blank None = [].
Proof.
  intro blank.
  assert (H : forall p, In p blank -> has_visible (text p) = false).
  { intros p [<-|[<-|[]]]; reflexivity. }
  split; [exact H|].
  split; apply blank_pages_give_no_chunks; left; exact H.
Defined.

(* ================================================================== *)
(** * The converter's helpers *)

(** ** [_detect_format] *)

Lemma lower_ascii_idempotent (c : ascii) :
  lower_ascii (lower_ascii c) = lower_ascii c.
Proof. destruct c as [[] [] [] [] [] [] [] []]; reflexivity. Qed.

Lemma lower_idempotent (s : string) : lower (lower s) = lower s.
Proof.
  induction s as [|c s IH]; simpl; [reflexivity|].
  rewrite lower_ascii_idempotent, IH. reflexivity.
Qed.

Lemma dict_get_value {A} (d : list (string * A)) (key : string) (default : A) :
  dict_get d key default = default
  \/ In (key, dict_get d key default) d.
Proof.
  induction d as [|[k v] d IH]; simpl; [left; reflexivity|].
  destruct (String.eqb_spec k key) as [->|Hk].
  - right. left. reflexivity.
  - destruct IH as [IH|IH]; [left | right; right]; assumption.
Qed.

Lemma dict_get_among {A} (d : list (string * A)) (key : string) (default : A)
    (values : list A) :
  In default values ->
  Forall (fun kv => In (snd kv) values) d ->
  In (dict_get d key default) values.
Proof.
  intros Hd Hall. induction Hall as [|[k v] d Hv _ IH]; simpl; [assumption|].
  destruct (String.eqb k key); assumption.
Qed.

(** X15.  [_detect_format] always answers one of the five formats
    [convert] has a branch for; it answers 'text' for a suffix it does not
    know, and does not depend on the case of the suffix. *)
Theorem detected_format_is_supported (output_path : PathView) :
  In (_detect_format output_path) supported_formats
  /\ ((forall fmt, ~ In (lower (suffix output_path), fmt) format_map) ->
      _detect_format output_path = "text"%string)
  /\ _detect_format
       (mkPathView (path_text output_path) (path_name output_path)
                   (lower (suffix output_path)) (path_exists output_path)
                   (st_size output_path))
     = _detect_format output_path.
Proof.
  unfold _detect_format. cbv zeta. cbn [suffix].
  split; [|split].
  - apply dict_get_among; [left; reflexivity|].
    unfold format_map, supported_formats.
    repeat (constructor; [cbn; auto 10|]). constructor.
  - intro Hno.
    destruct (dict_get_value format_map (lower (suffix output_path)) "text"%string)
      as [->|Hin]; [reflexivity|].
    elim (Hno _ Hin).
  - rewrite lower_idempotent. reflexivity.
Qed.

Lemma detected_format_is_supported_witness :
  let out := mkPathView "notes.MD" "notes.MD" ".MD" (Return false) (Return 0) in
  let odd := mkPathView "notes.docx" "notes.docx" ".docx" (Return false) (Return 0) in
  _detect_format out = "markdown"%string
  /\ (forall fmt, ~ In (lower (suffix odd), fmt) format_map)
  /\ _detect_format odd = "text"%string.
Proof.
  intros out odd.
  assert (H : forall fmt, ~ In (lower (suffix odd), fmt) format_map).
  { intros fmt Hin. unfold format_map in Hin. cbn in Hin.
    repeat (destruct Hin as [Hin|Hin]; [discriminate|]). contradiction. }
  split; [reflexivity|]. split; [exact H|].
  exact (proj1 (proj2 (detected_format_is_supported odd)) H).
Defined.

(** ** [_escape_html] *)

Lemma replace_from_char (c : N) (new : str) (fuel : nat) :
  forall s,
    (List.length s <= fuel)%nat ->
    replace_from fuel [c] new s
    = flat_map (fun x => if (x =? c)%N then new else [x]) s.
Proof.
  induction fuel as [|fuel IH]; intros s Hlen.
  - destruct s; [reflexivity | simpl in Hlen; lia].
  - destruct s as [|x s]; [reflexivity|]. simpl in Hlen.
    cbn [replace_from starts_with flat_map List.length skipn].
    rewrite andb_true_r, (N.eqb_sym c x).
    destruct (x =? c)%N; rewrite IH by lia; reflexivity.
Qed.

Lemma replace_char (c : N) (new s : str) :
  replace [c] new s = flat_map (fun x => if (x =? c)%N then new else [x]) s.
Proof. unfold replace. apply replace_from_char. lia. Qed.

Lemma escape_char_steps (x : N) :
  flat_map (fun y => if (y =? 39)%N then of_string "&#x27;" else [y])
    (flat_map (fun y => if (y =? 34)%N then of_string "&quot;" else [y])
       (flat_map (fun y => if (y =? 62)%N then of_string "&gt;" else [y])
          (flat_map (fun y => if (y =? 60)%N then of_string "&lt;" else [y])
             (if (x =? 38)%N then of_string "&amp;" else [x]))))
  = escape_char x.
Proof.
  unfold escape_char.
  destruct (x =? 38)%N eqn:H38; [reflexivity|]. cbn [flat_map app].
  destruct (x =? 60)%N eqn:H60; [reflexivity|]. cbn [flat_map app].
  destruct (x =? 62)%N eqn:H62; [reflexivity|]. cbn [flat_map app].
  destruct (x =? 34)%N eqn:H34; [reflexivity|]. cbn [flat_map app].
  destruct (x =? 39)%N eqn:H39; reflexivity.
Qed.

Lemma escape_steps_all (t : str) :
  flat_map (fun y => if (y =? 39)%N then of_string "&#x27;" else [y])
    (flat_map (fun y => if (y =? 34)%N then of_string "&quot;" else [y])
       (flat_map (fun y => if (y =? 62)%N then of_string "&gt;" else [y])
          (flat_map (fun y => if (y =? 60)%N then of_string "&lt;" else [y])
             (flat_map (fun y => if (y =? 38)%N then of_string "&amp;" else [y])
                       t))))
  = flat_map escape_char t.
Proof.
  induction t as [|x t IH]; [reflexivity|].
  cbn [flat_map]. rewrite !flat_map_app, IH, escape_char_steps. reflexivity.
Qed.

(** The five replacements amount to one pass over the characters. *)
Lemma escape_html_one_pass (t : str) :
  _escape_html t = flat_map escape_char t.
Proof.
  unfold _escape_html. destruct t as [|c t']; [reflexivity|]. cbn [truthy negb].
  cbv zeta. set (t := c :: t').
  change (of_string "&") with [38%N]. change (of_string "<") with [60%N].
  change (of_string ">") with [62%N]. change (of_string "'") with [39%N].
  rewrite !replace_char. apply escape_steps_all.
Qed.

Lemma escape_char_markup (x : N) :
  Forall (fun c => is_markup c = false) (escape_char x).
Proof.
  unfold escape_char.
  destruct (x =? 38)%N eqn:H38; [repeat constructor|].
  destruct (x =? 60)%N eqn:H60; [repeat constructor|].
  destruct (x =? 62)%N eqn:H62; [repeat constructor|].
  destruct (x =? 34)%N eqn:H34; [repeat constructor|].
  destruct (x =? 39)%N eqn:H39; [repeat constructor|].
  constructor; [|constructor]. unfold is_markup.
  rewrite H60, H62, H34, H39. reflexivity.
Qed.

Lemma escape_char_length (c : N) : (1 <= List.length (escape_char c))%nat.
Proof.
  unfold escape_char.
  repeat match goal with
         | |- context [if ?b then _ else _] => destruct b
         end; cbn; lia.
Qed.

(** X16.  The text [_escape_html] returns holds none of the characters
    [<], [>], double quote and single quote; a text that holds none of
    these and no [&] is returned as it is; and the result is never shorter
    than the text. *)
Theorem escaped_text_has_no_markup (t : str) :
  Forall (fun c => is_markup c = false) (_escape_html t)
  /\ (Forall (fun c => is_special c = false) t -> _escape_html t = t)
  /\ (List.length t <= List.length (_escape_html t))%nat.
Proof.
  rewrite escape_html_one_pass. split; [|split].
  - induction t as [|c t IH]; simpl; [constructor|].
    apply Forall_app. split; [apply escape_char_markup | exact IH].
  - induction 1 as [|c t Hc _ IH]; simpl; [reflexivity|].
    rewrite IH. unfold is_special, is_markup in Hc. unfold escape_char.
    destruct (c =? 38)%N, (c =? 60)%N, (c =? 62)%N, (c =? 34)%N, (c =? 39)%N;
      try discriminate. reflexivity.
  - induction t as [|c t IH]; simpl; [lia|].
    rewrite length_app.
    pose proof (escape_char_length c). lia.
Qed.

Lemma escaped_text_has_no_markup_witness :
  _escape_html (of_string "<a href='x'>Q&A</a>")
  = of_string "&lt;a href=&#x27;x&#x27;&gt;Q&amp;A&lt;/a&gt;"
  /\ Forall (fun c => is_special c = false) (of_string "plain text")
  /\ _escape_html (of_string "plain text") = of_string "plain text".
Proof.
  assert (H : Forall (fun c => is_special c = false) (of_string "plain text"))
    by (repeat constructor).
  split; [vm_compute; reflexivity|]. split; [exact H|].
  exact (proj1 (proj2 (escaped_text_has_no_markup _)) H).
Defined.

Lemma unescape_escape_from (t : str) :
  forall fuel,
    (List.length (flat_map escape_char t) <= fuel)%nat ->
    unescape_from fuel (flat_map escape_char t) = t.
Proof.
  induction t as [|c t IH]; intros fuel Hlen.
  - destruct fuel; reflexivity.
  - cbn [flat_map] in *. rewrite length_app in Hlen.
    pose proof (escape_char_length c) as Hc.
    destruct fuel as [|fuel]; [lia|].
    assert (Hrest : (List.length (flat_map escape_char t) <= fuel)%nat) by lia.
    specialize (IH fuel Hrest). clear Hlen Hc Hrest.
    remember (flat_map escape_char t) as rest eqn:Hr. clear Hr.
    unfold escape_char.
    destruct (c =? 38)%N eqn:H38.
    { apply N.eqb_eq in H38. subst c. cbn. rewrite IH. reflexivity. }
    destruct (c =? 60)%N eqn:H60.
    { apply N.eqb_eq in H60. subst c. cbn. rewrite IH. reflexivity. }
    destruct (c =? 62)%N eqn:H62.
    { apply N.eqb_eq in H62. subst c. cbn. rewrite IH. reflexivity. }
    destruct (c =? 34)%N eqn:H34.
    { apply N.eqb_eq in H34. subst c. cbn. rewrite IH. reflexivity. }
    destruct (c =? 39)%N eqn:H39.
    { apply N.eqb_eq in H39. subst c. cbn. rewrite IH. reflexivity. }
    cbn [app unescape_from of_string starts_with].
    change (N_of_ascii "&") with 38%N.
    rewrite (N.eqb_sym 38 c), H38. cbn [andb].
    rewrite IH. reflexivity.
Qed.

(** X17.  Escaping loses nothing: reading the five entities back gives the
    original text, so two different texts never have the same escaped
    form. *)
Theorem escape_html_is_reversible (t : str) :
  unescape (_escape_html t) = t
  /\ forall s, _escape_html s = _escape_html t -> s = t.
Proof.
  assert (Hback : forall u, unescape (_escape_html u) = u).
  { intro u. rewrite escape_html_one_pass. apply unescape_escape_from. lia. }
  split; [apply Hback|].
  intros s Heq. rewrite <- (Hback s), Heq. apply Hback.
Qed.

Lemma escape_html_is_reversible_witness :
  let t := of_string "a < b && c > 'd' &amp; more" in
  let s := of_string "a < b && c > " ++ of_string "'d' &amp; more" in
  unescape (_escape_html t) = t
  /\ _escape_html (of_string "&amp;") = of_string "&amp;amp;"
  /\ _escape_html s = _escape_html t
  /\ s = t.
Proof.
  intros t s.
  assert (H : _escape_html s = _escape_html t) by reflexivity.
  split; [exact (proj1 (escape_html_is_reversible t))|].
  split; [vm_compute; reflexivity|]. split; [exact H|].
  exact (proj2 (escape_html_is_reversible t) s H).
Defined.

(* ================================================================== *)
(** * The engine's report *)

Lemma count_pages_from (flag : PageData -> bool) (pages_data : list PageData)
    (acc : Z) :
  acc <= fold_left (fun a page => if flag page then a + 1 else a) pages_data acc
      <= acc + Z.of_nat (List.length pages_data).
Proof.
  revert acc; induction pages_data as [|p ps IH]; intro acc; simpl; [lia|].
  destruct (flag p).
  - specialize (IH (acc + 1)). lia.
  - specialize (IH acc). lia.
Qed.

Lemma count_pages_bounds (flag : PageData -> bool) (pages_data : list PageData) :
  0 <= count_pages flag pages_data <= Z.of_nat (List.length pages_data).
Proof. unfold count_pages. apply (count_pages_from flag pages_data 0). Qed.

Lemma sum_fold_at_most (pages_data : list PageData) :
  Forall (fun p => (extraction_quality p <= 1)%Q) pages_data ->
  (fold_right Qplus 0 (map extraction_quality pages_data)
   <= inject_Z (Z.of_nat (List.length pages_data)))%Q.
Proof.
  induction 1 as [|p ps Hp _ IH]; [discriminate|].
  cbn [map fold_right List.length].
  rewrite Nat2Z.inj_succ, <- Z.add_1_l, inject_Z_plus.
  apply Qplus_le_compat; assumption.
Qed.

Lemma average_quality_bounds (pages_data : list PageData) :
  pages_data <> [] ->
  Forall page_ok pages_data ->
  (0 <= sum_quality pages_data / inject_Z (Z.of_nat (List.length pages_data))
   <= 1)%Q.
Proof.
  intros Hne Hall.
  assert (Hpos : (0 < inject_Z (Z.of_nat (List.length pages_data)))%Q).
  { rewrite <- (Zlt_Qlt 0). destruct pages_data; [congruence | simpl; lia]. }
  assert (H0 : Forall (fun p => (0 <= extraction_quality p)%Q) pages_data).
  { eapply Forall_impl; [|exact Hall]. intro p. apply page_ok_nonneg. }
  assert (H1 : Forall (fun p => (extraction_quality p <= 1)%Q) pages_data).
  { eapply Forall_impl; [|exact Hall]. intros p (_ & _ & ->).
    apply page_quality_bounds. }
  split.
  - apply Qle_shift_div_l; [assumption|]. rewrite Qmult_0_l, sum_quality_fold.
    apply sum_fold_nonneg; assumption.
  - apply Qle_shift_div_r; [assumption|]. rewrite Qmult_1_l, sum_quality_fold.
    apply sum_fold_at_most; assumption.
Qed.

Lemma failed_result_has_message (depth : nat) (E : Env)
    (selection : option (list Z)) (self : Parser) (r : ExtractionResult) :
  outcome (extract_text depth E selection self) = Return r ->
  success r = false ->
  exists msg, error_message r = Some msg.
Proof.
  intros Hr Hs. apply extract_text_cases in Hr.
  destruct Hr as [Hcp ->|m Hcp Hm Hv ->|e Hcp He ->|requested Hcp Ha
                 |result requested b Hcp Ha Hb Hs' Hq
                 |result requested b e Hcp Ha Hb ->];
    try (eexists; reflexivity).
  - apply extracted_success in Ha. destruct Ha as [Ha _]. congruence.
  - congruence.
Qed.

(** [get_info] is the parser's run followed by the building of the
    dictionary: it has no [try] and no logging of its own. *)
Lemma get_info_run (depth : nat) (E : Env) (file_path : string)
    (verbose : bool) (self : Parser) :
  let x := extract_text depth E None self in
  final (get_info depth E file_path verbose self) = self
  /\ trace (get_info depth E file_path verbose self) = trace x
  /\ match outcome x with
     | Raise e => outcome (get_info depth E file_path verbose self) = Raise e
     | Return r =>
         exists info, outcome (get_info depth E file_path verbose self)
                      = Return info
     end.
Proof.
  cbv zeta. pose proof (extract_text_keeps depth E None self) as Hk.
  unfold get_info.
  destruct (outcome (extract_text depth E None self)) as [r|e] eqn:Ho.
  - rewrite (bind_return_run _ _ _ _ Ho), Hk.
    destruct (negb (success r)); [|destruct verbose];
      cbn [final trace outcome ret]; rewrite app_nil_r;
      (split; [reflexivity|]); (split; [reflexivity|]);
      eexists; reflexivity.
  - rewrite (bind_raise_run _ _ _ _ Ho), Hk. cbn [final trace outcome].
    repeat split.
Qed.

(** X18.  [get_info] raises only what the [can_parse] check of
    [extract_text] raised; otherwise it returns a report.  For a failed
    extraction the report is exactly ['success': False] and ['error'] with
    an error string, verbose or not.  For a successful one ['file_path'] is
    the argument as given; the short report has the twelve basic keys and
    nothing else; the verbose report has one entry of ['page_details'] per
    page record, ['average_quality'] is the integer 0 when there is no
    page and a number in [0, 1] otherwise, and ['pages_with_images'] and
    ['pages_with_tables'] lie between 0 and the number of pages. *)
Theorem report_statistics (depth : nat) (E : Env) (file_path : string)
    (verbose : bool) (self : Parser) :
  match can_parse E with
  | Raise e => outcome (get_info depth E file_path verbose self) = Raise e
  | Return _ =>
    exists r info,
      outcome (extract_text depth E None self) = Return r
      /\ outcome (get_info depth E file_path verbose self) = Return info
      /\ (success r = false ->
          exists msg, info = [("success"%string, Plain (VBool false));
                              ("error"%string, Plain (VStr msg))])
      /\ (success r = true ->
          dict_get info "success" (Plain VNone) = Plain (VBool true)
          /\ dict_get info "file_path" (Plain VNone) = Plain (VStr file_path)
          /\ if verbose then
               dict_get info "page_details" (Plain VNone)
               = Rows (map page_detail (pages r))
               /\ match dict_get info "average_quality" (Plain VNone) with
                  | Plain (VInt n) => pages r = [] /\ n = 0
                  | Plain (VFloat q) => pages r <> [] /\ (0 <= q <= 1)%Q
                  | _ => False
                  end
               /\ (exists n, dict_get info "pages_with_images" (Plain VNone)
                             = Plain (VInt n)
                             /\ 0 <= n <= Z.of_nat (List.length (pages r)))
               /\ (exists n, dict_get info "pages_with_tables" (Plain VNone)
                             = Plain (VInt n)
                             /\ 0 <= n <= Z.of_nat (List.length (pages r)))
             else
               map fst info
               = ["success"; "file_path"; "file_size"; "page_count"; "title";
                  "author"; "subject"; "creator"; "producer"; "is_encrypted";
                  "backend_used"; "quality_score"]%string)
  end.
Proof.
  pose proof (extract_text_returns depth E None self) as Hret.
  destruct (can_parse E) as [parseable|e].
  2:{ unfold get_info. rewrite (bind_raise_run _ _ _ e) by (rewrite Hret; reflexivity).
      reflexivity. }
  destruct Hret as [r Hr]. exists r.
  assert (Hg : outcome (get_info depth E file_path verbose self)
               = outcome ((fun result => _) r
                            (final (extract_text depth E None self))))
    by (unfold get_info; apply bind_return_outcome; exact Hr).
  cbv beta in Hg. rewrite Hg. clear Hg.
  destruct (success r) eqn:Hs; cbn [negb].
  - destruct verbose.
    + eexists. split; [exact Hr|]. split; [reflexivity|].
      split; [discriminate|]. intros _.
      split; [reflexivity|]. split; [reflexivity|]. split; [reflexivity|].
      split; [|split].
      * cbn [dict_get app String.eqb Ascii.eqb Bool.eqb].
        destruct (produced_pages_ok _ _ _ _ _ Hr) as (_ & Hall & _).
        destruct (pages r) as [|p ps] eqn:Hp; [split; reflexivity|].
        split; [discriminate|]. rewrite <- Hp in *.
        apply average_quality_bounds; [rewrite Hp; discriminate | assumption].
      * eexists. split; [reflexivity | apply count_pages_bounds].
      * eexists. split; [reflexivity | apply count_pages_bounds].
    + eexists. split; [exact Hr|]. split; [reflexivity|].
      split; [discriminate|]. intros _.
      split; [reflexivity|]. split; reflexivity.
  - destruct (failed_result_has_message _ _ _ _ _ Hr Hs) as [msg Hmsg].
    eexists. split; [exact Hr|]. split; [reflexivity|].
    split; [|discriminate]. intros _. exists msg. rewrite Hmsg. reflexivity.
Qed.

(** X19.  When the [can_parse] check answers [False], because the suffix
    is not [.pdf] or [exists()] returns [False], [get_info] opens no
    library and logs nothing: it returns ['success': False] with the
    error 'Cannot parse file: <path>', verbose or not, and leaves the
    parser as it was.  When [exists()] raises, so does [get_info], with
    the same exception. *)
Theorem unparseable_file_report (depth : nat) (E : Env) (file_path_arg : string)
    (verbose : bool) (self : Parser) :
  can_parse E <> Return true ->
  get_info depth E file_path_arg verbose self
  = mkRun self []
      match can_parse E with
      | Raise e => Raise e
      | Return _ =>
          Return [("success"%string, Plain (VBool false));
                  ("error"%string,
                   Plain (VStr ("Cannot parse file: "
                                ++ path_text (file_path E))%string))]
      end.
Proof.
  intro Hcp. unfold get_info.
  pose proof (extract_text_body_unfold (nested_call depth E) E None self) as Hx.
  rewrite <- extract_text_unfold in Hx.
  destruct (can_parse E) as [[|]|e]; [congruence| |].
  - rewrite bind_return_run
      with (a := failure default_metadata (backend_name (backend self))
                   ("Cannot parse file: " ++ path_text (file_path E))%string)
      by (rewrite Hx; reflexivity).
    rewrite Hx. reflexivity.
  - rewrite (bind_raise_run _ _ _ e) by (rewrite Hx; reflexivity).
    rewrite Hx. reflexivity.
Qed.

Lemma unparseable_file_report_witness :
  let notes := mkEnv true true true
                 (mkPathView "notes.txt" "notes.txt" ".txt" (Return true)
                             (Return 10))
                 (fun _ => Sample.doc [Sample.sentence]) in
  let denied := mkEnv true true true
                  (mkPathView "/root/a.pdf" "a.pdf" ".pdf"
                     (Raise (OSError "[Errno 13] Permission denied: '/root/a.pdf'"))
                     (Return 10))
                  (fun _ => Sample.doc [Sample.sentence]) in
  (can_parse notes <> Return true
   /\ get_info 3 notes "./notes.txt" true Sample.parser
      = mkRun Sample.parser []
          (Return [("success"%string, Plain (VBool false));
                   ("error"%string, Plain (VStr "Cannot parse file: notes.txt"))]))
  /\ (can_parse denied <> Return true
      /\ get_info 3 denied "/root/a.pdf" false Sample.parser
         = mkRun Sample.parser []
             (Raise (OSError "[Errno 13] Permission denied: '/root/a.pdf'"))).
Proof.
  intros notes denied.
  assert (H1 : can_parse notes <> Return true) by (vm_compute; discriminate).
  assert (H2 : can_parse denied <> Return true) by (vm_compute; discriminate).
  split.
  - split; [exact H1|].
    exact (unparseable_file_report 3 notes "./notes.txt" true Sample.parser H1).
  - split; [exact H2|].
    exact (unparseable_file_report 3 denied "/root/a.pdf" false Sample.parser H2).
Defined.
